(** * second-brain: message routing, retrieval pipeline and background indexer

    A shallow embedding of
      - api/agents/base_agent.py   (AgentResponse, BaseAgent)
      - api/agents/director.py     (MessageDirector)
      - api/agents/qa_agent.py     (QAAgent, the three search stages)
      - api/agents/research_agent.py (ResearchAgent)
      - api/indexer.py             (BackgroundIndexer)
    and the properties of the routing-and-retrieval specification that
    are checked against it.

    Conventions.
      - A Python [str] is a list of Unicode code points ([str := list N]).
      - A Python [int] is a [Z]; slices and indexing follow Python's rules
        for negative and out-of-range arguments.
      - A Python [float] that is neither nan nor an infinity is a dyadic
        rational, and the comparisons of floats are the comparisons of
        these rationals: scores are values of [Q].
      - A [Dict[str, Any]] is a [gmap string pyval].
      - Effects are explicit: a computation is a function from a state to
        a result (a value or a raised exception) and a new state.  The
        state of the agents is the trace of their calls to collaborators;
        the state of the indexer also holds its counters and flags.
      - The collaborators (LLM provider, vector index, document store,
        reranker, metadata extractor) are fields of a record [World]:
        within one run each of them is a function of its arguments, and
        either returns or fails with an [Exception].  [str.lower], whose
        Unicode tables are no part of the repository, is a field too.
      - A task is followed from its start to its end: the cancellation of
        an [await] from another task ([asyncio.CancelledError]) is an
        exception of the model that no collaborator raises.
      - String constants are given by their code points, with the text of
        the source in a comment before them. *)

From Stdlib Require Import ZArith NArith QArith List String Ascii Lia Bool.
From Stdlib Require Import DecimalString Sorted.
From stdpp Require Import base gmap strings list.

Local Open Scope Z_scope.

(** ** Python strings *)

Module PyStr.

Abbreviation str := (list N).

(** An ASCII literal as a [str]. *)
Definition u (s : string) : str :=
  map (fun a : ascii => N_of_ascii a) (list_ascii_of_string s).

(** [str.isspace] for one code point: the characters whose bidirectional
    class is WS, B or S or whose category is Zs. *)
Definition isspace (c : N) : bool :=
  ((9 <=? c) && (c <=? 13) || (28 <=? c) && (c <=? 32)
   || (c =? 133) || (c =? 160) || (c =? 5760)
   || (8192 <=? c) && (c <=? 8202)
   || (c =? 8232) || (c =? 8233) || (c =? 8239) || (c =? 8287)
   || (c =? 12288))%N.

(** [s.lstrip()], [s.rstrip()], [s.strip()] *)
Fixpoint lstrip (s : str) : str :=
  match s with
  | c :: s' => if isspace c then lstrip s' else s
  | [] => []
  end.

Definition rstrip (s : str) : str := rev (lstrip (rev s)).

Definition strip (s : str) : str := rstrip (lstrip s).

(** [s.startswith(p)] *)
Fixpoint startswith (s p : str) : bool :=
  match p, s with
  | [], _ => true
  | _ :: _, [] => false
  | a :: p', b :: s' => (a =? b)%N && startswith s' p'
  end.

(** [c in s] for a one-character [c] *)
Definition contains_char (c : N) (s : str) : bool :=
  existsb (fun x => (x =? c)%N) s.

(** [p in s] for a substring [p] *)
Fixpoint contains (p s : str) : bool :=
  startswith s p ||
  match s with
  | [] => false
  | _ :: s' => contains p s'
  end.

(** [s.split()]: the maximal runs of characters that are not white space.
    [cur] is the run being read, in reverse. *)
Fixpoint split_from (cur : str) (s : str) : list str :=
  match s with
  | [] => match cur with [] => [] | _ => [rev cur] end
  | c :: s' =>
      if isspace c
      then match cur with
           | [] => split_from [] s'
           | _ => rev cur :: split_from [] s'
           end
      else split_from (c :: cur) s'
  end.

Definition split (s : str) : list str := split_from [] s.

Definition str_eqb (a b : str) : bool := bool_decide (a = b).

(** [x in l] for a list of strings *)
Definition str_in (x : str) (l : list str) : bool := existsb (str_eqb x) l.

(** [str(n)] for a non-negative [n] *)
Definition of_nat (n : nat) : str := u (NilEmpty.string_of_uint (Nat.to_uint n)).

(** The restriction of [str.lower] to Basic Latin and the basic Russian
    alphabet; used where a concrete run needs a lowering function. *)
Definition lower_latin_cyrillic (s : str) : str :=
  map (fun c : N =>
         if ((65 <=? c) && (c <=? 90))%N then (c + 32)%N
         else if ((1040 <=? c) && (c <=? 1071))%N then (c + 32)%N
         else if (c =? 1025)%N then 1105%N
         else c) s.

End PyStr.
Import PyStr.

(** ** Python sequences *)

Module PySeq.

(** [l[:k]] *)
Definition slice_to {A} (k : Z) (l : list A) : list A :=
  if 0 <=? k then take (Z.to_nat k) l
  else take (length l - Z.to_nat (- k))%nat l.

(** [l[i:j]] for [0 <= i] and [0 <= j], as the indexer uses it *)
Definition slice {A} (i j : nat) (l : list A) : list A :=
  take (j - i)%nat (drop i l).

(** [l[i]]: [None] is IndexError *)
Definition index {A} (l : list A) (i : Z) : option A :=
  if 0 <=? i then l !! Z.to_nat i
  else if - i <=? Z.of_nat (length l)
       then l !! (length l - Z.to_nat (- i))%nat
       else None.

(** [len(l)] *)
Definition len {A} (l : list A) : Z := Z.of_nat (length l).

(** [list(range(n))] *)
Definition range (n : Z) : list Z :=
  map Z.of_nat (seq 0 (Z.to_nat n)).

(** [list(range(0, n, step))]: [None] is the ValueError of a zero step. *)
Definition range_step (n step : Z) : option (list Z) :=
  if step =? 0 then None
  else if step <? 0 then Some []
  else Some (map (fun k => k * step) (range ((n + step - 1) / step))).

(** [l.sort(key=key, reverse=True)]: Python's sort is stable, also with
    [reverse=True], so elements of equal key keep their order. *)
Definition Qlt_bool (a b : Q) : bool := negb (Qle_bool b a).

Fixpoint insert_desc {A} (key : A -> Q) (x : A) (l : list A) : list A :=
  match l with
  | [] => [x]
  | y :: l' => if Qlt_bool (key x) (key y) then y :: insert_desc key x l'
               else x :: y :: l'
  end.

Definition sort_desc {A} (key : A -> Q) (l : list A) : list A :=
  foldr (insert_desc key) [] l.

(** [l.sort(key=key)] with integer keys *)
Fixpoint insert_asc {A} (key : A -> Z) (x : A) (l : list A) : list A :=
  match l with
  | [] => [x]
  | y :: l' => if key y <? key x then y :: insert_asc key x l'
               else x :: y :: l'
  end.

Definition sort_asc {A} (key : A -> Z) (l : list A) : list A :=
  foldr (insert_asc key) [] l.

End PySeq.
Import PySeq.

(** ** Values, exceptions and computations *)

(** The values stored in contexts and response metadata. *)
Inductive pyval :=
| VNone
| VBool (b : bool)
| VInt (n : Z)
| VStr (s : str)
| VStrList (l : list str).

(** Truth value of a Python object *)
Definition truthy (v : pyval) : bool :=
  match v with
  | VNone => false
  | VBool b => b
  | VInt n => negb (n =? 0)
  | VStr s => match s with [] => false | _ => true end
  | VStrList l => match l with [] => false | _ => true end
  end.

(** Exceptions: [asyncio.CancelledError] derives from [BaseException] and
    is not caught by [except Exception]; every other exception raised in
    this code is an [Exception], carried with its [str(e)]. *)
Inductive exn :=
| Exception (msg : str)
| CancelledError.

Inductive result (A : Type) :=
| Ok (a : A)
| Raised (e : exn).
Arguments Ok {A} a.
Arguments Raised {A} e.

(** What a call to a collaborator does: return or fail with a message. *)
Inductive outcome (A : Type) :=
| Returns (a : A)
| Fails (msg : str).
Arguments Returns {A} a.
Arguments Fails {A} msg.

Module Prog.

Definition Prog (S A : Type) := S -> result A * S.

Definition ret {S A} (a : A) : Prog S A := fun s => (Ok a, s).

Definition bind {S A B} (c : Prog S A) (k : A -> Prog S B) : Prog S B :=
  fun s => match c s with
           | (Ok a, s') => k a s'
           | (Raised e, s') => (Raised e, s')
           end.

Definition raise {S A} (e : exn) : Prog S A := fun s => (Raised e, s).

(** [try: c  except Exception as e: h e] *)
Definition try_except {S A} (c : Prog S A) (h : str -> Prog S A) : Prog S A :=
  fun s => match c s with
           | (Raised (Exception msg), s') => h msg s'
           | r => r
           end.

(** [try: c  except: h] (a bare except catches everything) *)
Definition try_bare {S A} (c : Prog S A) (h : Prog S A) : Prog S A :=
  fun s => match c s with
           | (Raised _, s') => h s'
           | r => r
           end.

(** A statement-level loop [for x in l: body x] *)
Fixpoint for_each {S A} (l : list A) (body : A -> Prog S unit) : Prog S unit :=
  match l with
  | [] => ret tt
  | x :: l' => bind (body x) (fun _ => for_each l' body)
  end.

(** A loop that threads an accumulator: [for x in l: acc = body acc x] *)
Fixpoint fold_each {S A B} (l : list A) (acc : B) (body : B -> A -> Prog S B)
  : Prog S B :=
  match l with
  | [] => ret acc
  | x :: l' => bind (body acc x) (fun acc' => fold_each l' acc' body)
  end.

End Prog.
Import Prog.

Notation "'let*' x ':=' c 'in' k" := (bind c (fun x => k))
  (at level 10, x name, c at level 100, k at level 200).

(** The double nearest to 0.3, which the literal [0.3] denotes. *)
Definition float_0_3 : Q := 5404319552844595 # 18014398509481984.

(** ** Traces and collaborators *)

Definition Embedding := list Q.

(** A chat message of a completion call: role and content. *)
Definition ChatMessage := (str * str)%type.

(** A document of the document store, as [_find] returns it: the fields
    are those the code reads with [doc.get]; [None] is an absent key. *)
Record Doc := {
  doc_id : option str;      (* '_id' *)
  doc_path : option str;    (* 'path' *)
  doc_data : option str;    (* 'data' *)
  doc_mtime : option Z;     (* 'mtime' *)
  doc_ctime : option Z      (* 'ctime' *)
}.

(** A hit of [VectorStoreClient.search_similar] *)
Record VectorResult := {
  vr_note_id : str;
  vr_score : Q;
  vr_category : option str;
  vr_tags : list str;
  vr_keywords : list str;
  vr_summary : str;
  vr_mtime : Z
}.

(** The metadata the extractor yields, as far as the indexer reads it. *)
Record NoteMetadata := {
  md_category : option str;
  md_tags : option (list str);
  md_keywords : option (list str);
  md_summary : option str
}.

(** The payload [upsert_note] receives from the indexer. *)
Record NotePayload := {
  np_category : str;
  np_tags : list str;
  np_keywords : list str;
  np_mtime : Z;
  np_ctime : Z;
  np_summary : str
}.

(** [doc.get('_id') or doc.get('path', '')] *)
Definition doc_note_id (doc : Doc) : str :=
  match doc_id doc with
  | Some (c :: s) => c :: s
  | _ => default [] (doc_path doc)
  end.

(** The calls to collaborators that a run makes, in order. *)
Inductive event :=
| EvComplete (messages : list ChatMessage) (temperature : Q)
             (max_tokens : option Z)
| EvEmbed (text : str)
| EvSearchSimilar (query_embedding : Embedding) (limit : Z)
                  (filters : gmap string pyval) (score_threshold : Q)
| EvSearchDocuments (query : str) (limit : Z)
| EvGetDocument (doc_id : str)
| EvRerank (query : str) (documents : list str) (top_n : Z)
| EvGetAllDocuments (limit : Z)
| EvVectorStats
| EvExtractMetadata (content : str)
| EvUpsert (note_id : str) (embedding : Embedding) (payload : NotePayload)
| EvSleep (seconds : Z).

Definition trace := list event.

Record World := {
  (* str.lower, a builtin *)
  lower : str -> str;
  (* LLMManager *)
  llm_complete : list ChatMessage -> Q -> option Z -> outcome str;
  llm_embed_text : str -> outcome Embedding;
  (* VectorStoreClient *)
  vs_search_similar : Embedding -> Z -> gmap string pyval -> Q
                      -> outcome (list VectorResult);
  vs_get_stats : outcome (option Z);          (* 'total_vectors' *)
  vs_upsert_note : str -> Embedding -> NotePayload -> outcome unit;
  (* CouchDBClient *)
  db_search_documents : str -> Z -> outcome (list Doc);
  db_get_document : str -> outcome Doc;
  db_get_all_documents : Z -> outcome (list Doc);
  (* cohere.Client.rerank: the [index] of each result *)
  cohere_rerank : str -> list str -> Z -> outcome (list Z);
  (* MetadataGenerator *)
  mg_extract_metadata : str -> outcome NoteMetadata;
  mg_enrich_frontmatter : str -> NoteMetadata -> outcome str;
  (* datetime.now().isoformat() *)
  clock_now : str
}.

Definition lift {S A} (o : outcome A) : Prog S A :=
  match o with
  | Returns a => ret a
  | Fails msg => raise (Exception msg)
  end.

(** A call from an agent: the event is appended to the trace, then the
    collaborator answers. *)
Definition call {A} (ev : event) (o : outcome A) : Prog trace A :=
  fun t => lift o (t ++ [ev]).

(** ** base_agent.py *)

Record AgentResponse := {
  text : str;
  success : bool;
  metadata : option (gmap string pyval);
  suggested_actions : option (list str)
}.

(** [BaseAgent]: the abstract methods are fields.  [can_handle] returns a
    confidence or fails with an exception; [process] is a computation
    over the trace of collaborator calls. *)
Record BaseAgent := {
  name : string;
  can_handle : str -> gmap string pyval -> outcome Q;
  process : str -> gmap string pyval -> Prog trace AgentResponse
}.

(** ** director.py *)

Module Director.

Record MessageDirector := {
  _agents : list BaseAgent;
  _agent_map : gmap string BaseAgent
}.

(** [MessageDirector.__init__] *)
Definition init : MessageDirector :=
  {| _agents := []; _agent_map := ∅ |}.

Definition register_agent (self : MessageDirector) (agent : BaseAgent)
  : MessageDirector :=
  {| _agents := _agents self ++ [agent];
     _agent_map := <[name agent := agent]> (_agent_map self) |}.

Definition get_agent (self : MessageDirector) (n : string)
  : option BaseAgent :=
  _agent_map self !! n.

Inductive Intent := question | note | command.

Definition is_question (i : Intent) : bool :=
  match i with question => true | _ => false end.

(** [intent in ['question', 'note', 'command']] *)
Definition intent_of_str (s : str) : option Intent :=
  if str_eqb s (u "question") then Some question
  else if str_eqb s (u "note") then Some note
  else if str_eqb s (u "command") then Some command
  else None.

(** ['что', 'где', 'когда', 'как', 'почему', 'кто',
     'what', 'where', 'when', 'how', 'why', 'who'] *)
Definition interrogatives : list str :=
  [ [1095; 1090; 1086]%N; [1075; 1076; 1077]%N;
    [1082; 1086; 1075; 1076; 1072]%N; [1082; 1072; 1082]%N;
    [1087; 1086; 1095; 1077; 1084; 1091]%N; [1082; 1090; 1086]%N;
    u "what"; u "where"; u "when"; u "how"; u "why"; u "who" ].

Definition dq : str := [34%N].
Definition nl : str := [10%N].

Definition intent_system_prompt : str :=
  u "You are an intent classifier. " ++ nl ++
  u "Classify the user message as one of:" ++ nl ++
  u "- " ++ dq ++ u "question" ++ dq ++ u " - if user is asking something" ++ nl ++
  u "- " ++ dq ++ u "note" ++ dq ++ u " - if user is saving information/thoughts" ++ nl ++
  u "- " ++ dq ++ u "command" ++ dq ++ u " - if user is giving a command" ++ nl ++
  nl ++
  u "Respond with just one word: question, note, or command.".

Definition intent_messages (message : str) : list ChatMessage :=
  [ (u "system", intent_system_prompt);
    (u "user", u "Message: " ++ message) ].

Definition _analyze_intent (w : World) (message : str) : Prog trace Intent :=
  if startswith (strip message) (u "/") then ret command
  else if contains_char 63 message
          || existsb (fun q => startswith (lower w message) q) interrogatives
  then ret question
  else if (length (split message) <? 15)%nat then ret note
  else
    let* classified :=
      try_except
        (let* response :=
           call (EvComplete (intent_messages message) (1 # 10) None)
                (llm_complete w (intent_messages message) (1 # 10) None) in
         ret (intent_of_str (lower w (strip response))))
        (fun _ => ret None) in
    match classified with
    | Some intent => ret intent
    | None => ret note
    end.

(** [context.get('awaiting_research', False)] as a condition *)
Definition awaiting_research (context : gmap string pyval) : bool :=
  truthy (default (VBool false) (context !! "awaiting_research"%string)).

Definition no_agents_response : AgentResponse :=
  {| text := u "No agents available to handle this message.";
     success := false;
     metadata := None;
     suggested_actions := None |}.

Definition route_message (w : World) (self : MessageDirector)
    (message : str) (context : gmap string pyval) : Prog trace AgentResponse :=
  match (if awaiting_research context
         then get_agent self "research" else None) with
  | Some research_agent => process research_agent message context
  | None =>
      let* intent := _analyze_intent w message in
      match (if is_question intent then get_agent self "qa" else None) with
      | Some qa_agent => process qa_agent message context
      | None =>
          match get_agent self "note_taker" with
          | Some note_taker => process note_taker message context
          | None => ret no_agents_response
          end
      end
  end.

Definition select_best_agent (self : MessageDirector)
    (message : str) (context : gmap string pyval)
  : Prog trace (option BaseAgent) :=
  match _agents self with
  | [] => ret None
  | _ =>
      let* scores :=
        fold_each (_agents self) []
          (fun scores agent =>
             try_except
               (let* score := lift (can_handle agent message context) in
                ret (scores ++ [(agent, score)]))
               (fun _ => ret (scores ++ [(agent, 0%Q)]))) in
      match sort_desc snd scores with
      | (best_agent, best_score) :: _ =>
          if Qlt_bool float_0_3 best_score then ret (Some best_agent)
          else ret None
      | [] => raise (Exception (u "list index out of range"))
      end
  end.

Definition list_agents (self : MessageDirector) : list string :=
  map name (_agents self).

End Director.

(** ** base_agent.py: helpers shared by the agents *)

Module Base.

(* что, где, когда, как, почему, зачем, кто, чем, what, where, when, how, why, who, which *)
Definition question_words : list str :=
  [ [1095; 1090; 1086]%N; [1075; 1076; 1077]%N;
    [1082; 1086; 1075; 1076; 1072]%N; [1082; 1072; 1082]%N;
    [1087; 1086; 1095; 1077; 1084; 1091]%N;
    [1079; 1072; 1095; 1077; 1084]%N; [1082; 1090; 1086]%N;
    [1095; 1077; 1084]%N; u "what"; u "where"; u "when"; u "how"; u "why";
    u "who"; u "which" ].

(** [BaseAgent._is_question] *)
Definition _is_question (w : World) (message : str) : bool :=
  let message_lower := lower w message in
  if contains_char 63 message then true
  else existsb (fun word => startswith message_lower (word ++ u " "))
               question_words.

(* the, a, an, and, or, but, in, on, at, to, for, of, with, by, from, as, is, was, are, were, и, в, на, с, по, для, из, к, от, о, это, как *)
Definition stop_words : list str :=
  [ u "the"; u "a"; u "an"; u "and"; u "or"; u "but"; u "in"; u "on";
    u "at"; u "to"; u "for"; u "of"; u "with"; u "by"; u "from"; u "as";
    u "is"; u "was"; u "are"; u "were"; [1080]%N; [1074]%N; [1085; 1072]%N;
    [1089]%N; [1087; 1086]%N; [1076; 1083; 1103]%N; [1080; 1079]%N;
    [1082]%N; [1086; 1090]%N; [1086]%N; [1101; 1090; 1086]%N;
    [1082; 1072; 1082]%N ].

(** [BaseAgent._extract_keywords] *)
Definition _extract_keywords (w : World) (text : str) : list str :=
  let words := split (lower w text) in
  let keywords :=
    List.filter
      (fun wd => (3 <? length wd)%nat && negb (str_in wd stop_words))
      words in
  slice_to 10 keywords.

End Base.

(** ** qa_agent.py *)

Inductive SearchSource := vector | fulltext.

(** A candidate of the hybrid search: the keys the pipeline reads. *)
Record Candidate := {
  note_id : str;
  search_source : SearchSource;
  search_score : Q;
  summary : str;
  category : option str;
  tags : option (list str)     (* [None]: the dict has no 'tags' *)
}.

(** A document loaded for the answer or the report. *)
Record LoadedDoc := {
  path : str;
  content : str;
  ld_category : option str;
  ld_tags : option (list str)  (* [None]: the dict has no 'tags' *)
}.

(** The agent object: its name and whether [cohere.Client] was created. *)
Record AgentSelf := {
  self_name : string;
  cohere_client : bool
}.

Module QAAgent.

Definition init (cohere : bool) : AgentSelf :=
  {| self_name := "qa"; cohere_client := cohere |}.

Definition can_handle (w : World) (message : str)
    (context : gmap string pyval) : outcome Q :=
  if Base._is_question w message then Returns (9 # 10) else Returns (1 # 10).

Definition _stage1_metadata_filter (keywords : list str)
  : Prog trace (gmap string pyval) :=
  let filters : gmap string pyval := ∅ in
  ret filters.

(** The dict a hit of the vector search becomes once tagged. *)
Definition of_vector (r : VectorResult) : Candidate :=
  {| note_id := vr_note_id r;
     search_source := vector;
     search_score := vr_score r;
     summary := vr_summary r;
     category := vr_category r;
     tags := Some (vr_tags r) |}.

(** [s.rsplit('/', 1)[0]] *)
Fixpoint after_first (sep : N) (s : str) : str :=
  match s with
  | [] => []
  | c :: s' => if (c =? sep)%N then s' else after_first sep s'
  end.

Definition rsplit1_head (sep : N) (s : str) : str :=
  if contains_char sep s then rev (after_first sep (rev s)) else s.

(** The dict appended for a full-text hit. *)
Definition of_doc (doc : Doc) : Candidate :=
  let p := default [] (doc_path doc) in
  {| note_id := doc_note_id doc;
     search_source := fulltext;
     search_score := 7 # 10;
     summary := slice_to 200 (default [] (doc_data doc));
     category := Some (if contains_char 47 p then rsplit1_head 47 p
                       else u "Inbox");
     tags := None |}.

Definition _stage2_hybrid_search (w : World) (query : str)
    (filters : gmap string pyval) (limit : Z) : Prog trace (list Candidate) :=
  let candidates : list Candidate := [] in
  (* Vector search via Qdrant *)
  let* candidates :=
    try_except
      (let* query_embedding := call (EvEmbed query) (llm_embed_text w query) in
       let* vector_results :=
         call (EvSearchSimilar query_embedding 30 filters float_0_3)
              (vs_search_similar w query_embedding 30 filters float_0_3) in
       ret (candidates ++ map of_vector vector_results))
      (fun _ => ret candidates) in
  (* Full-text search via CouchDB *)
  let* candidates :=
    try_except
      (let* text_results :=
         call (EvSearchDocuments query 30) (db_search_documents w query 30) in
       let existing_ids : gset (list N) :=
         list_to_set (map note_id candidates) in
       ret (candidates ++
            map of_doc
              (filter (fun doc => doc_note_id doc ∉ existing_ids)
                      text_results)))
      (fun _ => ret candidates) in
  (* Limit to top 50 *)
  ret (slice_to limit candidates).

(* 🤷 Не нашел релевантных заметок по вашему вопросу. *)
Definition qa_not_found_text : str :=
  [129335; 32; 1053; 1077; 32; 1085; 1072; 1096; 1077; 1083; 32; 1088; 1077;
  1083; 1077; 1074; 1072; 1085; 1090; 1085; 1099; 1093; 32; 1079; 1072;
  1084; 1077; 1090; 1086; 1082; 32; 1087; 1086; 32; 1074; 1072; 1096; 1077;
  1084; 1091; 32; 1074; 1086; 1087; 1088; 1086; 1089; 1091; 46]%N.

(* ❌ Ошибка при поиске ответа:  *)
Definition qa_error_text : str :=
  [10060; 32; 1054; 1096; 1080; 1073; 1082; 1072; 32; 1087; 1088; 1080; 32;
  1087; 1086; 1080; 1089; 1082; 1077; 32; 1086; 1090; 1074; 1077; 1090;
  1072; 58; 32]%N.

(* 🤷 Нашел заметки, но не смог их загрузить. *)
Definition qa_not_loaded_text : str :=
  [129335; 32; 1053; 1072; 1096; 1077; 1083; 32; 1079; 1072; 1084; 1077;
  1090; 1082; 1080; 44; 32; 1085; 1086; 32; 1085; 1077; 32; 1089; 1084;
  1086; 1075; 32; 1080; 1093; 32; 1079; 1072; 1075; 1088; 1091; 1079; 1080;
  1090; 1100; 46]%N.

(* \n\n📚 **Источники:**\n *)
Definition qa_sources_header : str :=
  [10; 10; 128218; 32; 42; 42; 1048; 1089; 1090; 1086; 1095; 1085; 1080;
  1082; 1080; 58; 42; 42; 10]%N.

(* ❌ Не удалось сгенерировать ответ. *)
Definition qa_answer_failed_text : str :=
  [10060; 32; 1053; 1077; 32; 1091; 1076; 1072; 1083; 1086; 1089; 1100; 32;
  1089; 1075; 1077; 1085; 1077; 1088; 1080; 1088; 1086; 1074; 1072; 1090;
  1100; 32; 1086; 1090; 1074; 1077; 1090; 46]%N.

(* Ты помощник, который отвечает на вопросы на основе базы знаний
   пользователя.\n\nПравила:\n- Отвечай на русском языке (если вопрос на
   русском)\n- Используй только информацию из предоставленных документов\n-
   Если информации недостаточно, так и скажи\n- Будь кратким и по делу\n-
   Ссылайся на конкретные документы при необходимости *)
Definition qa_system_prompt : str :=
  [1058; 1099; 32; 1087; 1086; 1084; 1086; 1097; 1085; 1080; 1082; 44; 32;
  1082; 1086; 1090; 1086; 1088; 1099; 1081; 32; 1086; 1090; 1074; 1077;
  1095; 1072; 1077; 1090; 32; 1085; 1072; 32; 1074; 1086; 1087; 1088; 1086;
  1089; 1099; 32; 1085; 1072; 32; 1086; 1089; 1085; 1086; 1074; 1077; 32;
  1073; 1072; 1079; 1099; 32; 1079; 1085; 1072; 1085; 1080; 1081; 32; 1087;
  1086; 1083; 1100; 1079; 1086; 1074; 1072; 1090; 1077; 1083; 1103; 46; 10;
  10; 1055; 1088; 1072; 1074; 1080; 1083; 1072; 58; 10; 45; 32; 1054; 1090;
  1074; 1077; 1095; 1072; 1081; 32; 1085; 1072; 32; 1088; 1091; 1089; 1089;
  1082; 1086; 1084; 32; 1103; 1079; 1099; 1082; 1077; 32; 40; 1077; 1089;
  1083; 1080; 32; 1074; 1086; 1087; 1088; 1086; 1089; 32; 1085; 1072; 32;
  1088; 1091; 1089; 1089; 1082; 1086; 1084; 41; 10; 45; 32; 1048; 1089;
  1087; 1086; 1083; 1100; 1079; 1091; 1081; 32; 1090; 1086; 1083; 1100;
  1082; 1086; 32; 1080; 1085; 1092; 1086; 1088; 1084; 1072; 1094; 1080;
  1102; 32; 1080; 1079; 32; 1087; 1088; 1077; 1076; 1086; 1089; 1090; 1072;
  1074; 1083; 1077; 1085; 1085; 1099; 1093; 32; 1076; 1086; 1082; 1091;
  1084; 1077; 1085; 1090; 1086; 1074; 10; 45; 32; 1045; 1089; 1083; 1080;
  32; 1080; 1085; 1092; 1086; 1088; 1084; 1072; 1094; 1080; 1080; 32; 1085;
  1077; 1076; 1086; 1089; 1090; 1072; 1090; 1086; 1095; 1085; 1086; 44; 32;
  1090; 1072; 1082; 32; 1080; 32; 1089; 1082; 1072; 1078; 1080; 10; 45; 32;
  1041; 1091; 1076; 1100; 32; 1082; 1088; 1072; 1090; 1082; 1080; 1084; 32;
  1080; 32; 1087; 1086; 32; 1076; 1077; 1083; 1091; 10; 45; 32; 1057; 1089;
  1099; 1083; 1072; 1081; 1089; 1103; 32; 1085; 1072; 32; 1082; 1086; 1085;
  1082; 1088; 1077; 1090; 1085; 1099; 1077; 32; 1076; 1086; 1082; 1091;
  1084; 1077; 1085; 1090; 1099; 32; 1087; 1088; 1080; 32; 1085; 1077; 1086;
  1073; 1093; 1086; 1076; 1080; 1084; 1086; 1089; 1090; 1080]%N.

(* Вопрос:  *)
Definition qa_prompt_question : str :=
  [1042; 1086; 1087; 1088; 1086; 1089; 58; 32]%N.

(* \n\nКонтекст из базы знаний:\n *)
Definition qa_prompt_context : str :=
  [10; 10; 1050; 1086; 1085; 1090; 1077; 1082; 1089; 1090; 32; 1080; 1079;
  32; 1073; 1072; 1079; 1099; 32; 1079; 1085; 1072; 1085; 1080; 1081; 58;
  10]%N.

(* \n\nОтветь на вопрос, используя информацию из контекста. *)
Definition qa_prompt_instruction : str :=
  [10; 10; 1054; 1090; 1074; 1077; 1090; 1100; 32; 1085; 1072; 32; 1074;
  1086; 1087; 1088; 1086; 1089; 44; 32; 1080; 1089; 1087; 1086; 1083; 1100;
  1079; 1091; 1103; 32; 1080; 1085; 1092; 1086; 1088; 1084; 1072; 1094;
  1080; 1102; 32; 1080; 1079; 32; 1082; 1086; 1085; 1090; 1077; 1082; 1089;
  1090; 1072; 46]%N.


Definition chat (system_prompt user_prompt : str) : list ChatMessage :=
  [ (u "system", system_prompt); (u "user", user_prompt) ].

Definition _generate_answer (w : World) (question : str)
    (context_docs : list LoadedDoc) : Prog trace str :=
  let context_text :=
    concat (imap (fun i doc =>
                    ([10%N] ++ u "--- Document " ++ of_nat (S i) ++ u ": "
                     ++ path doc ++ u " ---" ++ [10%N])
                    ++ content doc ++ [10%N])
                 context_docs) in
  let user_prompt :=
    qa_prompt_question ++ question ++ qa_prompt_context
    ++ slice_to 6000 context_text ++ qa_prompt_instruction in
  let messages := chat qa_system_prompt user_prompt in
  try_except
    (let* answer :=
       call (EvComplete messages (1 # 2) (Some 1000))
            (llm_complete w messages (1 # 2) (Some 1000)) in
     ret (strip answer))
    (fun _ => ret qa_answer_failed_text).

(** [{'found_count': n}] *)
Definition found_count_metadata (n : Z) : gmap string pyval :=
  {[ "found_count"%string := VInt n ]}.

(** Stage 3, "Prepare documents for reranking" *)
Definition docs_for_rerank (w : World) (candidates : list Candidate)
  : Prog trace (list str) :=
  fold_each candidates []
    (fun docs cand =>
       let text := summary cand in
       let* text :=
         match text with
         | [] =>
             (* If no summary, try to get from CouchDB *)
             try_bare
               (let* doc := call (EvGetDocument (note_id cand))
                                 (db_get_document w (note_id cand)) in
                ret (slice_to 500 (default [] (doc_data doc))))
               (ret (note_id cand))
         | _ => ret text
         end in
       ret (docs ++ [text])).

(** Stage 3, "Rerank with Cohere if available" *)
Definition rerank_indices (self : AgentSelf) (w : World) (question : str)
    (candidates : list Candidate) (docs : list str) (top_k : Z)
  : Prog trace (list Z) :=
  if cohere_client self && match docs with [] => false | _ => true end
  then
    try_except
      (call (EvRerank question docs (Z.min top_k (len docs)))
            (cohere_rerank w question docs (Z.min top_k (len docs))))
      (fun _ =>
         (* Fall back to original order *)
         ret (range (Z.min top_k (len candidates))))
  else ret (range (Z.min top_k (len candidates))).

(** [[candidates[i] for i in indices]]: an index out of range raises
    IndexError. *)
Definition pick (candidates : list Candidate) (indices : list Z)
  : Prog trace (list Candidate) :=
  fold_each indices []
    (fun picked i =>
       match index candidates i with
       | Some cand => ret (picked ++ [cand])
       | None => raise (Exception (u "list index out of range"))
       end).

(** Stage 3, "Load full content for top candidates" *)
Definition load_context_docs (w : World) (top_candidates : list Candidate)
  : Prog trace (list LoadedDoc) :=
  fold_each top_candidates []
    (fun context_docs cand =>
       try_except
         (let* doc := call (EvGetDocument (note_id cand))
                           (db_get_document w (note_id cand)) in
          ret (context_docs ++
               [ {| path := note_id cand;
                    content := slice_to 2000 (default [] (doc_data doc));
                    ld_category := category cand;
                    ld_tags := None |} ]))
         (fun _ => ret context_docs)).

(** Stage 3 from "Load full content" on: the answer built from the
    retained candidates. *)
Definition analyze (w : World) (question : str)
    (candidates top_candidates : list Candidate) : Prog trace AgentResponse :=
  let* context_docs := load_context_docs w top_candidates in
  match context_docs with
  | [] =>
      ret {| text := qa_not_loaded_text;
             success := true;
             metadata := Some (found_count_metadata (len candidates));
             suggested_actions := None |}
  | _ =>
      let* answer_text := _generate_answer w question context_docs in
      let sources_text :=
        qa_sources_header ++
        concat (imap (fun i doc =>
                        of_nat (S i) ++ u ". `" ++ path doc ++ u "`" ++ [10%N])
                     (slice_to 5 context_docs)) in
      let final_text := answer_text ++ sources_text in
      ret {| text := final_text;
             success := true;
             metadata :=
               Some (<["found_count"%string := VInt (len candidates)]>
                     (<["reranked_count"%string := VInt (len top_candidates)]>
                      {[ "sources"%string := VStrList (map path context_docs) ]}));
             suggested_actions := None |}
  end.

Definition _stage3_rerank_and_analyze (self : AgentSelf) (w : World)
    (question : str) (candidates : list Candidate) (top_k : Z)
  : Prog trace AgentResponse :=
  let* docs := docs_for_rerank w candidates in
  let* reranked_indices := rerank_indices self w question candidates docs top_k in
  (* Get top documents *)
  let* top_candidates := pick candidates (slice_to top_k reranked_indices) in
  analyze w question candidates top_candidates.

Definition process (self : AgentSelf) (w : World) (message : str)
    (context : gmap string pyval) : Prog trace AgentResponse :=
  try_except
    ((* Stage 1: Metadata filtering *)
     let keywords := Base._extract_keywords w message in
     let* metadata_filters := _stage1_metadata_filter keywords in
     (* Stage 2: Hybrid search *)
     let* candidates := _stage2_hybrid_search w message metadata_filters 50 in
     match candidates with
     | [] =>
         ret {| text := qa_not_found_text;
                success := true;
                metadata := Some (found_count_metadata 0);
                suggested_actions := None |}
     | _ =>
         (* Stage 3: Rerank and analyze *)
         _stage3_rerank_and_analyze self w message candidates 10
     end)
    (fun e =>
       ret {| text := qa_error_text ++ e;
              success := false;
              metadata := None;
              suggested_actions := None |}).

(** The agent as the director sees it. *)
Definition agent (self : AgentSelf) (w : World) : BaseAgent :=
  Build_BaseAgent (self_name self) (can_handle w) (process self w).

End QAAgent.

(** ** research_agent.py *)

Module ResearchAgent.

Import QAAgent.

(** [ResearchAgent.__init__]: the agent of [QAAgent.__init__], renamed. *)
Definition init (cohere : bool) : AgentSelf :=
  {| self_name := "research"; cohere_client := cohere |}.

Definition can_handle (message : str) (context : gmap string pyval)
  : outcome Q :=
  if truthy (default (VBool false) (context !! "awaiting_research"%string))
  then Returns 1%Q else Returns 0%Q.

(* 🔍 Не нашел достаточно материала для исследования этой темы. *)
Definition research_not_found_text : str :=
  [128269; 32; 1053; 1077; 32; 1085; 1072; 1096; 1077; 1083; 32; 1076; 1086;
  1089; 1090; 1072; 1090; 1086; 1095; 1085; 1086; 32; 1084; 1072; 1090;
  1077; 1088; 1080; 1072; 1083; 1072; 32; 1076; 1083; 1103; 32; 1080; 1089;
  1089; 1083; 1077; 1076; 1086; 1074; 1072; 1085; 1080; 1103; 32; 1101;
  1090; 1086; 1081; 32; 1090; 1077; 1084; 1099; 46]%N.

(* 🔍 Нашел заметки, но не смог их обработать. *)
Definition research_not_loaded_text : str :=
  [128269; 32; 1053; 1072; 1096; 1077; 1083; 32; 1079; 1072; 1084; 1077;
  1090; 1082; 1080; 44; 32; 1085; 1086; 32; 1085; 1077; 32; 1089; 1084;
  1086; 1075; 32; 1080; 1093; 32; 1086; 1073; 1088; 1072; 1073; 1086; 1090;
  1072; 1090; 1100; 46]%N.

(* ❌ Ошибка при исследовании:  *)
Definition research_error_text : str :=
  [10060; 32; 1054; 1096; 1080; 1073; 1082; 1072; 32; 1087; 1088; 1080; 32;
  1080; 1089; 1089; 1083; 1077; 1076; 1086; 1074; 1072; 1085; 1080; 1080;
  58; 32]%N.

(* Analyze these documents about '' *)
Definition pass1_prompt_head : str :=
  u "Analyze these documents about " ++ [34]%N.

(* '' and provide:\n\n1. A brief overview (3-4 sentences)\n2. Key themes and
   topics (bullet points)\n3. Main concepts mentioned\n\nDocuments:\n *)
Definition pass1_prompt_body : str :=
  [34]%N ++ u " and provide:" ++ [10; 10]%N ++
  u "1. A brief overview (3-4 sentences)" ++ [10]%N ++
  u "2. Key themes and topics (bullet points)" ++ [10]%N ++
  u "3. Main concepts mentioned" ++ [10; 10]%N ++ u "Documents:" ++ [10]%N.

(* \n\nRespond in Russian with clear structure. *)
Definition pass1_prompt_tail : str :=
  [10; 10]%N ++ u "Respond in Russian with clear structure.".

(* You are a research analyst. Provide clear, structured analysis. *)
Definition pass1_system_prompt : str :=
  u "You are a research analyst. Provide clear, structured analysis.".

(* Не удалось создать обзор. *)
Definition pass1_failed_text : str :=
  [1053; 1077; 32; 1091; 1076; 1072; 1083; 1086; 1089; 1100; 32; 1089; 1086;
  1079; 1076; 1072; 1090; 1100; 32; 1086; 1073; 1079; 1086; 1088; 46]%N.

(* Analyze connections and relationships in these documents about '' *)
Definition pass2_prompt_head : str :=
  u "Analyze connections and relationships in these documents about " ++
  [34]%N.

(* '':\n\n *)
Definition pass2_prompt_body : str :=
  [34; 58; 10; 10]%N.

(* \n\nIdentify:\n1. How documents relate to each other\n2. Common patterns
   or recurring ideas\n3. Contradictions or different perspectives\n4.
   Knowledge gaps (what's missing)\n\nRespond in Russian. *)
Definition pass2_prompt_tail : str :=
  [10; 10]%N ++ u "Identify:" ++ [10]%N ++
  u "1. How documents relate to each other" ++ [10]%N ++
  u "2. Common patterns or recurring ideas" ++ [10]%N ++
  u "3. Contradictions or different perspectives" ++ [10]%N ++
  u "4. Knowledge gaps (what's missing)" ++ [10; 10]%N ++
  u "Respond in Russian.".

(* You are a research analyst focusing on connections and patterns. *)
Definition pass2_system_prompt : str :=
  u "You are a research analyst focusing on connections and patterns.".

(* Не удалось проанализировать связи. *)
Definition pass2_failed_text : str :=
  [1053; 1077; 32; 1091; 1076; 1072; 1083; 1086; 1089; 1100; 32; 1087; 1088;
  1086; 1072; 1085; 1072; 1083; 1080; 1079; 1080; 1088; 1086; 1074; 1072;
  1090; 1100; 32; 1089; 1074; 1103; 1079; 1080; 46]%N.

(* Based on the research about '' *)
Definition pass3_prompt_head : str :=
  u "Based on the research about " ++ [34]%N.

(* '', synthesize the findings:\n\nOverview:\n *)
Definition pass3_prompt_overview : str :=
  [34]%N ++ u ", synthesize the findings:" ++ [10; 10]%N ++ u "Overview:" ++
  [10]%N.

(* \n\nConnections:\n *)
Definition pass3_prompt_connections : str :=
  [10; 10]%N ++ u "Connections:" ++ [10]%N.

(* \n\nProvide:\n1. Key insights (3-5 main points)\n2. Actionable
   conclusions\n3. Suggested next steps or areas for further
   exploration\n\nRespond in Russian with clear structure. *)
Definition pass3_prompt_tail : str :=
  [10; 10]%N ++ u "Provide:" ++ [10]%N ++
  u "1. Key insights (3-5 main points)" ++ [10]%N ++
  u "2. Actionable conclusions" ++ [10]%N ++
  u "3. Suggested next steps or areas for further exploration" ++ [10;
  10]%N ++ u "Respond in Russian with clear structure.".

(* You are a research analyst synthesizing findings. *)
Definition pass3_system_prompt : str :=
  u "You are a research analyst synthesizing findings.".

(* Не удалось синтезировать выводы. *)
Definition pass3_failed_text : str :=
  [1053; 1077; 32; 1091; 1076; 1072; 1083; 1086; 1089; 1100; 32; 1089; 1080;
  1085; 1090; 1077; 1079; 1080; 1088; 1086; 1074; 1072; 1090; 1100; 32;
  1074; 1099; 1074; 1086; 1076; 1099; 46]%N.

(* 🔍 **Исследование:**  *)
Definition report_title : str :=
  [128269; 32; 42; 42; 1048; 1089; 1089; 1083; 1077; 1076; 1086; 1074; 1072;
  1085; 1080; 1077; 58; 42; 42; 32]%N.

(* \n\n📊 **ОБЗОР**\n *)
Definition report_overview : str :=
  [10; 10; 128202; 32; 42; 42; 1054; 1041; 1047; 1054; 1056; 42; 42; 10]%N.

(* \n\n🔗 **СВЯЗИ И ПАТТЕРНЫ**\n *)
Definition report_connections : str :=
  [10; 10; 128279; 32; 42; 42; 1057; 1042; 1071; 1047; 1048; 32; 1048; 32;
  1055; 1040; 1058; 1058; 1045; 1056; 1053; 1067; 42; 42; 10]%N.

(* \n\n💡 **ВЫВОДЫ И ИНСАЙТЫ**\n *)
Definition report_synthesis : str :=
  [10; 10; 128161; 32; 42; 42; 1042; 1067; 1042; 1054; 1044; 1067; 32; 1048;
  32; 1048; 1053; 1057; 1040; 1049; 1058; 1067; 42; 42; 10]%N.

(* \n\n📚 **ИСТОЧНИКИ** ( *)
Definition report_sources : str :=
  [10; 10; 128218; 32; 42; 42; 1048; 1057; 1058; 1054; 1063; 1053; 1048;
  1050; 1048; 42; 42; 32; 40]%N.

(*  документов)\n *)
Definition report_sources_unit : str :=
  [32; 1076; 1086; 1082; 1091; 1084; 1077; 1085; 1090; 1086; 1074; 41; 10]%N.


Definition _rerank_and_load (self : AgentSelf) (w : World) (query : str)
    (candidates : list Candidate) (top_k : Z) : Prog trace (list LoadedDoc) :=
  (* Prepare for reranking *)
  let docs_for_rerank := map summary candidates in
  (* Rerank *)
  let reranked_indices := range (len candidates) in
  let* reranked_indices :=
    if cohere_client self
       && match docs_for_rerank with [] => false | _ => true end
    then
      try_except
        (call (EvRerank query docs_for_rerank
                        (Z.min top_k (len docs_for_rerank)))
              (cohere_rerank w query docs_for_rerank
                             (Z.min top_k (len docs_for_rerank))))
        (fun _ => ret (range (Z.min top_k (len candidates))))
    else ret reranked_indices in
  (* Load full content *)
  fold_each (slice_to top_k reranked_indices) []
    (fun docs idx =>
       try_except
         (let* cand :=
            match index candidates idx with
            | Some cand => ret cand
            | None => raise (Exception (u "list index out of range"))
            end in
          let* doc := call (EvGetDocument (note_id cand))
                           (db_get_document w (note_id cand)) in
          ret (docs ++
               [ {| path := note_id cand;
                    content := default [] (doc_data doc);
                    ld_category := category cand;
                    ld_tags := Some (default [] (tags cand)) |} ]))
         (fun _ => ret docs)).

Definition _pass1_overview (w : World) (topic : str)
    (documents : list LoadedDoc) : Prog trace str :=
  let context :=
    concat (imap (fun i doc =>
                    ([10%N] ++ u "--- Doc " ++ of_nat (S i) ++ u ": "
                     ++ path doc ++ u " ---" ++ [10%N])
                    ++ slice_to 1500 (content doc) ++ [10%N])
                 (slice_to 15 documents)) in
  let prompt :=
    pass1_prompt_head ++ topic ++ pass1_prompt_body
    ++ slice_to 8000 context ++ pass1_prompt_tail in
  let messages := chat pass1_system_prompt prompt in
  try_except
    (let* response :=
       call (EvComplete messages (2 # 5) (Some 1500))
            (llm_complete w messages (2 # 5) (Some 1500)) in
     ret (strip response))
    (fun _ => ret pass1_failed_text).

Definition _pass2_connections (w : World) (topic : str)
    (documents : list LoadedDoc) : Prog trace str :=
  let context :=
    concat (imap (fun i doc =>
                    ([10%N] ++ of_nat (S i) ++ u ". " ++ path doc ++ [10%N])
                    ++ slice_to 1000 (content doc) ++ [10%N])
                 (slice_to 15 documents)) in
  let prompt :=
    pass2_prompt_head ++ topic ++ pass2_prompt_body
    ++ slice_to 8000 context ++ pass2_prompt_tail in
  let messages := chat pass2_system_prompt prompt in
  try_except
    (let* response :=
       call (EvComplete messages (2 # 5) (Some 1500))
            (llm_complete w messages (2 # 5) (Some 1500)) in
     ret (strip response))
    (fun _ => ret pass2_failed_text).

Definition _pass3_synthesis (w : World) (topic overview connections : str)
  : Prog trace str :=
  let prompt :=
    pass3_prompt_head ++ topic ++ pass3_prompt_overview ++ overview
    ++ pass3_prompt_connections ++ connections ++ pass3_prompt_tail in
  let messages := chat pass3_system_prompt prompt in
  try_except
    (let* response :=
       call (EvComplete messages (1 # 2) (Some 1500))
            (llm_complete w messages (1 # 2) (Some 1500)) in
     ret (strip response))
    (fun _ => ret pass3_failed_text).

(** [sep.join(l)] *)
Fixpoint join (sep : str) (l : list str) : str :=
  match l with
  | [] => []
  | [x] => x
  | x :: l' => x ++ sep ++ join sep l'
  end.

Definition _format_research_report (topic overview connections synthesis : str)
    (sources : list LoadedDoc) : str :=
  let report :=
    report_title ++ topic ++ report_overview ++ overview
    ++ report_connections ++ connections ++ report_synthesis ++ synthesis
    ++ report_sources ++ of_nat (length sources) ++ report_sources_unit in
  report ++
  concat (imap (fun i doc =>
                  ([10%N] ++ of_nat (S i) ++ u ". `" ++ path doc ++ u "`")
                  ++ match ld_tags doc with
                     | Some (t :: ts) =>
                         u " [" ++ join (u ", ") (slice_to 3 (t :: ts)) ++ u "]"
                     | _ => []
                     end)
               (slice_to 10 sources)).

Definition _multi_pass_analysis (w : World) (topic : str)
    (documents : list LoadedDoc) : Prog trace AgentResponse :=
  (* Pass 1: Overview and themes *)
  let* overview := _pass1_overview w topic documents in
  (* Pass 2: Connections *)
  let* connections := _pass2_connections w topic documents in
  (* Pass 3: Synthesis *)
  let* synthesis := _pass3_synthesis w topic overview connections in
  (* Format final report *)
  let report :=
    _format_research_report topic overview connections synthesis
                            (slice_to 10 documents) in
  ret {| text := report;
         success := true;
         metadata :=
           Some (<["documents_analyzed"%string := VInt (len documents)]>
                 {[ "sources"%string :=
                      VStrList (map path (slice_to 10 documents)) ]});
         suggested_actions := None |}.

Definition process (self : AgentSelf) (w : World) (message : str)
    (context : gmap string pyval) : Prog trace AgentResponse :=
  try_except
    ((* Stage 1 & 2: Search and filter *)
     let keywords := Base._extract_keywords w message in
     let* filters := _stage1_metadata_filter keywords in
     let* candidates := _stage2_hybrid_search w message filters 100 in
     match candidates with
     | [] =>
         ret {| text := research_not_found_text;
                success := true;
                metadata := Some (found_count_metadata 0);
                suggested_actions := None |}
     | _ =>
         (* Stage 3: Rerank to top 30 *)
         let* top_docs := _rerank_and_load self w message candidates 30 in
         match top_docs with
         | [] =>
             ret {| text := research_not_loaded_text;
                    success := true;
                    metadata := Some (found_count_metadata (len candidates));
                    suggested_actions := None |}
         | _ =>
             (* Multi-pass analysis *)
             _multi_pass_analysis w message top_docs
         end
     end)
    (fun e =>
       ret {| text := research_error_text ++ e;
              success := false;
              metadata := None;
              suggested_actions := None |}).

(** The agent as the director sees it. *)
Definition agent (self : AgentSelf) (w : World) : BaseAgent :=
  Build_BaseAgent (self_name self) can_handle (process self w).

End ResearchAgent.

(** ** indexer.py *)

Module Indexer.

Record Stats := {
  total_notes : Z;
  indexed_notes : Z;
  pending_notes : Z;
  failed_notes : Z;
  last_run : option str
}.

(** The indexer object, and with it the calls it has made so far. *)
Record BackgroundIndexer := {
  batch_size : Z;
  delay_seconds : Z;
  _running : bool;
  _stats : Stats;
  calls : trace
}.

(** [BackgroundIndexer.__init__] *)
Definition init (batch_size delay_seconds : Z) : BackgroundIndexer :=
  {| batch_size := batch_size;
     delay_seconds := delay_seconds;
     _running := false;
     _stats := {| total_notes := 0; indexed_notes := 0; pending_notes := 0;
                  failed_notes := 0; last_run := None |};
     calls := [] |}.

(** The defaults of the constructor: [batch_size=5], [delay_seconds=12]. *)
Definition default_indexer : BackgroundIndexer := init 5 12.

Definition set_running (b : bool) (s : BackgroundIndexer) : BackgroundIndexer :=
  {| batch_size := batch_size s; delay_seconds := delay_seconds s;
     _running := b; _stats := _stats s; calls := calls s |}.

(** [start], as far as the object goes: the flag is set; the task that
    [asyncio.create_task] starts is [_indexing_loop]. *)
Definition start (s : BackgroundIndexer) : BackgroundIndexer :=
  if _running s then s else set_running true s.

(** [stop], as far as the object goes. *)
Definition stop (s : BackgroundIndexer) : BackgroundIndexer :=
  set_running false s.

Definition I := Prog BackgroundIndexer.

Definition self : I BackgroundIndexer := fun s => (Ok s, s).

Definition update_stats (f : Stats -> Stats) : I unit :=
  fun s => (Ok tt,
            {| batch_size := batch_size s; delay_seconds := delay_seconds s;
               _running := _running s;
               _stats := f (_stats s); calls := calls s |}).

Definition set_total_notes (n : Z) (st : Stats) : Stats :=
  {| total_notes := n; indexed_notes := indexed_notes st;
     pending_notes := pending_notes st; failed_notes := failed_notes st;
     last_run := last_run st |}.

Definition set_indexed_notes (n : Z) (st : Stats) : Stats :=
  {| total_notes := total_notes st; indexed_notes := n;
     pending_notes := pending_notes st; failed_notes := failed_notes st;
     last_run := last_run st |}.

Definition set_pending_notes (n : Z) (st : Stats) : Stats :=
  {| total_notes := total_notes st; indexed_notes := indexed_notes st;
     pending_notes := n; failed_notes := failed_notes st;
     last_run := last_run st |}.

Definition set_failed_notes (n : Z) (st : Stats) : Stats :=
  {| total_notes := total_notes st; indexed_notes := indexed_notes st;
     pending_notes := pending_notes st; failed_notes := n;
     last_run := last_run st |}.

Definition set_last_run (r : option str) (st : Stats) : Stats :=
  {| total_notes := total_notes st; indexed_notes := indexed_notes st;
     pending_notes := pending_notes st; failed_notes := failed_notes st;
     last_run := r |}.

(** An awaited call: the event joins the calls, the collaborator answers. *)
Definition await {A} (ev : event) (o : outcome A) : I A :=
  fun s => lift o
             {| batch_size := batch_size s; delay_seconds := delay_seconds s;
                _running := _running s;
                _stats := _stats s; calls := calls s ++ [ev] |}.

(** [await asyncio.sleep(seconds)] *)
Definition sleep (seconds : Z) : I unit := await (EvSleep seconds) (Returns tt).

Definition _find_pending_notes (w : World) : I (list Doc) :=
  try_except
    ((* Get all documents *)
     let* all_docs := await (EvGetAllDocuments 500)
                            (db_get_all_documents w 500) in
     let* _ := update_stats (set_total_notes (len all_docs)) in
     (* Get vector store stats to see what's already indexed *)
     let* vector_stats := await EvVectorStats (vs_get_stats w) in
     let indexed_count := default 0 vector_stats in
     let* _ := update_stats (set_indexed_notes indexed_count) in
     let pending :=
       List.filter
         (fun doc =>
            negb (contains (u "ai_indexed:") (default [] (doc_data doc))))
         all_docs in
     let* _ := update_stats (set_pending_notes (len pending)) in
     (* Return oldest notes first (by ctime) *)
     let pending := sort_asc (fun x => default 0 (doc_ctime x)) pending in
     ret (slice_to 50 pending))
    (fun _ => ret []).

Definition _index_note (w : World) (doc : Doc) : I unit :=
  let note_id := doc_note_id doc in
  let content := default [] (doc_data doc) in
  if match content with [] => true | _ => false end
     || (len (strip content) <? 10)
  then ret tt
  else
    (* Extract metadata *)
    let* metadata := await (EvExtractMetadata content)
                           (mg_extract_metadata w content) in
    (* Enrich content with frontmatter *)
    let* enriched_content := lift (mg_enrich_frontmatter w content metadata) in
    (* Update document in CouchDB *)
    let* _ :=
      try_except
        (let* current_doc := await (EvGetDocument note_id)
                                   (db_get_document w note_id) in
         ret tt)
        (fun _ => ret tt) in
    (* Generate embedding and save to vector store *)
    try_except
      (let embed_text := default [] (md_summary metadata) ++ u " " ++ content in
       let* embedding := await (EvEmbed (slice_to 8000 embed_text))
                               (llm_embed_text w (slice_to 8000 embed_text)) in
       let payload :=
         {| np_category := default (u "Inbox") (md_category metadata);
            np_tags := default [] (md_tags metadata);
            np_keywords := default [] (md_keywords metadata);
            np_mtime := default 0 (doc_mtime doc);
            np_ctime := default 0 (doc_ctime doc);
            np_summary := default [] (md_summary metadata) |} in
       let* _ := await (EvUpsert note_id embedding payload)
                       (vs_upsert_note w note_id embedding payload) in
       let* s := self in
       update_stats (set_indexed_notes (indexed_notes (_stats s) + 1)))
      (fun e => raise (Exception e)).

Definition _process_batch (w : World) (batch : list Doc) : I unit :=
  for_each batch
    (fun doc =>
       try_except
         (_index_note w doc)
         (fun _ =>
            let* s := self in
            update_stats (set_failed_notes (failed_notes (_stats s) + 1)))).

(** The loop [for i in range(0, len(pending_notes), self.batch_size)] of
    [_indexing_loop], over the indices still to visit. *)
Fixpoint batch_loop (w : World) (pending_notes : list Doc) (indices : list Z)
  : I unit :=
  match indices with
  | [] => ret tt
  | i :: rest =>
      let* s := self in
      if negb (_running s) then ret tt                       (* break *)
      else
        let batch :=
          slice (Z.to_nat i) (Z.to_nat (i + batch_size s)) pending_notes in
        let* _ := _process_batch w batch in
        (* Rate limiting *)
        let* _ := sleep (delay_seconds s) in
        batch_loop w pending_notes rest
  end.

(** The body of the [try] of one turn of [while self._running]. *)
Definition scan (w : World) : I unit :=
  (* Find notes that need indexing *)
  let* pending_notes := _find_pending_notes w in
  let* _ :=
    match pending_notes with
    | [] => ret tt
    | _ =>
        let* s := self in
        let* indices :=
          match range_step (len pending_notes) (batch_size s) with
          | Some indices => ret indices
          | None => raise (Exception (u "range() arg 3 must not be zero"))
          end in
        (* Process in batches *)
        let* _ := batch_loop w pending_notes indices in
        update_stats (set_last_run (Some (clock_now w)))
    end in
  (* Wait before next scan (check every 10 minutes) *)
  sleep 600.

(** One turn of the [while]: [false] is the [break] on cancellation. *)
Definition cycle (w : World) : I bool :=
  fun s =>
    match scan w s with
    | (Ok _, s') => (Ok true, s')
    | (Raised CancelledError, s') => (Ok false, s')
    | (Raised (Exception _), s') =>
        (let* _ := sleep 60 in ret true) s'   (* Wait a minute on error *)
    end.

(** [_indexing_loop], followed for at most [turns] turns of its [while]. *)
Fixpoint loop_turns (w : World) (turns : nat) : I unit :=
  match turns with
  | O => ret tt
  | S n =>
      let* s := self in
      if _running s
      then let* continue := cycle w in
           if continue then loop_turns w n else ret tt
      else ret tt
  end.

Definition _indexing_loop (w : World) (turns : nat) : I unit :=
  (* Initial delay to let system stabilize *)
  let* _ := sleep 30 in
  loop_turns w turns.

(** [get_stats] *)
Definition get_stats (s : BackgroundIndexer) : Stats * bool :=
  (_stats s, _running s).

(** [{'success': True, 'notes_processed': n}] *)
Definition reindex_success (n : Z) : gmap string pyval :=
  <["success"%string := VBool true]>
    {[ "notes_processed"%string := VInt n ]}.

(** [{'success': False, 'error': str(e)}] *)
Definition reindex_failure (e : str) : gmap string pyval :=
  <["success"%string := VBool false]> {[ "error"%string := VStr e ]}.

Definition reindex_all (w : World) : I (gmap string pyval) :=
  try_except
    (let* pending_notes := _find_pending_notes w in
     let* _ := for_each pending_notes (fun note => _index_note w note) in
     ret (reindex_success (len pending_notes)))
    (fun e => ret (reindex_failure e)).

End Indexer.

(** ** Worlds and agents for concrete runs *)

Module Fixtures.

Import Director.

(** Every collaborator is unreachable. *)
Definition offline_world : World :=
  {| lower := lower_latin_cyrillic;
     llm_complete := fun _ _ _ => Fails (u "offline");
     llm_embed_text := fun _ => Fails (u "offline");
     vs_search_similar := fun _ _ _ _ => Fails (u "offline");
     vs_get_stats := Fails (u "offline");
     vs_upsert_note := fun _ _ _ => Fails (u "offline");
     db_search_documents := fun _ _ => Fails (u "offline");
     db_get_document := fun _ => Fails (u "offline");
     db_get_all_documents := fun _ => Fails (u "offline");
     cohere_rerank := fun _ _ _ => Fails (u "offline");
     mg_extract_metadata := fun _ => Fails (u "offline");
     mg_enrich_frontmatter := fun _ _ => Fails (u "offline");
     clock_now := u "2025-01-01T00:00:00" |}.

(** The mock agents of tests/test_agents.py: a fixed confidence and a
    fixed reply. *)
Definition mock_agent (n : string) (score : Q) (reply : str) : BaseAgent :=
  Build_BaseAgent n
    (fun _ _ => Returns score)
    (fun _ _ => ret {| text := reply; success := true;
                       metadata := None; suggested_actions := None |}).

(** An agent whose [can_handle] raises. *)
Definition broken_agent (n : string) (reply : str) : BaseAgent :=
  Build_BaseAgent n
    (fun _ _ => Fails (u "boom"))
    (fun _ _ => ret {| text := reply; success := true;
                       metadata := None; suggested_actions := None |}).

Definition note_taker : BaseAgent := mock_agent "note_taker" (1 # 2) (u "Note saved").
Definition qa : BaseAgent := mock_agent "qa" (9 # 10) (u "Answer to question").
Definition research : BaseAgent := mock_agent "research" 1 (u "Research results").

(** The director of [start_bot]: note taker, Q&A, research, in this order. *)
Definition director : MessageDirector :=
  register_agent (register_agent (register_agent init note_taker) qa) research.

End Fixtures.

(** * Properties *)

(** ** Sorting by confidence *)

Section SortDesc.

Context {A : Type} (key : A -> Q).

Lemma Qlt_bool_true (a b : Q) : Qlt_bool a b = true <-> (a < b)%Q.
Proof.
  unfold Qlt_bool. rewrite negb_true_iff. split.
  - intros H. apply Qnot_le_lt. intros Hle.
    apply Qle_bool_iff in Hle. congruence.
  - intros H. destruct (Qle_bool b a) eqn:E; [|reflexivity].
    apply Qle_bool_iff in E. exfalso. eapply Qlt_not_le; eauto.
Qed.

Lemma Qlt_bool_false (a b : Q) : Qlt_bool a b = false <-> (b <= a)%Q.
Proof.
  unfold Qlt_bool. rewrite negb_false_iff. apply Qle_bool_iff.
Qed.

Lemma insert_desc_In (x y : A) (l : list A) :
  In y (insert_desc key x l) <-> y = x \/ In y l.
Proof.
  induction l as [|z l IH]; simpl.
  - intuition.
  - destruct (Qlt_bool (key x) (key z)); simpl; rewrite ?IH; intuition.
Qed.

Lemma sort_desc_In (y : A) (l : list A) : In y (sort_desc key l) <-> In y l.
Proof.
  induction l as [|x l IH]; simpl; [reflexivity|].
  rewrite insert_desc_In, IH. intuition.
Qed.

(** Every element is below the ones before it. *)
Definition descending (l : list A) : Prop :=
  StronglySorted (fun a b => (key b <= key a)%Q) l.

Lemma insert_desc_descending (x : A) (l : list A) :
  descending l -> descending (insert_desc key x l).
Proof.
  unfold descending. induction 1 as [|z l Hs IH Hz]; simpl.
  - constructor; constructor.
  - destruct (Qlt_bool (key x) (key z)) eqn:E.
    + constructor; [exact IH|].
      apply List.Forall_forall. intros b Hb.
      apply insert_desc_In in Hb as [->|Hb].
      * apply Qlt_le_weak, Qlt_bool_true, E.
      * rewrite List.Forall_forall in Hz. apply Hz, Hb.
    + apply Qlt_bool_false in E.
      constructor; [constructor; assumption|].
      constructor; [exact E|].
      eapply Forall_impl; [exact Hz|].
      intros b Hb. simpl in Hb. eapply Qle_trans; eassumption.
Qed.

Lemma sort_desc_descending (l : list A) : descending (sort_desc key l).
Proof.
  induction l as [|x l IH]; simpl.
  - constructor.
  - apply insert_desc_descending, IH.
Qed.

(** The first element of the sorted list has the greatest key. *)
Lemma sort_desc_head (l : list A) (a : A) (rest : list A) :
  sort_desc key l = a :: rest ->
  In a l /\ forall b, In b l -> (key b <= key a)%Q.
Proof.
  intros E. split.
  - apply sort_desc_In. rewrite E. left. reflexivity.
  - intros b Hb. apply sort_desc_In in Hb.
    pose proof (sort_desc_descending l) as Hd. unfold descending in Hd.
    rewrite E in Hb, Hd. inversion Hd as [|? ? _ Hall]; subst.
    destruct Hb as [->|Hb]; [apply Qle_refl|].
    rewrite List.Forall_forall in Hall. apply Hall, Hb.
Qed.

Lemma sort_desc_nil (l : list A) : sort_desc key l = [] -> l = [].
Proof.
  destruct l as [|x l]; [reflexivity|]. intros E.
  assert (In x (sort_desc key (x :: l))) as H
    by (apply sort_desc_In; left; reflexivity).
  rewrite E in H. destruct H.
Qed.

End SortDesc.

(** ** The router *)

Module DirectorSpec.

Import Director.

(** The confidence the selection works with: a failed [can_handle]
    counts as 0.0. *)
Definition effective_score (message : str) (context : gmap string pyval)
    (agent : BaseAgent) : Q :=
  match can_handle agent message context with
  | Returns score => score
  | Fails _ => 0%Q
  end.

(** What "the message is a question for the heuristic" means. *)
Definition looks_like_question (w : World) (message : str) : Prop :=
  contains_char 63 message = true
  \/ exists q, In q interrogatives /\ startswith (lower w message) q = true.

Section Routing.

Variable w : World.
Variable self : MessageDirector.
Variable context : gmap string pyval.

(** The heuristic settles a question without a completion call, unless the
    message is a command. *)
Lemma analyze_intent_question (message : str) (t : trace) :
  startswith (strip message) (u "/") = false ->
  looks_like_question w message ->
  _analyze_intent w message t = (Ok question, t).
Proof.
  intros Hcmd Hq. unfold _analyze_intent. rewrite Hcmd.
  assert (contains_char 63 message
          || existsb (fun q => startswith (lower w message) q) interrogatives
          = true) as ->; [|reflexivity].
  destruct Hq as [->|Hq]; [reflexivity|].
  apply orb_true_iff. right. apply existsb_exists. exact Hq.
Qed.

(** A command is a command, whatever else the message holds. *)
Lemma analyze_intent_command (message : str) (t : trace) :
  startswith (strip message) (u "/") = true ->
  _analyze_intent w message t = (Ok command, t).
Proof. intros H. unfold _analyze_intent. rewrite H. reflexivity. Qed.

(** C1, as amended.  A message that holds a question mark or begins with
    an interrogative word, and that is not a command (its first character
    after white space is not the slash), is handed to the registered Q&A
    agent when research mode is not awaited: the intent is settled by the
    heuristic alone, the router adds no call of its own to the trace, and
    the run is the run of the agent's [process]. *)
Theorem route_message_question (message : str) (qa_agent : BaseAgent)
    (t : trace) :
  awaiting_research context = false ->
  get_agent self "qa" = Some qa_agent ->
  startswith (strip message) (u "/") = false ->
  looks_like_question w message ->
  _analyze_intent w message t = (Ok question, t)
  /\ route_message w self message context t
     = process qa_agent message context t.
Proof.
  intros Hflag Hqa Hcmd Hq.
  pose proof (analyze_intent_question message t Hcmd Hq) as Hint.
  split; [exact Hint|].
  unfold route_message. rewrite Hflag. unfold bind. rewrite Hint.
  simpl. rewrite Hqa. reflexivity.
Qed.

(** C2.  When the context carries a true [awaiting_research] and an agent
    is registered under "research", the run of [route_message] is the run
    of that agent's [process] on the same message, context and trace:
    nothing is classified and nothing is scored, whatever the message. *)
Theorem route_message_research_mode (message : str) (flag : pyval)
    (research_agent : BaseAgent) (t : trace) :
  context !! "awaiting_research"%string = Some flag ->
  truthy flag = true ->
  get_agent self "research" = Some research_agent ->
  route_message w self message context t
  = process research_agent message context t.
Proof.
  intros Hflag Htrue Hreg. unfold route_message, awaiting_research.
  rewrite Hflag. simpl. rewrite Htrue, Hreg. reflexivity.
Qed.

End Routing.

Section Selection.

Variable self : MessageDirector.
Variable message : str.
Variable context : gmap string pyval.

(** The polling loop turns every agent into a pair with its effective
    score and leaves the trace alone. *)
Lemma poll_scores (agents : list BaseAgent) (acc : list (BaseAgent * Q))
    (t : trace) :
  fold_each agents acc
    (fun scores agent =>
       try_except
         (let* score := lift (can_handle agent message context) in
          ret (scores ++ [(agent, score)]))
         (fun _ => ret (scores ++ [(agent, 0%Q)]))) t
  = (Ok (acc ++ map (fun a => (a, effective_score message context a)) agents),
     t).
Proof.
  revert acc. induction agents as [|a agents IH]; intros acc; simpl.
  - rewrite app_nil_r. reflexivity.
  - unfold bind at 1. unfold try_except at 1. unfold bind at 1.
    unfold effective_score at 1.
    destruct (can_handle a message context) as [s|msg]; simpl;
      rewrite IH, <- app_assoc; reflexivity.
Qed.

(** C7.  [select_best_agent] always returns (it raises in no case, also
    when the [can_handle] of some agents raises); with no agent registered
    it returns None; an agent it returns is registered, its [can_handle]
    returned a score above the floor 0.3, and no agent has a greater
    effective score, where an agent whose [can_handle] failed counts with
    0.0; and when it returns None no effective score is above the floor. *)
Theorem select_best_agent_spec (t : trace) :
  exists r,
    select_best_agent self message context t = (Ok r, t)
    /\ (_agents self = [] -> r = None)
    /\ match r with
       | Some best =>
           In best (_agents self)
           /\ (exists score,
                 can_handle best message context = Returns score
                 /\ (float_0_3 < score)%Q)
           /\ (forall a, In a (_agents self) ->
                 (effective_score message context a
                  <= effective_score message context best)%Q)
       | None =>
           forall a, In a (_agents self) ->
             (effective_score message context a <= float_0_3)%Q
       end.
Proof.
  unfold select_best_agent.
  destruct (_agents self) as [|a0 agents] eqn:Hagents.
  - exists None. split; [reflexivity|]. split; [reflexivity|].
    intros a [].
  - rewrite <- Hagents. unfold bind. rewrite poll_scores. simpl.
    set (scores := map (fun a => (a, effective_score message context a))
                       (_agents self)).
    destruct (sort_desc snd scores) as [|[best best_score] rest] eqn:Hsort.
    + apply sort_desc_nil in Hsort. subst scores.
      rewrite Hagents in Hsort. discriminate.
    + apply sort_desc_head in Hsort as [Hin Hmax].
      subst scores. apply in_map_iff in Hin as (b & Hb & Hbin).
      injection Hb as -> <-.
      assert (forall a, In a (_agents self) ->
                (effective_score message context a
                 <= effective_score message context best)%Q) as Hbest.
      { intros a Ha.
        apply (Hmax (a, effective_score message context a)).
        apply in_map_iff. exists a. split; [reflexivity|exact Ha]. }
      destruct (Qlt_bool float_0_3 (effective_score message context best))
        eqn:Hfloor.
      * exists (Some best). split; [reflexivity|].
        split; [intros; congruence|].
        apply Qlt_bool_true in Hfloor.
        repeat split; [exact Hbin| |exact Hbest].
        unfold effective_score in Hfloor.
        destruct (can_handle best message context) as [score|msg].
        -- exists score. split; [reflexivity|exact Hfloor].
        -- exfalso. revert Hfloor. unfold float_0_3. intros Hfloor.
           apply Qlt_not_le in Hfloor. apply Hfloor. discriminate.
      * exists None. split; [reflexivity|].
        split; [intros; congruence|].
        apply Qlt_bool_false in Hfloor.
        intros a Ha. eapply Qle_trans; [apply Hbest, Ha|exact Hfloor].
Qed.

End Selection.

Import Fixtures.

(** C1, as stated, fails for a command: "/why?" holds a question mark,
    research mode is not awaited and the Q&A agent is registered, yet the
    intent is "command" and the message goes to the note taker. *)
Lemma route_message_command_with_question_mark :
  contains_char 63 (u "/why?") = true
  /\ awaiting_research ∅ = false
  /\ get_agent director "qa" = Some qa
  /\ _analyze_intent offline_world (u "/why?") [] = (Ok command, [])
  /\ route_message offline_world director (u "/why?") ∅ []
     = process note_taker (u "/why?") ∅ []
  /\ route_message offline_world director (u "/why?") ∅ []
     <> process qa (u "/why?") ∅ [].
Proof.
  split; [reflexivity|]. split; [reflexivity|].
  split; [vm_compute; reflexivity|]. split; [reflexivity|].
  split; [vm_compute; reflexivity|].
  vm_compute. intros H. discriminate H.
Qed.

Lemma route_message_question_witness :
  _analyze_intent offline_world (u "What is the deployment process?") []
  = (Ok question, [])
  /\ route_message offline_world director
       (u "What is the deployment process?") ∅ []
     = process qa (u "What is the deployment process?") ∅ [].
Proof.
  apply (route_message_question offline_world director ∅
           (u "What is the deployment process?") qa []).
  - reflexivity.
  - vm_compute. reflexivity.
  - reflexivity.
  - left. reflexivity.
Defined.

Lemma route_message_research_mode_witness :
  route_message offline_world director (u "What is this?")
    {[ "awaiting_research"%string := VBool true ]} []
  = process research (u "What is this?")
      {[ "awaiting_research"%string := VBool true ]} [].
Proof.
  apply (route_message_research_mode offline_world director
           {[ "awaiting_research"%string := VBool true ]}
           (u "What is this?") (VBool true) research []).
  - vm_compute. reflexivity.
  - reflexivity.
  - vm_compute. reflexivity.
Defined.

(** An agent whose [can_handle] raises does not stop the selection: the
    Q&A agent, polled after it, is selected. *)
Example select_best_agent_survives_broken_agent :
  select_best_agent
    (register_agent (register_agent init (broken_agent "broken" (u "x"))) qa)
    (u "What is this?") ∅ []
  = (Ok (Some qa), []).
Proof. reflexivity. Qed.

(** With no agent registered nothing is selected. *)
Example select_best_agent_no_agents :
  select_best_agent init (u "What is this?") ∅ [] = (Ok None, []).
Proof. reflexivity. Qed.

(** A score equal to the floor is not enough. *)
Example select_best_agent_at_floor :
  select_best_agent
    (register_agent init (mock_agent "shy" float_0_3 (u "x")))
    (u "What is this?") ∅ []
  = (Ok None, []).
Proof. reflexivity. Qed.

End DirectorSpec.

(** ** Lists *)

Lemma NoDup_fmap_filter {A B} (f : A -> B) (P : A -> Prop)
    `{!forall x, Decision (P x)} (l : list A) :
  NoDup (f <$> l) -> NoDup (f <$> filter P l).
Proof.
  intros Hnd. eapply sublist_NoDup; [exact Hnd|].
  apply fmap_sublist, sublist_filter.
Qed.

(** With distinct images, two elements of equal image are one. *)
Lemma NoDup_fmap_eq {A B} (f : A -> B) (l : list A) (x y : A) :
  NoDup (f <$> l) -> x ∈ l -> y ∈ l -> f x = f y -> x = y.
Proof.
  induction l as [|z l IH]; simpl; intros Hnd Hx Hy Hf.
  - inversion Hx.
  - apply NoDup_cons in Hnd as [Hz Hnd].
    apply elem_of_cons in Hx as [->|Hx]; apply elem_of_cons in Hy as [->|Hy].
    + reflexivity.
    + exfalso. apply Hz. rewrite Hf. apply list_elem_of_fmap_2, Hy.
    + exfalso. apply Hz. rewrite <- Hf. apply list_elem_of_fmap_2, Hx.
    + apply IH; assumption.
Qed.

Lemma slice_to_sublist {A} (k : Z) (l : list A) : slice_to k l `sublist_of` l.
Proof. unfold slice_to. destruct (0 <=? k); apply sublist_take. Qed.

Lemma slice_to_length {A} (k : Z) (l : list A) :
  0 <= k -> len (slice_to k l) <= k.
Proof.
  intros Hk. unfold slice_to, len.
  destruct (Z.leb_spec 0 k); [|lia]. rewrite length_take. lia.
Qed.

(** ** Stage 2: the hybrid search *)

Module Stage2Spec.

Import QAAgent.

Section Merge.

Variable w : World.
Variable query : str.
Variable filters : gmap string pyval.

(** What the vector sub-search yields: its hits, and nothing when the
    embedding or the search fails. *)
Definition vector_hits : list VectorResult :=
  match llm_embed_text w query with
  | Returns query_embedding =>
      match vs_search_similar w query_embedding 30 filters float_0_3 with
      | Returns vector_results => vector_results
      | Fails _ => []
      end
  | Fails _ => []
  end.

(** What the full-text sub-search yields, and nothing when it fails. *)
Definition text_hits : list Doc :=
  match db_search_documents w query 30 with
  | Returns text_results => text_results
  | Fails _ => []
  end.

(** The merged list before the cut: the vector hits, then the full-text
    hits whose identifier no vector hit has. *)
Definition merged : list Candidate :=
  let vec := map of_vector vector_hits in
  vec ++ map of_doc
           (filter (fun doc =>
                      doc_note_id doc
                      ∉ (list_to_set (map note_id vec) : gset (list N)))
                   text_hits).

(** Stage 2 always returns, and returns the cut of the merged list; it
    calls no collaborator but the embedding and the two searches. *)
Definition stage2_event (ev : event) : Prop :=
  match ev with
  | EvEmbed _ | EvSearchSimilar _ _ _ _ | EvSearchDocuments _ _ => True
  | _ => False
  end.

Lemma stage2_returns (limit : Z) (t : trace) :
  exists added,
    _stage2_hybrid_search w query filters limit t
    = (Ok (slice_to limit merged), t ++ added)
    /\ Forall stage2_event added.
Proof.
  unfold _stage2_hybrid_search, merged, vector_hits, text_hits.
  unfold bind, try_except, call, ret.
  destruct (llm_embed_text w query) as [e|m1]; simpl.
  - destruct (vs_search_similar w e 30 filters float_0_3) as [vr|m2]; simpl.
    + destruct (db_search_documents w query 30) as [tr|m3]; simpl.
      * exists [EvEmbed query; EvSearchSimilar e 30 filters float_0_3;
                EvSearchDocuments query 30].
        rewrite <- !app_assoc. simpl. split; [reflexivity|].
        repeat constructor.
      * exists [EvEmbed query; EvSearchSimilar e 30 filters float_0_3;
                EvSearchDocuments query 30].
        rewrite <- !app_assoc, app_nil_r. simpl. split; [reflexivity|].
        repeat constructor.
    + destruct (db_search_documents w query 30) as [tr|m3]; simpl.
      * exists [EvEmbed query; EvSearchSimilar e 30 filters float_0_3;
                EvSearchDocuments query 30].
        rewrite <- !app_assoc. simpl. split; [reflexivity|].
        repeat constructor.
      * exists [EvEmbed query; EvSearchSimilar e 30 filters float_0_3;
                EvSearchDocuments query 30].
        rewrite <- !app_assoc. simpl. split; [reflexivity|].
        repeat constructor.
  - destruct (db_search_documents w query 30) as [tr|m3]; simpl.
    + exists [EvEmbed query; EvSearchDocuments query 30].
      rewrite <- !app_assoc. simpl. split; [reflexivity|].
      repeat constructor.
    + exists [EvEmbed query; EvSearchDocuments query 30].
      rewrite <- !app_assoc. simpl. split; [reflexivity|].
      repeat constructor.
Qed.

Lemma merged_ids :
  map note_id merged
  = map vr_note_id vector_hits
    ++ map doc_note_id
         (filter (fun doc =>
                    doc_note_id doc
                    ∉ (list_to_set (map vr_note_id vector_hits)
                       : gset (list N)))
                 text_hits).
Proof. unfold merged. rewrite map_app, !map_map. reflexivity. Qed.

Lemma merged_NoDup :
  NoDup (map vr_note_id vector_hits) ->
  NoDup (map doc_note_id text_hits) ->
  NoDup (map note_id merged).
Proof.
  intros Hv Ht. rewrite merged_ids. apply NoDup_app.
  split; [exact Hv|]. split.
  - intros x Hx Hin. apply list_elem_of_fmap in Hin as (d & -> & Hd).
    apply list_elem_of_filter in Hd as [Hnot _].
    apply Hnot, elem_of_list_to_set, Hx.
  - apply NoDup_fmap_filter, Ht.
Qed.

End Merge.

End Stage2Spec.

(** Worlds for concrete runs of the pipeline. *)

Module PipelineFixtures.

Import Fixtures.

Definition hit (id : str) (score : Q) : VectorResult :=
  {| vr_note_id := id; vr_score := score; vr_category := Some (u "Inbox");
     vr_tags := []; vr_keywords := []; vr_summary := u "summary";
     vr_mtime := 0 |}.

Definition stored (id : str) (data : str) : Doc :=
  {| doc_id := Some id; doc_path := Some id; doc_data := Some data;
     doc_mtime := Some 0; doc_ctime := None |}.

(** The searches answer with the given hits; every other collaborator is
    unreachable. *)
Definition with_search (vr : list VectorResult) (tr : list Doc) : World :=
  {| lower := lower offline_world;
     llm_complete := llm_complete offline_world;
     llm_embed_text := fun _ => Returns [];
     vs_search_similar := fun _ _ _ _ => Returns vr;
     vs_get_stats := vs_get_stats offline_world;
     vs_upsert_note := vs_upsert_note offline_world;
     db_search_documents := fun _ _ => Returns tr;
     db_get_document := db_get_document offline_world;
     db_get_all_documents := db_get_all_documents offline_world;
     cohere_rerank := cohere_rerank offline_world;
     mg_extract_metadata := mg_extract_metadata offline_world;
     mg_enrich_frontmatter := mg_enrich_frontmatter offline_world;
     clock_now := clock_now offline_world |}.

(** Thirty vector hits and thirty other full-text hits: both sub-searches
    at their sub-limit. *)
Definition crowded_world : World :=
  with_search
    (map (fun i => hit (u "notes/v" ++ of_nat i) (1 # 2)) (seq 0 30))
    (map (fun i => stored (u "notes/d" ++ of_nat i) (u "graph databases"))
         (seq 0 30)).

(** The vector index holds two points for one note. *)
Definition duplicate_world : World :=
  with_search [hit (u "notes/a") (9 # 10); hit (u "notes/a") (4 # 5)]
              [stored (u "notes/a") (u "deployment")].

(** One note found by both sub-searches, one by the full-text search. *)
Definition overlap_world : World :=
  with_search [hit (u "notes/a") (9 # 10)]
              [stored (u "notes/a") (u "deployment");
               stored (u "notes/b") (u "deployment")].

End PipelineFixtures.

Module Stage2Claims.

Import QAAgent Stage2Spec PipelineFixtures.

(** C3, as stated, fails on the research path: [ResearchAgent.process]
    asks Stage 2 for up to 100 candidates, and with both sub-searches at
    their sub-limit of 30 Stage 2 returns 60 of them; the response of the
    agent reports them ([found_count] is 60). *)
Lemma research_stage2_returns_60 :
  (exists cands t',
     _stage2_hybrid_search crowded_world (u "graph databases") ∅ 100 []
     = (Ok cands, t')
     /\ len cands = 60 /\ 50 < len cands)
  /\ (exists response t',
        ResearchAgent.process (ResearchAgent.init false) crowded_world
          (u "graph databases") {[ "awaiting_research"%string := VBool true ]} []
        = (Ok response, t')
        /\ metadata response = Some (found_count_metadata 60)).
Proof.
  split.
  - eexists. eexists. split; [vm_compute; reflexivity|].
    split; [vm_compute; reflexivity|reflexivity].
  - eexists. eexists. split; [vm_compute; reflexivity|].
    vm_compute. reflexivity.
Qed.

(** C3, as amended.  Stage 2 always returns, and never more candidates
    than the limit it is called with, whatever the sub-searches yield;
    [QAAgent.process] calls it with 50 and [ResearchAgent.process] with
    100. *)
Theorem stage2_size_bound (w : World) (query : str)
    (filters : gmap string pyval) (limit : Z) (t : trace) :
  0 <= limit ->
  exists cands t',
    _stage2_hybrid_search w query filters limit t = (Ok cands, t')
    /\ len cands <= limit.
Proof.
  intros Hlimit.
  destruct (stage2_returns w query filters limit t) as (added & Hrun & _).
  eexists. eexists. split; [exact Hrun|].
  apply slice_to_length, Hlimit.
Qed.

Lemma stage2_size_bound_witness :
  exists cands t',
    _stage2_hybrid_search crowded_world (u "graph databases") ∅ 50 []
    = (Ok cands, t')
    /\ len cands <= 50.
Proof.
  apply (stage2_size_bound crowded_world (u "graph databases") ∅ 50 []).
  lia.
Defined.

(** C4, as stated, fails when one sub-search returns an identifier twice:
    the merge only drops a full-text hit whose identifier a vector hit
    has.  Two vector hits for one note are both kept. *)
Lemma stage2_keeps_duplicate_vector_hits :
  exists cands t',
    _stage2_hybrid_search duplicate_world (u "deployment") ∅ 50 []
    = (Ok cands, t')
    /\ map note_id cands = [u "notes/a"; u "notes/a"]
    /\ map search_score cands = [9 # 10; 4 # 5]
    /\ ~ NoDup (map note_id cands).
Proof.
  eexists. eexists. split; [vm_compute; reflexivity|].
  split; [reflexivity|]. split; [reflexivity|].
  intros H. apply NoDup_cons in H as [H _]. apply H. left.
Qed.

(** C4, as amended.  When neither sub-search returns an identifier twice,
    no identifier occurs twice in the candidates of Stage 2; a candidate
    whose identifier the vector search returned is that vector hit, with
    the score of the vector search, also when the full-text search
    returned the identifier too; and a vector hit at a position below the
    limit is among the candidates. *)
Theorem stage2_merge_by_identifier (w : World) (query : str)
    (filters : gmap string pyval) (limit : Z) (t : trace) :
  NoDup (map vr_note_id (vector_hits w query filters)) ->
  NoDup (map doc_note_id (text_hits w query)) ->
  exists cands t',
    _stage2_hybrid_search w query filters limit t = (Ok cands, t')
    /\ NoDup (map note_id cands)
    /\ (forall v c,
          In v (vector_hits w query filters) -> In c cands ->
          note_id c = vr_note_id v ->
          c = of_vector v
          /\ search_source c = vector /\ search_score c = vr_score v)
    /\ (forall i v,
          vector_hits w query filters !! i = Some v -> Z.of_nat i < limit ->
          In (of_vector v) cands).
Proof.
  intros Hv Ht.
  destruct (stage2_returns w query filters limit t) as (added & Hrun & _).
  pose proof (merged_NoDup w query filters Hv Ht) as Hnd.
  eexists. eexists. split; [exact Hrun|]. split; [|split].
  - eapply sublist_NoDup; [exact Hnd|].
    apply (fmap_sublist note_id), slice_to_sublist.
  - intros v c Hvin Hc Hid.
    assert (c = of_vector v) as ->; [|repeat split].
    apply (NoDup_fmap_eq note_id (merged w query filters)); [exact Hnd| | |exact Hid].
    + eapply elem_of_sublist; [|apply slice_to_sublist].
      apply list_elem_of_In. exact Hc.
    + unfold merged. apply elem_of_app. left.
      apply list_elem_of_In, in_map, Hvin.
  - intros i v Hi Hlt. apply list_elem_of_In.
    unfold slice_to. destruct (Z.leb_spec 0 limit); [|lia].
    apply list_elem_of_lookup. exists i.
    rewrite lookup_take_lt by lia.
    unfold merged. rewrite lookup_app_l.
    + change (map of_vector ?l) with (of_vector <$> l).
      rewrite list_lookup_fmap, Hi. reflexivity.
    + rewrite length_map. apply lookup_lt_Some in Hi. exact Hi.
Qed.

Lemma stage2_merge_by_identifier_witness :
  exists cands t',
    _stage2_hybrid_search overlap_world (u "deployment") ∅ 50 []
    = (Ok cands, t')
    /\ NoDup (map note_id cands)
    /\ (forall v c,
          In v (vector_hits overlap_world (u "deployment") ∅) -> In c cands ->
          note_id c = vr_note_id v ->
          c = of_vector v
          /\ search_source c = vector /\ search_score c = vr_score v)
    /\ (forall i v,
          vector_hits overlap_world (u "deployment") ∅ !! i = Some v ->
          Z.of_nat i < 50 ->
          In (of_vector v) cands).
Proof.
  apply (stage2_merge_by_identifier overlap_world (u "deployment") ∅ 50 []).
  - vm_compute. repeat constructor. intros H. inversion H.
  - vm_compute. repeat constructor.
    + intros H. apply elem_of_cons in H as [H|H]; [discriminate|inversion H].
    + intros H. inversion H.
Defined.

End Stage2Claims.

(** ** Stage 3: rerank and load *)

Module Stage3Spec.

Import QAAgent.

(** The first K candidates, K the smaller of [top_k] and their number. *)
Definition first_k {A} (top_k : Z) (l : list A) : list A :=
  take (Z.to_nat (Z.min top_k (len l))) l.

(** The reranker is not to be had: there is no client, or the call that
    Stage 3 makes for these documents fails. *)
Definition reranker_down (self : AgentSelf) (w : World) (query : str)
    (docs : list str) (top_k : Z) : Prop :=
  cohere_client self = false
  \/ exists msg, cohere_rerank w query docs (Z.min top_k (len docs)) = Fails msg.

(** The texts the question path sends to the reranker. *)
Definition rerank_texts (w : World) (candidates : list Candidate) : list str :=
  map (fun cand =>
         match summary cand with
         | [] =>
             match db_get_document w (note_id cand) with
             | Returns doc => slice_to 500 (default [] (doc_data doc))
             | Fails _ => note_id cand
             end
         | text => text
         end) candidates.

(** The documents the research path loads for these candidates: those the
    document store returns, in order. *)
Definition research_docs_of (w : World) (candidates : list Candidate)
  : list LoadedDoc :=
  concat
    (map (fun cand =>
            match db_get_document w (note_id cand) with
            | Returns doc =>
                [ {| path := note_id cand;
                     content := default [] (doc_data doc);
                     ld_category := category cand;
                     ld_tags := Some (default [] (tags cand)) |} ]
            | Fails _ => []
            end) candidates).

Section Stage3.

Variable self : AgentSelf.
Variable w : World.
Variable query : str.
Variable candidates : list Candidate.

Lemma docs_for_rerank_loop (cands : list Candidate) (acc : list str)
    (t : trace) :
  exists t',
    fold_each cands acc
      (fun docs cand =>
         let text := summary cand in
         let* text :=
           match text with
           | [] =>
               try_bare
                 (let* doc := call (EvGetDocument (note_id cand))
                                   (db_get_document w (note_id cand)) in
                  ret (slice_to 500 (default [] (doc_data doc))))
                 (ret (note_id cand))
           | _ => ret text
           end in
         ret (docs ++ [text])) t
    = (Ok (acc ++ rerank_texts w cands), t').
Proof.
  revert acc t. induction cands as [|cand cands IH]; intros acc t; simpl.
  - exists t. rewrite app_nil_r. reflexivity.
  - unfold bind at 1. unfold bind at 1.
    destruct (summary cand) as [|c s] eqn:Hs.
    + unfold try_bare, bind, call, ret.
      destruct (db_get_document w (note_id cand)) as [doc|msg]; simpl;
        match goal with
        | |- exists t', fold_each cands ?a _ ?t0 = _ =>
            destruct (IH a t0) as (t' & Ht')
        end; exists t'; rewrite <- app_assoc in Ht'; exact Ht'.
    + simpl.
      match goal with
      | |- exists t', fold_each cands ?a _ ?t0 = _ =>
          destruct (IH a t0) as (t' & Ht')
      end. exists t'. rewrite <- app_assoc in Ht'. exact Ht'.
Qed.

Lemma docs_for_rerank_returns (t : trace) :
  exists t', docs_for_rerank w candidates t
             = (Ok (rerank_texts w candidates), t').
Proof. apply (docs_for_rerank_loop candidates [] t). Qed.

Lemma index_of_nat {A} (l : list A) (i : nat) :
  index l (Z.of_nat i) = l !! i.
Proof.
  unfold index. destruct (Z.leb_spec 0 (Z.of_nat i)); [|lia].
  rewrite Nat2Z.id. reflexivity.
Qed.

(** Picking the candidates at [a, a+1, ..., a+n-1] is taking [n] of them
    from [a] on. *)
Lemma pick_seq (n a : nat) (acc : list Candidate) (t : trace) :
  (a + n <= length candidates)%nat ->
  fold_each (map Z.of_nat (seq a n)) acc
    (fun picked i =>
       match index candidates i with
       | Some cand => ret (picked ++ [cand])
       | None => raise (Exception (u "list index out of range"))
       end) t
  = (Ok (acc ++ take n (drop a candidates)), t).
Proof.
  revert a acc. induction n as [|n IH]; intros a acc Hlen; simpl.
  - rewrite app_nil_r. reflexivity.
  - unfold bind at 1. rewrite index_of_nat.
    destruct (candidates !! a) as [cand|] eqn:Hcand.
    + simpl. rewrite IH by lia.
      rewrite (drop_S candidates cand a Hcand). simpl.
      rewrite <- app_assoc. reflexivity.
    + apply lookup_ge_None in Hcand. lia.
Qed.

Lemma pick_range (n : Z) (t : trace) :
  n <= len candidates ->
  pick candidates (range n) t = (Ok (take (Z.to_nat n) candidates), t).
Proof.
  intros Hn. unfold pick, range.
  rewrite pick_seq by (unfold len in Hn; lia). reflexivity.
Qed.

Lemma slice_to_range_min (top_k : Z) (n : Z) :
  slice_to top_k (range (Z.min top_k n)) = range (Z.min top_k n).
Proof.
  unfold slice_to, range. destruct (Z.leb_spec 0 top_k).
  - apply take_ge. rewrite length_map, length_seq. lia.
  - replace (Z.to_nat (Z.min top_k n)) with 0%nat by lia. reflexivity.
Qed.

Lemma slice_to_range_len (top_k : Z) (n : nat) :
  0 <= top_k ->
  slice_to top_k (range (Z.of_nat n)) = range (Z.min top_k (Z.of_nat n)).
Proof.
  intros Hk. unfold slice_to, range.
  destruct (Z.leb_spec 0 top_k); [|lia].
  rewrite Nat2Z.id, firstn_map, take_seq.
  replace (Z.to_nat (Z.min top_k (Z.of_nat n)))
    with (Init.Nat.min (Z.to_nat top_k) n) by lia.
  reflexivity.
Qed.

(** With the reranker down the indices are those of the first K
    candidates in their order. *)
Lemma rerank_indices_fallback (docs : list str) (top_k : Z) (t : trace) :
  reranker_down self w query docs top_k ->
  exists t',
    rerank_indices self w query candidates docs top_k t
    = (Ok (range (Z.min top_k (len candidates))), t').
Proof.
  intros Hdown. unfold rerank_indices.
  destruct (cohere_client self
            && match docs with [] => false | _ => true end) eqn:E.
  - destruct Hdown as [Hnone|(msg & Hfail)].
    + rewrite Hnone in E. discriminate.
    + unfold try_except, call. rewrite Hfail. simpl. eexists. reflexivity.
  - eexists. reflexivity.
Qed.

Lemma load_context_docs_loop (cands : list Candidate)
    (acc : list LoadedDoc) (t : trace) :
  exists docs t',
    fold_each cands acc
      (fun context_docs cand =>
         try_except
           (let* doc := call (EvGetDocument (note_id cand))
                             (db_get_document w (note_id cand)) in
            ret (context_docs ++
                 [ {| path := note_id cand;
                      content := slice_to 2000 (default [] (doc_data doc));
                      ld_category := category cand;
                      ld_tags := None |} ]))
           (fun _ => ret context_docs)) t
    = (Ok docs, t').
Proof.
  revert acc t. induction cands as [|cand cands IH]; intros acc t; simpl.
  - eexists. eexists. reflexivity.
  - unfold bind at 1. unfold try_except, bind, call, ret.
    destruct (db_get_document w (note_id cand)) as [doc|msg]; simpl; apply IH.
Qed.

Lemma generate_answer_returns (context_docs : list LoadedDoc) (t : trace) :
  exists answer t',
    _generate_answer w query context_docs t = (Ok answer, t').
Proof.
  unfold _generate_answer, try_except, bind, call, ret.
  match goal with
  | |- context [llm_complete w ?m ?a ?b] =>
      destruct (llm_complete w m a b) as [answer|msg]
  end; simpl; eexists; eexists; reflexivity.
Qed.

(** From the retained candidates on, the question path always returns. *)
Lemma analyze_returns (top_candidates : list Candidate) (t : trace) :
  exists response t',
    analyze w query candidates top_candidates t = (Ok response, t').
Proof.
  unfold analyze, load_context_docs. unfold bind at 1.
  destruct (load_context_docs_loop top_candidates [] t) as (docs & t1 & ->).
  destruct docs as [|d docs].
  - eexists. eexists. reflexivity.
  - unfold bind.
    destruct (generate_answer_returns (d :: docs) t1) as (answer & t2 & ->).
    eexists. eexists. reflexivity.
Qed.

End Stage3.

End Stage3Spec.

Module Stage3Claims.

Import QAAgent Stage3Spec Fixtures PipelineFixtures.

Section Fallback.

Variable self : AgentSelf.
Variable w : World.
Variable query : str.
Variable candidates : list Candidate.

Lemma research_docs_of_length (cands : list Candidate) :
  (length (research_docs_of w cands) <= length cands)%nat.
Proof.
  unfold research_docs_of. induction cands as [|cand cands IH]; simpl.
  - lia.
  - rewrite length_app.
    destruct (db_get_document w (note_id cand)); simpl; lia.
Qed.

(** The loading loop of the research path over the indices
    [a, ..., a+n-1] loads the candidates at these places. *)
Lemma research_load_seq (n a : nat) (acc : list LoadedDoc) (t : trace) :
  (a + n <= length candidates)%nat ->
  exists t',
    fold_each (map Z.of_nat (seq a n)) acc
      (fun docs idx =>
         try_except
           (let* cand :=
              match index candidates idx with
              | Some cand => ret cand
              | None => raise (Exception (u "list index out of range"))
              end in
            let* doc := call (EvGetDocument (note_id cand))
                             (db_get_document w (note_id cand)) in
            ret (docs ++
                 [ {| path := note_id cand;
                      content := default [] (doc_data doc);
                      ld_category := category cand;
                      ld_tags := Some (default [] (tags cand)) |} ]))
           (fun _ => ret docs)) t
    = (Ok (acc ++ research_docs_of w (take n (drop a candidates))), t').
Proof.
  revert a acc t. induction n as [|n IH]; intros a acc t Hlen; simpl.
  - exists t. rewrite app_nil_r. reflexivity.
  - unfold bind at 1. unfold try_except at 1. unfold bind at 1.
    rewrite index_of_nat.
    destruct (candidates !! a) as [cand|] eqn:Hcand;
      [|apply lookup_ge_None in Hcand; lia].
    rewrite (drop_S candidates cand a Hcand). simpl.
    unfold research_docs_of. simpl. fold (research_docs_of w).
    unfold bind, call, ret.
    destruct (db_get_document w (note_id cand)) as [doc|msg]; simpl.
    + match goal with
      | |- exists t', fold_each _ ?a0 _ ?t0 = _ =>
          destruct (IH (S a) a0 t0 ltac:(lia)) as (t' & Ht')
      end.
      exists t'. rewrite <- app_assoc in Ht'. exact Ht'.
    + match goal with
      | |- exists t', fold_each _ ?a0 _ ?t0 = _ =>
          destruct (IH (S a) a0 t0 ltac:(lia)) as (t' & Ht')
      end.
      exists t'. exact Ht'.
Qed.

(** C5.  Let K be the smaller of [top_k] and the number of candidates.
    On the question path, when there is no reranking client or the rerank
    call fails, Stage 3 goes on with the first K candidates in their
    Stage-2 order and returns a response; on the research path, in the
    same case, [_rerank_and_load] returns the documents the store yields
    for the first K candidates, in their order.  Neither raises, and
    neither retains more than K candidates. *)
Theorem rerank_fallback_first_k (top_k : Z) (t : trace) :
  0 <= top_k ->
  len (first_k top_k candidates) <= Z.min top_k (len candidates)
  /\ (reranker_down self w query (rerank_texts w candidates) top_k ->
      exists t1 response t2,
        _stage3_rerank_and_analyze self w query candidates top_k t
        = analyze w query candidates (first_k top_k candidates) t1
        /\ analyze w query candidates (first_k top_k candidates) t1
           = (Ok response, t2))
  /\ (reranker_down self w query (map summary candidates) top_k ->
      exists t2,
        ResearchAgent._rerank_and_load self w query candidates top_k t
        = (Ok (research_docs_of w (first_k top_k candidates)), t2)
        /\ len (research_docs_of w (first_k top_k candidates))
           <= Z.min top_k (len candidates)).
Proof.
  intros Hk.
  assert (len (first_k top_k candidates) <= Z.min top_k (len candidates))
    as Hbound.
  { unfold first_k, len. rewrite length_take. lia. }
  split; [exact Hbound|]. split.
  - intros Hdown. unfold _stage3_rerank_and_analyze.
    destruct (docs_for_rerank_returns w candidates t) as (t0 & Hdocs).
    destruct (rerank_indices_fallback self w query candidates
                (rerank_texts w candidates) top_k t0 Hdown) as (t1 & Hidx).
    destruct (analyze_returns w query candidates
                (first_k top_k candidates) t1) as (response & t2 & Hres).
    exists t1, response, t2. split; [|exact Hres].
    unfold bind. rewrite Hdocs, Hidx, slice_to_range_min.
    rewrite pick_range by lia. reflexivity.
  - intros Hdown. unfold ResearchAgent._rerank_and_load.
    assert (exists indices t1,
              (if cohere_client self
                  && match map summary candidates with
                     | [] => false | _ => true end
               then
                 try_except
                   (call (EvRerank query (map summary candidates)
                            (Z.min top_k (len (map summary candidates))))
                         (cohere_rerank w query (map summary candidates)
                            (Z.min top_k (len (map summary candidates)))))
                   (fun _ => ret (range (Z.min top_k (len candidates))))
               else ret (range (len candidates))) t
              = (Ok indices, t1)
              /\ slice_to top_k indices
                 = range (Z.min top_k (len candidates)))
      as (indices & t1 & Hidx & Hslice).
    { destruct (cohere_client self
                && match map summary candidates with
                   | [] => false | _ => true end) eqn:E.
      - destruct Hdown as [Hnone|(msg & Hfail)].
        + rewrite Hnone in E. discriminate.
        + unfold try_except, call. rewrite Hfail. simpl.
          eexists. eexists. split; [reflexivity|].
          apply slice_to_range_min.
      - eexists. eexists. split; [reflexivity|].
        apply slice_to_range_len, Hk. }
    unfold bind at 1. rewrite Hidx, Hslice. unfold range.
    destruct (research_load_seq
                (Z.to_nat (Z.min top_k (len candidates))) 0 [] t1)
      as (t2 & Hload).
    { unfold len. lia. }
    exists t2. split.
    + rewrite Hload. reflexivity.
    + pose proof (research_docs_of_length (first_k top_k candidates)).
      unfold len in *. lia.
Qed.

End Fallback.

(** Two candidates of Stage 2, for a run without a reranking client. *)
Definition two_candidates : list Candidate :=
  [ of_vector (hit (u "notes/a") (9 # 10));
    of_doc (stored (u "notes/b") (u "deployment")) ].

Lemma rerank_fallback_first_k_witness :
  len (first_k 10 two_candidates) <= Z.min 10 (len two_candidates)
  /\ (exists t1 response t2,
        _stage3_rerank_and_analyze (QAAgent.init false) offline_world
          (u "deployment") two_candidates 10 []
        = analyze offline_world (u "deployment") two_candidates
            (first_k 10 two_candidates) t1
        /\ analyze offline_world (u "deployment") two_candidates
             (first_k 10 two_candidates) t1
           = (Ok response, t2))
  /\ (exists t2,
        ResearchAgent._rerank_and_load (ResearchAgent.init false)
          offline_world (u "deployment") two_candidates 30 []
        = (Ok (research_docs_of offline_world (first_k 30 two_candidates)), t2)
        /\ len (research_docs_of offline_world (first_k 30 two_candidates))
           <= Z.min 30 (len two_candidates)).
Proof.
  destruct (rerank_fallback_first_k (QAAgent.init false) offline_world
              (u "deployment") two_candidates 10 []) as (Hk & Hqa & _);
    [lia|].
  destruct (rerank_fallback_first_k (ResearchAgent.init false) offline_world
              (u "deployment") two_candidates 30 []) as (_ & _ & Hres);
    [lia|].
  split; [exact Hk|]. split.
  - apply Hqa. left. reflexivity.
  - apply Hres. left. reflexivity.
Defined.

End Stage3Claims.

(** ** Nothing found *)

Module NothingFound.

Import QAAgent Stage2Spec Fixtures PipelineFixtures.

Definition is_completion (ev : event) : Prop :=
  match ev with
  | EvComplete _ _ _ => True
  | _ => False
  end.

Lemma stage2_event_not_completion (ev : event) :
  stage2_event ev -> ~ is_completion ev.
Proof. destruct ev; simpl; tauto. Qed.

(** C6.  When Stage 2 returns no candidate, [process] of the question
    agent returns a successful response with the text "Не нашел
    релевантных заметок ..." and [found_count] 0, and [process] of the
    research agent returns a successful response with the text "Не нашел
    достаточно материала ..." and [found_count] 0; in both the trace is
    the one Stage 2 left, which extends the initial trace by no
    completion call: no pass of the synthesis is run. *)
Theorem process_nothing_found (self : AgentSelf) (w : World) (message : str)
    (context : gmap string pyval) (t : trace) :
  (forall t1,
     _stage2_hybrid_search w message ∅ 50 t = (Ok [], t1) ->
     QAAgent.process self w message context t
     = (Ok {| text := qa_not_found_text;
              success := true;
              metadata := Some {[ "found_count"%string := VInt 0 ]};
              suggested_actions := None |}, t1)
     /\ exists added, t1 = t ++ added /\ Forall (fun ev => ~ is_completion ev) added)
  /\ (forall t1,
        _stage2_hybrid_search w message ∅ 100 t = (Ok [], t1) ->
        ResearchAgent.process self w message context t
        = (Ok {| text := ResearchAgent.research_not_found_text;
                 success := true;
                 metadata := Some {[ "found_count"%string := VInt 0 ]};
                 suggested_actions := None |}, t1)
        /\ exists added, t1 = t ++ added /\ Forall (fun ev => ~ is_completion ev) added).
Proof.
  split; intros t1 Hrun.
  - split.
    + unfold QAAgent.process, try_except, _stage1_metadata_filter.
      unfold bind at 1. unfold ret at 1. unfold bind at 1.
      rewrite Hrun. reflexivity.
    + destruct (stage2_returns w message ∅ 50 t) as (added & Hret & Hev).
      rewrite Hrun in Hret. injection Hret as _ ->.
      exists added. split; [reflexivity|].
      eapply Forall_impl; [exact Hev|]. apply stage2_event_not_completion.
  - split.
    + unfold ResearchAgent.process, try_except, _stage1_metadata_filter.
      unfold bind at 1. unfold ret at 1. unfold bind at 1.
      rewrite Hrun. reflexivity.
    + destruct (stage2_returns w message ∅ 100 t) as (added & Hret & Hev).
      rewrite Hrun in Hret. injection Hret as _ ->.
      exists added. split; [reflexivity|].
      eapply Forall_impl; [exact Hev|]. apply stage2_event_not_completion.
Qed.

(** The stores hold nothing that matches. *)
Definition empty_world : World := with_search [] [].

(** Scenario A: the question agent is the only agent registered. *)
Example scenario_a :
  Director.route_message empty_world
    (Director.register_agent Director.init
       (QAAgent.agent (QAAgent.init false) empty_world))
    (u "What is the deployment process?") ∅ []
  = (Ok {| text := qa_not_found_text;
           success := true;
           metadata := Some {[ "found_count"%string := VInt 0 ]};
           suggested_actions := None |},
     [ EvEmbed (u "What is the deployment process?");
       EvSearchSimilar [] 30 ∅ float_0_3;
       EvSearchDocuments (u "What is the deployment process?") 30 ]).
Proof. vm_compute. reflexivity. Qed.

(** Scenario C: research mode is awaited, nothing is found. *)
Example scenario_c :
  Director.route_message empty_world
    (Director.register_agent
       (Director.register_agent Director.init
          (QAAgent.agent (QAAgent.init false) empty_world))
       (ResearchAgent.agent (ResearchAgent.init false) empty_world))
    (u "graph databases") {[ "awaiting_research"%string := VBool true ]} []
  = (Ok {| text := ResearchAgent.research_not_found_text;
           success := true;
           metadata := Some {[ "found_count"%string := VInt 0 ]};
           suggested_actions := None |},
     [ EvEmbed (u "graph databases");
       EvSearchSimilar [] 30 ∅ float_0_3;
       EvSearchDocuments (u "graph databases") 30 ]).
Proof. vm_compute. reflexivity. Qed.

Lemma process_nothing_found_witness :
  QAAgent.process (QAAgent.init false) empty_world
    (u "What is the deployment process?") ∅ []
  = (Ok {| text := qa_not_found_text;
           success := true;
           metadata := Some {[ "found_count"%string := VInt 0 ]};
           suggested_actions := None |},
     [ EvEmbed (u "What is the deployment process?");
       EvSearchSimilar [] 30 ∅ float_0_3;
       EvSearchDocuments (u "What is the deployment process?") 30 ])
  /\ ResearchAgent.process (ResearchAgent.init false) empty_world
       (u "What is the deployment process?") ∅ []
     = (Ok {| text := ResearchAgent.research_not_found_text;
              success := true;
              metadata := Some {[ "found_count"%string := VInt 0 ]};
              suggested_actions := None |},
        [ EvEmbed (u "What is the deployment process?");
          EvSearchSimilar [] 30 ∅ float_0_3;
          EvSearchDocuments (u "What is the deployment process?") 30 ]).
Proof.
  destruct (process_nothing_found (QAAgent.init false) empty_world
              (u "What is the deployment process?") ∅ []) as (Hqa & _).
  destruct (process_nothing_found (ResearchAgent.init false) empty_world
              (u "What is the deployment process?") ∅ []) as (_ & Hres).
  split.
  - apply Hqa. reflexivity.
  - apply Hres. reflexivity.
Defined.

End NothingFound.

(** ** The background indexer *)

Module IndexerSpec.

Import Indexer.

(** What indexing one note comes to. *)
Inductive NoteOutcome :=
| Skipped
| Indexed
| Failed (msg : str).

(** The note is skipped: no content, or fewer than 10 characters once
    stripped. *)
Definition too_short (doc : Doc) : bool :=
  let content := default [] (doc_data doc) in
  match content with [] => true | _ => false end
  || (len (strip content) <? 10).

Definition index_outcome (w : World) (doc : Doc) : NoteOutcome :=
  let note_id := doc_note_id doc in
  let content := default [] (doc_data doc) in
  if too_short doc then Skipped
  else
    match mg_extract_metadata w content with
    | Fails msg => Failed msg
    | Returns metadata =>
        match mg_enrich_frontmatter w content metadata with
        | Fails msg => Failed msg
        | Returns _ =>
            match llm_embed_text w
                    (slice_to 8000
                       (default [] (md_summary metadata) ++ u " " ++ content))
            with
            | Fails msg => Failed msg
            | Returns embedding =>
                match vs_upsert_note w note_id embedding
                        {| np_category :=
                             default (u "Inbox") (md_category metadata);
                           np_tags := default [] (md_tags metadata);
                           np_keywords := default [] (md_keywords metadata);
                           np_mtime := default 0 (doc_mtime doc);
                           np_ctime := default 0 (doc_ctime doc);
                           np_summary := default [] (md_summary metadata) |}
                with
                | Fails msg => Failed msg
                | Returns _ => Indexed
                end
            end
        end
    end.

Definition is_indexed (o : NoteOutcome) : bool :=
  match o with Indexed => true | _ => false end.

Definition is_failed (o : NoteOutcome) : bool :=
  match o with Failed _ => true | _ => false end.

(** How many notes of a list end in a given way. *)
Definition count (w : World) (p : NoteOutcome -> bool) (docs : list Doc) : Z :=
  len (List.filter (fun doc => p (index_outcome w doc)) docs).

(** [s'] is [s] but for the two counters, which grew by [di] and [df],
    and for calls that were added. *)
Definition advanced (s s' : BackgroundIndexer) (di df : Z) : Prop :=
  batch_size s' = batch_size s
  /\ delay_seconds s' = delay_seconds s
  /\ _running s' = _running s
  /\ total_notes (_stats s') = total_notes (_stats s)
  /\ pending_notes (_stats s') = pending_notes (_stats s)
  /\ last_run (_stats s') = last_run (_stats s)
  /\ indexed_notes (_stats s') = indexed_notes (_stats s) + di
  /\ failed_notes (_stats s') = failed_notes (_stats s) + df
  /\ exists added, calls s' = calls s ++ added.

Lemma advanced_refl (s : BackgroundIndexer) : advanced s s 0 0.
Proof.
  unfold advanced. repeat split; try lia.
  exists []. rewrite app_nil_r. reflexivity.
Qed.

Lemma advanced_trans (s1 s2 s3 : BackgroundIndexer) (a b c d : Z) :
  advanced s1 s2 a b -> advanced s2 s3 c d -> advanced s1 s3 (a + c) (b + d).
Proof.
  unfold advanced.
  intros (? & ? & ? & ? & ? & ? & ? & ? & e1 & He1)
         (? & ? & ? & ? & ? & ? & ? & ? & e2 & He2).
  repeat split; try congruence; try lia.
  exists (e1 ++ e2). rewrite He2, He1, app_assoc. reflexivity.
Qed.

Ltac solve_advanced :=
  unfold advanced; simpl; repeat split; try reflexivity; try lia;
  first [ exists []; rewrite app_nil_r; reflexivity
        | eexists; rewrite <- ?app_assoc; reflexivity ].

Section Notes.

Variable w : World.

(** A note that is too short is left alone: nothing is called, nothing is
    counted. *)
Lemma index_note_skips (doc : Doc) (s : BackgroundIndexer) :
  too_short doc = true -> _index_note w doc s = (Ok tt, s).
Proof.
  unfold too_short, _index_note. intros ->. reflexivity.
Qed.

(** [_index_note] raises exactly when the outcome is a failure, and adds
    one to [indexed_notes] exactly when the note is indexed. *)
Lemma index_note_run (doc : Doc) (s : BackgroundIndexer) :
  exists s',
    _index_note w doc s
    = (match index_outcome w doc with
       | Failed msg => Raised (Exception msg)
       | _ => Ok tt
       end, s')
    /\ advanced s s' (if is_indexed (index_outcome w doc) then 1 else 0) 0.
Proof.
  unfold index_outcome.
  destruct (too_short doc) eqn:Hshort.
  - exists s. rewrite index_note_skips by exact Hshort.
    split; [reflexivity|apply advanced_refl].
  - unfold _index_note. unfold too_short in Hshort. rewrite Hshort.
    unfold bind, try_except, await, lift, self, update_stats, ret, raise.
    destruct (mg_extract_metadata w (default [] (doc_data doc)))
      as [metadata|m1]; simpl; [|eexists; split; [reflexivity|solve_advanced]].
    destruct (mg_enrich_frontmatter w (default [] (doc_data doc)) metadata)
      as [enriched|m2]; simpl; [|eexists; split; [reflexivity|solve_advanced]].
    destruct (db_get_document w (doc_note_id doc)) as [current|m3]; simpl.
    + destruct (llm_embed_text w _) as [embedding|m4]; simpl;
        [|eexists; split; [reflexivity|solve_advanced]].
      destruct (vs_upsert_note w _ _ _) as [[]|m5]; simpl;
        eexists; (split; [reflexivity|solve_advanced]).
    + destruct (llm_embed_text w _) as [embedding|m4]; simpl;
        [|eexists; split; [reflexivity|solve_advanced]].
      destruct (vs_upsert_note w _ _ _) as [[]|m5]; simpl;
        eexists; (split; [reflexivity|solve_advanced]).
Qed.

(** [_process_batch] never raises: it goes through the whole batch,
    counts a failure for every note whose indexing raised, and the notes
    after a failed one are indexed as if it had not been there. *)
Lemma process_batch_run (batch : list Doc) (s : BackgroundIndexer) :
  exists s',
    _process_batch w batch s = (Ok tt, s')
    /\ advanced s s' (count w is_indexed batch) (count w is_failed batch).
Proof.
  revert s. induction batch as [|doc batch IH]; intros s.
  - exists s. split; [reflexivity|apply advanced_refl].
  - unfold _process_batch. simpl. fold (_process_batch w batch).
    unfold bind at 1. unfold try_except at 1.
    destruct (index_note_run doc s) as (s1 & Hrun & Hadv). rewrite Hrun.
    unfold count. simpl.
    destruct (index_outcome w doc) as [| |msg] eqn:Ho; simpl.
    + destruct (IH s1) as (s2 & Hb & Hadv2). exists s2.
      split; [exact Hb|].
      pose proof (advanced_trans _ _ _ _ _ _ _ Hadv Hadv2) as H.
      simpl in H. unfold count in H. exact H.
    + destruct (IH s1) as (s2 & Hb & Hadv2). exists s2.
      split; [exact Hb|].
      pose proof (advanced_trans _ _ _ _ _ _ _ Hadv Hadv2) as H.
      unfold count, len in *. simpl. simpl in H.
      replace (Z.of_nat (S (length (List.filter
                 (fun doc0 => is_indexed (index_outcome w doc0)) batch))))
        with (1 + Z.of_nat (length (List.filter
                 (fun doc0 => is_indexed (index_outcome w doc0)) batch)))
        by lia.
      exact H.
    + unfold bind, self, update_stats.
      match goal with
      | |- context [_process_batch w batch ?s0] =>
          destruct (IH s0) as (s2 & Hb & Hadv2);
          assert (advanced s1 s0 0 1) as Hfail by solve_advanced
      end.
      exists s2. split; [exact Hb|].
      pose proof (advanced_trans _ _ _ _ _ _ _ Hadv
                    (advanced_trans _ _ _ _ _ _ _ Hfail Hadv2)) as H.
      unfold count, len in *. simpl. simpl in H.
      replace (Z.of_nat (S (length (List.filter
                 (fun doc0 => is_failed (index_outcome w doc0)) batch))))
        with (0 + (1 + Z.of_nat (length (List.filter
                 (fun doc0 => is_failed (index_outcome w doc0)) batch))))
        by lia.
      exact H.
Qed.

(** What the discovery returns: the documents without the marker, oldest
    first, at most 50; nothing when a store cannot be read. *)
Definition pending_of : list Doc :=
  match db_get_all_documents w 500 with
  | Returns all_docs =>
      match vs_get_stats w with
      | Returns _ =>
          slice_to 50
            (sort_asc (fun x => default 0 (doc_ctime x))
               (List.filter
                  (fun doc =>
                     negb (contains (u "ai_indexed:")
                                    (default [] (doc_data doc))))
                  all_docs))
      | Fails _ => []
      end
  | Fails _ => []
  end.

(** The discovery never raises; it leaves the configuration, the running
    flag and the failure counter as they are. *)
Lemma find_pending_run (s : BackgroundIndexer) :
  exists s1,
    _find_pending_notes w s = (Ok pending_of, s1)
    /\ batch_size s1 = batch_size s
    /\ delay_seconds s1 = delay_seconds s
    /\ _running s1 = _running s
    /\ failed_notes (_stats s1) = failed_notes (_stats s)
    /\ last_run (_stats s1) = last_run (_stats s).
Proof.
  unfold _find_pending_notes, pending_of.
  unfold try_except, bind, await, lift, update_stats, ret, raise.
  destruct (db_get_all_documents w 500) as [all_docs|m1]; simpl;
    [|eexists; repeat split; reflexivity].
  destruct (vs_get_stats w) as [stats|m2]; simpl;
    eexists; repeat split; reflexivity.
Qed.

(** The message of the first note whose indexing fails. *)
Fixpoint first_failure (docs : list Doc) : option str :=
  match docs with
  | [] => None
  | doc :: docs' =>
      match index_outcome w doc with
      | Failed msg => Some msg
      | _ => first_failure docs'
      end
  end.

(** The loop of [reindex_all] stops at the first note that fails, and
    raises its exception; the failure counter is not touched. *)
Lemma reindex_loop_run (docs : list Doc) (s : BackgroundIndexer) :
  exists s',
    for_each docs (fun note => _index_note w note) s
    = (match first_failure docs with
       | Some msg => Raised (Exception msg)
       | None => Ok tt
       end, s')
    /\ failed_notes (_stats s') = failed_notes (_stats s)
    /\ (first_failure docs = None ->
        advanced s s' (count w is_indexed docs) 0).
Proof.
  revert s. induction docs as [|doc docs IH]; intros s; simpl.
  - exists s. split; [reflexivity|]. split; [reflexivity|].
    intros _. apply advanced_refl.
  - unfold bind at 1.
    destruct (index_note_run doc s) as (s1 & Hrun & Hadv). rewrite Hrun.
    assert (failed_notes (_stats s1) = failed_notes (_stats s)) as Hf.
    { destruct Hadv as (_ & _ & _ & _ & _ & _ & _ & Hf & _). lia. }
    destruct (index_outcome w doc) as [| |msg] eqn:Ho.
    + destruct (IH s1) as (s2 & Hloop & Hf2 & Hadv2). exists s2.
      split; [exact Hloop|]. split; [congruence|].
      intros Hnone. specialize (Hadv2 Hnone).
      pose proof (advanced_trans _ _ _ _ _ _ _ Hadv Hadv2) as H.
      unfold count in *. simpl. rewrite Ho. simpl in *. exact H.
    + destruct (IH s1) as (s2 & Hloop & Hf2 & Hadv2). exists s2.
      split; [exact Hloop|]. split; [congruence|].
      intros Hnone. specialize (Hadv2 Hnone).
      pose proof (advanced_trans _ _ _ _ _ _ _ Hadv Hadv2) as H.
      unfold count, len in *. simpl. rewrite Ho. simpl in *.
      replace (Z.of_nat (S (length (List.filter
                 (fun doc0 => is_indexed (index_outcome w doc0)) docs))))
        with (1 + Z.of_nat (length (List.filter
                 (fun doc0 => is_indexed (index_outcome w doc0)) docs)))
        by lia.
      replace 0 with (0 + 0) by lia. exact H.
    + exists s1. split; [reflexivity|]. split; [exact Hf|].
      intros; discriminate.
Qed.

(** [reindex_all] never raises. When no pending note fails it returns
    the number of pending notes; when one fails it returns the failure
    with the message of the first one that failed, and no count. *)
Lemma reindex_all_run (s : BackgroundIndexer) :
  exists s1 s2,
    _find_pending_notes w s = (Ok pending_of, s1)
    /\ reindex_all w s
       = (Ok (match first_failure pending_of with
              | None => reindex_success (len pending_of)
              | Some msg => reindex_failure msg
              end), s2)
    /\ failed_notes (_stats s2) = failed_notes (_stats s)
    /\ (first_failure pending_of = None ->
        advanced s1 s2 (count w is_indexed pending_of) 0).
Proof.
  destruct (find_pending_run s) as (s1 & Hfind & _ & _ & _ & Hf1 & _).
  destruct (reindex_loop_run pending_of s1) as (s2 & Hloop & Hf2 & Hadv).
  exists s1, s2. split; [exact Hfind|].
  unfold reindex_all, try_except. unfold bind at 1. rewrite Hfind.
  unfold bind at 1. rewrite Hloop.
  destruct (first_failure pending_of) as [msg|]; simpl.
  - split; [reflexivity|]. split; [congruence|]. intros; discriminate.
  - split; [reflexivity|]. split; [congruence|exact Hadv].
Qed.

Ltac div_lia := zify; Z.div_mod_to_equations; lia.

(** The batches of a scan: five notes each, from the first on. *)
Definition batches (pending : list Doc) : list (list Doc) :=
  map (fun j => take 5 (drop (5 * j) pending))
      (seq 0 (Z.to_nat ((len pending + 4) / 5))).

(** What a scan does with one batch. *)
Definition batch_then_delay (batch : list Doc) : I unit :=
  let* _ := _process_batch w batch in sleep 12.

Lemma batch_loop_run (pending : list Doc) (js : list nat)
    (s : BackgroundIndexer) :
  _running s = true -> batch_size s = 5 -> delay_seconds s = 12 ->
  batch_loop w pending (map (fun k => k * 5) (map Z.of_nat js)) s
  = for_each (map (fun j => take 5 (drop (5 * j) pending)) js)
             batch_then_delay s.
Proof.
  revert s. induction js as [|j js IH]; intros s Hrun Hsize Hdelay.
  - reflexivity.
  - cbn [map for_each batch_loop].
    unfold bind at 1. unfold self at 1. rewrite Hrun. cbn [negb].
    rewrite Hsize, Hdelay. unfold slice.
    replace (Z.to_nat (Z.of_nat j * 5)) with (5 * j)%nat by lia.
    replace (Z.to_nat (Z.of_nat j * 5 + 5) - 5 * j)%nat with 5%nat by lia.
    unfold batch_then_delay at 1. unfold bind.
    destruct (process_batch_run (take 5 (drop (5 * j) pending)) s)
      as (s1 & -> & Hadv).
    destruct Hadv as (Hb & Hd & Hr & _).
    unfold sleep, await. cbn [lift ret].
    apply IH; cbn; congruence.
Qed.

Lemma concat_batches (pending : list Doc) (m k : nat) :
  concat (map (fun j => take 5 (drop (5 * j) pending)) (seq k m))
  = take (5 * m) (drop (5 * k) pending).
Proof.
  revert k. induction m as [|m IH]; intros k.
  - reflexivity.
  - cbn [seq map concat]. rewrite IH.
    replace (5 * S k)%nat with (5 * k + 5)%nat by lia.
    rewrite <- drop_drop, take_take_drop.
    f_equal. lia.
Qed.

Lemma batches_concat (pending : list Doc) :
  concat (batches pending) = pending.
Proof.
  unfold batches. rewrite concat_batches.
  change (5 * 0)%nat with 0%nat. rewrite drop_0.
  apply take_ge. unfold len. div_lia.
Qed.

Lemma batches_lookup (pending : list Doc) (i : nat) (b : list Doc) :
  batches pending !! i = Some b ->
  b = take 5 (drop (5 * i) pending)
  /\ (i < Z.to_nat ((len pending + 4) / 5))%nat.
Proof.
  unfold batches. intros H.
  change (map ?f ?l) with (f <$> l) in H.
  rewrite list_lookup_fmap in H.
  destruct (seq 0 (Z.to_nat ((len pending + 4) / 5)) !! i) as [j|] eqn:E;
    [|discriminate].
  apply lookup_seq in E as [-> Hi]. simpl in H. injection H as <-.
  split; [reflexivity|exact Hi].
Qed.

Lemma batches_sizes (pending : list Doc) :
  Forall (fun b => (1 <= length b <= 5)%nat) (batches pending).
Proof.
  apply Forall_lookup. intros i b Hb.
  apply batches_lookup in Hb as [-> Hi].
  rewrite length_take, length_drop. unfold len in Hi. div_lia.
Qed.

Lemma batches_full (pending : list Doc) (i : nat) (b : list Doc) :
  batches pending !! i = Some b ->
  (S i < length (batches pending))%nat ->
  length b = 5%nat.
Proof.
  intros Hb Hi. apply batches_lookup in Hb as [-> _].
  unfold batches in Hi. rewrite length_map, length_seq in Hi.
  rewrite length_take, length_drop. unfold len in Hi. div_lia.
Qed.

Lemma batches_of_seven (pending : list Doc) :
  length pending = 7%nat ->
  batches pending = [take 5 pending; drop 5 pending]
  /\ length (take 5 pending) = 5%nat
  /\ length (drop 5 pending) = 2%nat.
Proof.
  intros H7. unfold batches, len. rewrite H7. simpl.
  rewrite drop_0, length_take, length_drop, H7.
  repeat split. f_equal. f_equal. apply take_ge.
  rewrite length_drop. lia.
Qed.

End Notes.

End IndexerSpec.

(** Worlds for concrete runs of the indexer. *)

Module IndexerFixtures.

Import Fixtures.

Definition note_doc (id : str) (ctime : Z) (data : str) : Doc :=
  {| doc_id := Some id; doc_path := Some id; doc_data := Some data;
     doc_mtime := Some ctime; doc_ctime := Some ctime |}.

(** The store holds [docs]; the metadata extractor and the vector index
    answer; the embedding is the given function. *)
Definition indexing_world (docs : list Doc) (embed : str -> outcome Embedding)
  : World :=
  {| lower := lower offline_world;
     llm_complete := llm_complete offline_world;
     llm_embed_text := embed;
     vs_search_similar := vs_search_similar offline_world;
     vs_get_stats := Returns (Some 0);
     vs_upsert_note := fun _ _ _ => Returns tt;
     db_search_documents := db_search_documents offline_world;
     db_get_document := db_get_document offline_world;
     db_get_all_documents := fun _ => Returns docs;
     cohere_rerank := cohere_rerank offline_world;
     mg_extract_metadata :=
       fun _ => Returns {| md_category := None; md_tags := None;
                           md_keywords := None; md_summary := None |};
     mg_enrich_frontmatter := fun content _ => Returns content;
     clock_now := clock_now offline_world |}.

(** The embedding fails for a text that holds "bad". *)
Definition picky_embed (text : str) : outcome Embedding :=
  if contains (u "bad") text then Fails (u "embedding failed")
  else Returns [1 # 2].

(** Two pending notes; the embedding of the older one fails. *)
Definition two_notes : list Doc :=
  [ note_doc (u "notes/a") 1 (u "a bad note, long enough");
    note_doc (u "notes/b") 2 (u "a good note, long enough") ].

Definition flaky_world : World := indexing_world two_notes picky_embed.

(** Seven pending notes and a working embedding. *)
Definition seven_notes : list Doc :=
  map (fun i => note_doc (u "notes/n" ++ of_nat i) (Z.of_nat i)
                         (u "a good note, long enough"))
      (seq 0 7).

Definition seven_world : World := indexing_world seven_notes picky_embed.

(** A note of two characters and a note that is indexed. *)
Definition short_note : Doc := note_doc (u "notes/s") 1 (u "hi").

Definition short_and_long : list Doc :=
  [ short_note; note_doc (u "notes/b") 2 (u "a good note, long enough") ].

Definition short_world : World := indexing_world short_and_long picky_embed.

End IndexerFixtures.

Module IndexerClaims.

Import Indexer IndexerSpec IndexerFixtures.

(** C8, as stated, fails for the manual reindex: [reindex_all] calls
    [_index_note] outside [_process_batch].  With two pending notes of
    which the older fails, it stops at that note, returns the failure
    with no count of processed documents, counts no failure and never
    indexes the second note; [_process_batch] on the same notes counts
    one failure and indexes the second note. *)
Lemma reindex_all_stops_at_failure :
  (exists s',
     reindex_all flaky_world default_indexer
     = (Ok (reindex_failure (u "embedding failed")), s')
     /\ reindex_failure (u "embedding failed") !! "notes_processed"%string = None
     /\ failed_notes (_stats s') = 0
     /\ indexed_notes (_stats s') = 0
     /\ pending_notes (_stats s') = 2)
  /\ (exists s',
        _process_batch flaky_world two_notes default_indexer = (Ok tt, s')
        /\ failed_notes (_stats s') = 1
        /\ indexed_notes (_stats s') = 1).
Proof.
  split.
  - eexists. split; [vm_compute; reflexivity|].
    split; [vm_compute; reflexivity|]. repeat split.
  - eexists. split; [vm_compute; reflexivity|]. split; reflexivity.
Qed.

Section Isolation.

Variable w : World.

Lemma count_app (p : NoteOutcome -> bool) (a b : list Doc) :
  count w p (a ++ b) = count w p a + count w p b.
Proof.
  unfold count, len. rewrite List.filter_app, length_app. lia.
Qed.

(** Batch after batch: no batch raises, and every note of every batch
    is attempted and counted. *)
Lemma batches_run (bs : list (list Doc)) (s : BackgroundIndexer) :
  exists s',
    for_each bs (batch_then_delay w) s = (Ok tt, s')
    /\ advanced s s' (count w is_indexed (concat bs))
                     (count w is_failed (concat bs)).
Proof.
  revert s. induction bs as [|b bs IH]; intros s.
  - exists s. split; [reflexivity|apply advanced_refl].
  - cbn [for_each concat]. unfold bind at 1. unfold batch_then_delay at 1.
    unfold bind at 1.
    destruct (process_batch_run w b s) as (s1 & -> & Hadv1).
    unfold sleep, await, lift, ret.
    match goal with
    | |- exists s', for_each bs _ ?s2 = _ /\ _ =>
        destruct (IH s2) as (s3 & -> & Hadv3);
        assert (advanced s1 s2 0 0) as Hadv2 by solve_advanced
    end.
    exists s3. split; [reflexivity|]. rewrite !count_app.
    pose proof (advanced_trans _ _ _ _ _ _ _ Hadv1
                  (advanced_trans _ _ _ _ _ _ _ Hadv2 Hadv3)) as H.
    replace (count w is_indexed b + count w is_indexed (concat bs))
      with (count w is_indexed b
            + (0 + count w is_indexed (concat bs))) by lia.
    replace (count w is_failed b + count w is_failed (concat bs))
      with (count w is_failed b
            + (0 + count w is_failed (concat bs))) by lia.
    exact H.
Qed.

(** A scan of the indexer as it is started by default attempts every
    pending note, whatever fails. *)
Lemma scan_attempts_every_note (s : BackgroundIndexer) :
  _running s = true -> batch_size s = 5 -> delay_seconds s = 12 ->
  exists s1 s',
    _find_pending_notes w s = (Ok (pending_of w), s1)
    /\ scan w s = (Ok tt, s')
    /\ failed_notes (_stats s')
       = failed_notes (_stats s) + count w is_failed (pending_of w)
    /\ indexed_notes (_stats s')
       = indexed_notes (_stats s1) + count w is_indexed (pending_of w).
Proof.
  intros Hrun Hsize Hdelay.
  destruct (find_pending_run w s) as (s1 & Hfind & Hb & Hd & Hr & Hf & _).
  exists s1. unfold scan. unfold bind at 1. rewrite Hfind.
  destruct (pending_of w) as [|doc pending] eqn:Hp.
  - unfold bind, ret, sleep, await, lift. eexists.
    split; [reflexivity|]. split; [reflexivity|].
    unfold count, len. simpl. split; lia.
  - unfold bind at 1. unfold bind at 1. unfold self at 1.
    unfold bind at 1. rewrite Hb, Hsize. unfold range_step.
    change (5 =? 0) with false. change (5 <? 0) with false. cbn iota.
    unfold ret at 1. unfold range.
    replace (len (doc :: pending) + 5 - 1) with (len (doc :: pending) + 4)
      by lia.
    unfold bind at 1. rewrite batch_loop_run by congruence.
    fold (batches (doc :: pending)).
    destruct (batches_run (batches (doc :: pending)) s1)
      as (s2 & -> & Hadv).
    rewrite batches_concat in Hadv.
    unfold bind, update_stats, sleep, await, lift, ret.
    eexists. split; [reflexivity|]. split; [reflexivity|].
    destruct Hadv as (_ & _ & _ & _ & _ & _ & Hi & Hfail & _).
    cbn [_stats failed_notes indexed_notes set_last_run].
    split; [rewrite Hfail, Hf; reflexivity|exact Hi].
Qed.

(** The loop of [reindex_all] on notes of which [bad] is the first to
    fail is the loop on the notes up to [bad]: what comes after [bad] is
    not attempted. *)
Lemma reindex_loop_stops (before : list Doc) (bad : Doc) (after : list Doc)
    (msg : str) (s : BackgroundIndexer) :
  first_failure w before = None ->
  index_outcome w bad = Failed msg ->
  first_failure w (before ++ bad :: after) = Some msg
  /\ exists s',
       for_each (before ++ bad :: after) (fun note => _index_note w note) s
       = (Raised (Exception msg), s')
       /\ for_each (before ++ [bad]) (fun note => _index_note w note) s
          = (Raised (Exception msg), s')
       /\ indexed_notes (_stats s')
          = indexed_notes (_stats s) + count w is_indexed before.
Proof.
  intros Hbefore Hbad. revert s Hbefore.
  induction before as [|doc before IH]; intros s Hbefore.
  - cbn [app for_each first_failure]. rewrite Hbad.
    split; [reflexivity|]. unfold bind.
    destruct (index_note_run w bad s) as (s1 & -> & Hadv).
    rewrite Hbad in *. exists s1. split; [reflexivity|].
    split; [reflexivity|].
    destruct Hadv as (_ & _ & _ & _ & _ & _ & Hi & _).
    unfold count, len. simpl in *. lia.
  - cbn [app for_each first_failure] in *.
    destruct (index_note_run w doc s) as (s1 & Hrun & Hadv).
    destruct (index_outcome w doc) as [| |m] eqn:Ho; [| |discriminate];
      (destruct (IH s1 Hbefore) as (Hfirst & s2 & Hall & Hprefix & Hi);
       split; [exact Hfirst|];
       exists s2; unfold bind; rewrite Hrun;
       split; [exact Hall|]; split; [exact Hprefix|];
       destruct Hadv as (_ & _ & _ & _ & _ & _ & Hi1 & _);
       rewrite Hi, Hi1; unfold count, len; simpl; rewrite Ho; simpl; lia).
Qed.

End Isolation.

(** C8, as amended.  In the background loop a note whose indexing fails
    is counted in [failed_notes] and neither the rest of its batch nor
    the rest of the scan is given up.  [_process_batch] never raises,
    [failed_notes] grows by the number of notes that fail and
    [indexed_notes] by the number of notes that are indexed; and a scan
    of the indexer as it is started by default (running, batches of 5,
    delay 12) returns after attempting every pending note it found, with
    the same counts over all of them.  The manual reindex uses the same
    discovery and the same [_index_note], outside [_process_batch]: it
    never raises and leaves [failed_notes] as it was; when no pending
    note fails it has attempted them all and returns their number; when
    one fails it stops there: it returns the failure of the first such
    note and no count, and the state it ends in is the state of the loop
    over the notes up to that one, so that of the notes after it none is
    attempted. *)
Theorem batch_isolates_failure_reindex_stops (w : World) (batch : list Doc)
    (s : BackgroundIndexer) :
  (exists s',
     _process_batch w batch s = (Ok tt, s')
     /\ failed_notes (_stats s')
        = failed_notes (_stats s) + count w is_failed batch
     /\ indexed_notes (_stats s')
        = indexed_notes (_stats s) + count w is_indexed batch)
  /\ (_running s = true -> batch_size s = 5 -> delay_seconds s = 12 ->
      exists s1 s',
        _find_pending_notes w s = (Ok (pending_of w), s1)
        /\ scan w s = (Ok tt, s')
        /\ failed_notes (_stats s')
           = failed_notes (_stats s) + count w is_failed (pending_of w)
        /\ indexed_notes (_stats s')
           = indexed_notes (_stats s1) + count w is_indexed (pending_of w))
  /\ (exists s1 s2,
        _find_pending_notes w s = (Ok (pending_of w), s1)
        /\ reindex_all w s
           = (Ok (match first_failure w (pending_of w) with
                  | None => reindex_success (len (pending_of w))
                  | Some msg => reindex_failure msg
                  end), s2)
        /\ failed_notes (_stats s2) = failed_notes (_stats s)
        /\ (first_failure w (pending_of w) = None ->
            for_each (pending_of w) (fun note => _index_note w note) s1
            = (Ok tt, s2)
            /\ indexed_notes (_stats s2)
               = indexed_notes (_stats s1)
                 + count w is_indexed (pending_of w))
        /\ (forall before bad after msg,
              pending_of w = before ++ bad :: after ->
              first_failure w before = None ->
              index_outcome w bad = Failed msg ->
              reindex_all w s = (Ok (reindex_failure msg), s2)
              /\ reindex_failure msg !! "notes_processed"%string = None
              /\ for_each (before ++ [bad]) (fun note => _index_note w note)
                          s1
                 = (Raised (Exception msg), s2)
              /\ indexed_notes (_stats s2)
                 = indexed_notes (_stats s1) + count w is_indexed before)).
Proof.
  split.
  { destruct (process_batch_run w batch s) as (s' & Hrun & Hadv).
    exists s'. split; [exact Hrun|].
    destruct Hadv as (_ & _ & _ & _ & _ & _ & Hi & Hf & _).
    split; assumption. }
  split; [apply scan_attempts_every_note|].
  destruct (find_pending_run w s) as (s1 & Hfind & _ & _ & _ & Hf1 & _).
  destruct (reindex_loop_run w (pending_of w) s1)
    as (s2 & Hloop & Hf2 & Hclean).
  assert (reindex_all w s
          = (Ok (match first_failure w (pending_of w) with
                 | None => reindex_success (len (pending_of w))
                 | Some msg => reindex_failure msg
                 end), s2)) as Hre.
  { unfold reindex_all, try_except. unfold bind at 1. rewrite Hfind.
    unfold bind. rewrite Hloop.
    destruct (first_failure w (pending_of w)); reflexivity. }
  exists s1, s2. split; [exact Hfind|]. split; [exact Hre|].
  split; [congruence|]. split.
  - intros Hnone. rewrite Hnone in Hloop. split; [exact Hloop|].
    destruct (Hclean Hnone) as (_ & _ & _ & _ & _ & _ & Hi & _). exact Hi.
  - intros before bad after msg Hp Hbefore Hbad.
    destruct (reindex_loop_stops w before bad after msg s1 Hbefore Hbad)
      as (Hfirst & s' & Hall & Hprefix & Hi).
    rewrite <- Hp in Hfirst, Hall.
    rewrite Hfirst in Hre, Hloop.
    assert (s' = s2) as -> by congruence.
    split; [exact Hre|]. split; [reflexivity|].
    split; [exact Hprefix|exact Hi].
Qed.

(** The flaky store again: a scan attempts both notes, counts the one
    that fails and indexes the other; the reindex stops at the first, and
    the second is not embedded. *)
Example scan_goes_on_reindex_stops :
  (exists s',
     scan flaky_world (start default_indexer) = (Ok tt, s')
     /\ failed_notes (_stats s') = 1
     /\ indexed_notes (_stats s') = 1)
  /\ (exists s',
        reindex_all flaky_world default_indexer
        = (Ok (reindex_failure (u "embedding failed")), s')
        /\ List.filter (fun ev => match ev with EvEmbed _ => true
                                           | _ => false end) (calls s')
           = [EvEmbed (u " a bad note, long enough")]).
Proof.
  split; eexists; (split; [vm_compute; reflexivity|]); repeat split.
Qed.

(** C9.  Let the indexer run with its batch size 5 and its delay 12.  A
    scan processes the pending notes it found batch by batch, each batch
    followed by the delay of 12 seconds, then records the run and sleeps
    600 seconds; the batches are the pending notes in their order, five
    to a batch, the last one with what is left.  When 7 notes are
    pending there are exactly two batches, the first 5 notes and then the
    other 2. *)
Theorem scan_batches_of_five (w : World) (s : BackgroundIndexer) :
  _running s = true -> batch_size s = 5 -> delay_seconds s = 12 ->
  exists s1,
    _find_pending_notes w s = (Ok (pending_of w), s1)
    /\ scan w s
       = (let* _ := for_each (batches (pending_of w)) (batch_then_delay w) in
          let* _ := match pending_of w with
                    | [] => ret tt
                    | _ => update_stats (set_last_run (Some (clock_now w)))
                    end in
          sleep 600) s1
    /\ concat (batches (pending_of w)) = pending_of w
    /\ Forall (fun b => (1 <= length b <= 5)%nat) (batches (pending_of w))
    /\ (forall i b,
          batches (pending_of w) !! i = Some b ->
          (S i < length (batches (pending_of w)))%nat ->
          length b = 5%nat)
    /\ (length (pending_of w) = 7%nat ->
        batches (pending_of w)
        = [take 5 (pending_of w); drop 5 (pending_of w)]
        /\ length (take 5 (pending_of w)) = 5%nat
        /\ length (drop 5 (pending_of w)) = 2%nat).
Proof.
  intros Hrun Hsize Hdelay.
  destruct (find_pending_run w s) as (s1 & Hfind & Hb & Hd & Hr & _).
  exists s1. split; [exact Hfind|]. split.
  - unfold scan. unfold bind at 1. rewrite Hfind.
    destruct (pending_of w) as [|doc pending] eqn:Hp; [reflexivity|].
    unfold bind at 1. unfold bind at 1. unfold self at 1.
    unfold bind at 1. rewrite Hb, Hsize. unfold range_step.
    change (5 =? 0) with false. change (5 <? 0) with false. cbn iota.
    unfold ret at 1. unfold range.
    replace (len (doc :: pending) + 5 - 1) with (len (doc :: pending) + 4)
      by lia.
    unfold bind. rewrite batch_loop_run by congruence.
    unfold batches.
    destruct (for_each _ (batch_then_delay w) s1) as [[[]|e] s2];
      reflexivity.
  - split; [apply batches_concat|].
    split; [apply batches_sizes|].
    split; [apply batches_full|apply batches_of_seven].
Qed.

Lemma scan_batches_of_five_witness :
  exists s1,
    _find_pending_notes seven_world (start default_indexer)
    = (Ok (pending_of seven_world), s1)
    /\ scan seven_world (start default_indexer)
       = (let* _ := batch_then_delay seven_world (take 5 seven_notes) in
          let* _ := batch_then_delay seven_world (drop 5 seven_notes) in
          let* _ := update_stats (set_last_run (Some (clock_now seven_world))) in
          sleep 600) s1
    /\ length (take 5 seven_notes) = 5%nat
    /\ length (drop 5 seven_notes) = 2%nat.
Proof.
  destruct (scan_batches_of_five seven_world (start default_indexer))
    as (s1 & Hfind & Hscan & _ & _ & _ & Hseven);
    [reflexivity|reflexivity|reflexivity|].
  assert (pending_of seven_world = seven_notes) as Hp
    by (vm_compute; reflexivity).
  destruct Hseven as (Hbatches & H5 & H2); [rewrite Hp; reflexivity|].
  exists s1. split; [exact Hfind|]. split.
  - rewrite Hscan, Hbatches, Hp. unfold for_each, bind.
    destruct (batch_then_delay seven_world (take 5 seven_notes) s1)
      as [[[]|e] s2]; [|reflexivity].
    destruct (batch_then_delay seven_world (drop 5 seven_notes) s2)
      as [[[]|e] s3]; reflexivity.
  - rewrite Hp in H5, H2. split; assumption.
Defined.

Lemma count_skipped (w : World) (doc : Doc) (docs : list Doc) :
  In doc docs -> is_indexed (index_outcome w doc) = false ->
  count w is_indexed docs < len docs.
Proof.
  unfold count, len. intros Hin Hskip.
  induction docs as [|d docs IH]; [destruct Hin|].
  simpl. destruct Hin as [->|Hin].
  - rewrite Hskip.
    pose proof (filter_length_le
                  (fun doc0 => is_indexed (index_outcome w doc0)) docs).
    lia.
  - specialize (IH Hin).
    destruct (is_indexed (index_outcome w d)); simpl; lia.
Qed.

(** C10.  A note whose content is empty, or shorter than 10 characters
    once stripped, is left alone by [_index_note]: the indexer is as it
    was, with no call made (no metadata extracted, nothing embedded or
    upserted) and no counter changed.  When such a note is among the
    pending notes and the reindex goes through, the count that
    [reindex_all] returns is the number of pending notes, the skipped one
    included: it is greater than the number of notes indexed. *)
Theorem short_note_skipped_yet_counted (w : World) (doc : Doc)
    (s : BackgroundIndexer) :
  default [] (doc_data doc) = []
  \/ len (strip (default [] (doc_data doc))) < 10 ->
  _index_note w doc s = (Ok tt, s)
  /\ (In doc (pending_of w) -> first_failure w (pending_of w) = None ->
      exists s1 s2,
        _find_pending_notes w s = (Ok (pending_of w), s1)
        /\ reindex_all w s
           = (Ok (reindex_success (len (pending_of w))), s2)
        /\ reindex_success (len (pending_of w)) !! "notes_processed"%string
           = Some (VInt (len (pending_of w)))
        /\ indexed_notes (_stats s2)
           = indexed_notes (_stats s1) + count w is_indexed (pending_of w)
        /\ failed_notes (_stats s2) = failed_notes (_stats s)
        /\ count w is_indexed (pending_of w) < len (pending_of w)).
Proof.
  intros Hshort.
  assert (too_short doc = true) as Hts.
  { unfold too_short. destruct Hshort as [->|Hlt]; [reflexivity|].
    apply orb_true_iff. right. apply Z.ltb_lt, Hlt. }
  split; [apply index_note_skips, Hts|].
  intros Hin Hnone.
  destruct (reindex_all_run w s) as (s1 & s2 & Hfind & Hre & Hf & Hadv).
  rewrite Hnone in Hre. specialize (Hadv Hnone).
  exists s1, s2. split; [exact Hfind|]. split; [exact Hre|].
  split; [reflexivity|].
  destruct Hadv as (_ & _ & _ & _ & _ & _ & Hi & _).
  split; [exact Hi|]. split; [exact Hf|].
  apply (count_skipped w doc); [exact Hin|].
  unfold index_outcome. rewrite Hts. reflexivity.
Qed.

Lemma short_note_skipped_yet_counted_witness :
  _index_note short_world short_note default_indexer
  = (Ok tt, default_indexer)
  /\ exists s1 s2,
       _find_pending_notes short_world default_indexer
       = (Ok (pending_of short_world), s1)
       /\ reindex_all short_world default_indexer
          = (Ok (reindex_success (len (pending_of short_world))), s2)
       /\ reindex_success (len (pending_of short_world))
            !! "notes_processed"%string
          = Some (VInt (len (pending_of short_world)))
       /\ indexed_notes (_stats s2)
          = indexed_notes (_stats s1)
            + count short_world is_indexed (pending_of short_world)
       /\ failed_notes (_stats s2) = failed_notes (_stats default_indexer)
       /\ count short_world is_indexed (pending_of short_world)
          < len (pending_of short_world).
Proof.
  destruct (short_note_skipped_yet_counted short_world short_note
              default_indexer) as (Hskip & Hcount).
  - right. vm_compute. reflexivity.
  - split; [exact Hskip|]. apply Hcount.
    + vm_compute. left. reflexivity.
    + vm_compute. reflexivity.
Defined.

(** The vector upserts and the sleeps of a trace, in order. *)
Definition milestones (t : trace) : list (list N + Z) :=
  flat_map (fun ev =>
              match ev with
              | EvUpsert id _ _ => [inl id]
              | EvSleep seconds => [inr seconds]
              | _ => []
              end) t.

(** Scenario D: seven pending notes are indexed five and then two, with
    12 seconds after each batch and 600 seconds after the scan. *)
Example scenario_d :
  let s' := snd (scan seven_world (start default_indexer)) in
  milestones (calls s')
  = map (fun i => inl (u "notes/n" ++ of_nat i)) (seq 0 5)
    ++ [inr 12]
    ++ map (fun i => inl (u "notes/n" ++ of_nat i)) (seq 5 2)
    ++ [inr 12; inr 600]
  /\ indexed_notes (_stats s') = 7
  /\ failed_notes (_stats s') = 0
  /\ last_run (_stats s') = Some (clock_now seven_world).
Proof. vm_compute. repeat split. Qed.

End IndexerClaims.

(** * Further properties of the code *)

(** ** note_taker.py: the confidence of the note taker *)

Module NoteTaker.

(** [SmartNoteTaker.can_handle] *)
Definition can_handle (message : str) (context : gmap string pyval)
  : outcome Q :=
  (* Skip commands *)
  if startswith (strip message) (u "/") then Returns 0%Q
  else Returns (1 # 2).

End NoteTaker.

(** ** The router, further *)

Module DirectorExtras.

Import Director Fixtures.

(** The director that [agents] registered in this order give. *)
Definition registered (agents : list BaseAgent) : MessageDirector :=
  foldl register_agent init agents.

(** The completion call of the intent classifier. *)
Definition classifier_call (message : str) : event :=
  EvComplete (intent_messages message) (1 # 10) None.

(** What the heuristic leaves to the classifier. *)
Definition ambiguous (w : World) (message : str) : bool :=
  negb (startswith (strip message) (u "/"))
  && negb (contains_char 63 message
           || existsb (fun q => startswith (lower w message) q) interrogatives)
  && negb (length (split message) <? 15)%nat.

Section Intent.

Variable w : World.

(** The intent analysis never raises.  It calls the classifier at most
    once, and only for a message that is no command, no question for the
    heuristic and has 15 words or more; when the call fails the intent is
    "note". *)
Lemma analyze_intent_run (message : str) (t : trace) :
  exists intent,
    _analyze_intent w message t
    = (Ok intent, if ambiguous w message then t ++ [classifier_call message]
                  else t)
    /\ (ambiguous w message = true ->
        forall msg,
          llm_complete w (intent_messages message) (1 # 10) None = Fails msg ->
          intent = note)
    /\ (ambiguous w message = true ->
        forall answer,
          llm_complete w (intent_messages message) (1 # 10) None
          = Returns answer ->
          intent = default note (intent_of_str (lower w (strip answer)))).
Proof.
  unfold _analyze_intent, ambiguous.
  set (is_command := startswith (strip message) (u "/")).
  set (is_asked :=
         contains_char 63 message
         || existsb (fun q => startswith (lower w message) q) interrogatives).
  set (is_short := (length (split message) <? 15)%nat).
  destruct is_command; cbn [negb andb].
  { exists command. split; [reflexivity|]. split; intros; discriminate. }
  destruct is_asked; cbn [negb andb].
  { exists question. split; [reflexivity|]. split; intros; discriminate. }
  destruct is_short; cbn [negb andb].
  { exists note. split; [reflexivity|]. split; intros; discriminate. }
  unfold bind, try_except, call, ret, classifier_call.
  destruct (llm_complete w (intent_messages message) (1 # 10) None)
    as [answer|msg]; cbn [lift ret raise].
  - destruct (intent_of_str (lower w (strip answer))) as [i|] eqn:E.
    + exists i. split; [reflexivity|]. split; [intros; discriminate|].
      intros _ a Ha. injection Ha as <-. rewrite E. reflexivity.
    + exists note. split; [reflexivity|]. split; [intros; discriminate|].
      intros _ a Ha. injection Ha as <-. rewrite E. reflexivity.
  - exists note. split; [reflexivity|]. split; [reflexivity|].
    intros; discriminate.
Qed.

End Intent.

Section Routes.

Variable w : World.
Variable self : MessageDirector.
Variable message : str.
Variable context : gmap string pyval.

(** The trace after the intent analysis. *)
Definition after_intent (t : trace) : trace :=
  if ambiguous w message then t ++ [classifier_call message] else t.

(** X1.  The intent analysis never raises and adds at most one call, the
    completion call of the classifier; a message of fewer than 15 words
    adds none; and when that call fails, or answers with another word
    than question, note or command, the intent is "note". *)
Theorem intent_one_call_note_by_default (t : trace) :
  exists intent added,
    _analyze_intent w message t = (Ok intent, t ++ added)
    /\ (added = [] \/ added = [classifier_call message])
    /\ ((length (split message) < 15)%nat -> added = [])
    /\ (added <> [] ->
        forall msg,
          llm_complete w (intent_messages message) (1 # 10) None = Fails msg ->
          intent = note)
    /\ (added <> [] ->
        forall answer,
          llm_complete w (intent_messages message) (1 # 10) None
          = Returns answer ->
          intent_of_str (lower w (strip answer)) = None ->
          intent = note).
Proof.
  destruct (analyze_intent_run w message t) as (intent & Hrun & Hfail & Hans).
  exists intent.
  destruct (ambiguous w message) eqn:Hamb.
  - exists [classifier_call message]. split; [exact Hrun|].
    split; [right; reflexivity|]. split.
    + intros Hshort. unfold ambiguous in Hamb.
      apply Nat.ltb_lt in Hshort. rewrite Hshort in Hamb.
      rewrite andb_false_r in Hamb. discriminate.
    + split.
      * intros _ msg Hmsg. apply (Hfail eq_refl msg Hmsg).
      * intros _ answer Hanswer Hnone.
        rewrite (Hans eq_refl answer Hanswer), Hnone. reflexivity.
  - exists []. rewrite app_nil_r. split; [exact Hrun|].
    split; [left; reflexivity|]. split; [reflexivity|].
    split; intros Hne; exfalso; apply Hne; reflexivity.
Qed.

(** X2.  The router knows three names.  When no agent is registered as
    "research", "qa" or "note_taker", it returns the static response
    "No agents available ..." with [success] false, whatever other agents
    are registered and whatever the message. *)
Theorem route_without_known_agents (t : trace) :
  get_agent self "research" = None ->
  get_agent self "qa" = None ->
  get_agent self "note_taker" = None ->
  route_message w self message context t
  = (Ok no_agents_response, after_intent t)
  /\ success no_agents_response = false.
Proof.
  intros Hr Hq Hn. split; [|reflexivity].
  unfold route_message. rewrite Hr, Hq, Hn.
  destruct (awaiting_research context); unfold bind;
    destruct (analyze_intent_run w message t) as (intent & -> & _);
    destruct (is_question intent); reflexivity.
Qed.

(** X3.  Without a Q&A agent every message that is not taken by research
    mode goes to the note taker, whatever the classifier answers: the run
    is the run of the note taker's [process] after the intent analysis. *)
Theorem route_without_qa (note_taker_agent : BaseAgent) (t : trace) :
  awaiting_research context = false ->
  get_agent self "qa" = None ->
  get_agent self "note_taker" = Some note_taker_agent ->
  route_message w self message context t
  = process note_taker_agent message context (after_intent t).
Proof.
  intros Hflag Hq Hn. unfold route_message. rewrite Hflag, Hq, Hn.
  unfold bind.
  destruct (analyze_intent_run w message t) as (intent & -> & _).
  destruct (is_question intent); reflexivity.
Qed.

(** X4.  A command, and a message of fewer than 15 words without a
    question mark and without an interrogative word at its start, goes to
    the note taker also when a Q&A agent is registered; no completion
    call is made. *)
Theorem route_command_or_short_statement (note_taker_agent : BaseAgent)
    (t : trace) :
  awaiting_research context = false ->
  get_agent self "note_taker" = Some note_taker_agent ->
  startswith (strip message) (u "/") = true
  \/ (contains_char 63 message = false
      /\ (forall q, In q interrogatives ->
            startswith (lower w message) q = false)
      /\ (length (split message) < 15)%nat) ->
  route_message w self message context t
  = process note_taker_agent message context t.
Proof.
  intros Hflag Hn Hcase. unfold route_message. rewrite Hflag, Hn.
  assert (exists intent,
            _analyze_intent w message t = (Ok intent, t)
            /\ is_question intent = false) as (intent & Hrun & Hnq).
  { destruct Hcase as [Hcmd|(Hmark & Hword & Hshort)].
    - exists command. split; [|reflexivity].
      unfold _analyze_intent. rewrite Hcmd. reflexivity.
    - unfold _analyze_intent.
      destruct (startswith (strip message) (u "/"));
        [exists command; split; reflexivity|].
      assert (existsb (fun q => startswith (lower w message) q) interrogatives
              = false) as Hex.
      { destruct (existsb _ interrogatives) eqn:E; [|reflexivity].
        apply existsb_exists in E as (q & Hq & Hs).
        rewrite (Hword q Hq) in Hs. discriminate. }
      rewrite Hmark, Hex. apply Nat.ltb_lt in Hshort. rewrite Hshort.
      exists note. split; reflexivity. }
  unfold bind. rewrite Hrun, Hnq. reflexivity.
Qed.

End Routes.

(** A helper agent under a name the router does not know. *)
Definition helper : BaseAgent := mock_agent "helper" 1 (u "Helped").

Lemma route_without_known_agents_witness :
  route_message offline_world (registered [helper])
    (u "What is the deployment process?") ∅ []
  = (Ok no_agents_response, [])
  /\ success no_agents_response = false.
Proof.
  apply (route_without_known_agents offline_world (registered [helper])
           (u "What is the deployment process?") ∅ []);
    vm_compute; reflexivity.
Defined.

(** Scenario B: only the note taker is registered. *)
Lemma route_without_qa_witness :
  route_message offline_world (registered [note_taker])
    (u "Buy milk tomorrow") ∅ []
  = process note_taker (u "Buy milk tomorrow") ∅ [].
Proof.
  apply (route_without_qa offline_world (registered [note_taker])
           (u "Buy milk tomorrow") ∅ note_taker []);
    vm_compute; reflexivity.
Defined.

Lemma route_command_or_short_statement_witness :
  route_message offline_world director (u "Buy milk tomorrow") ∅ []
  = process note_taker (u "Buy milk tomorrow") ∅ [].
Proof.
  apply (route_command_or_short_statement offline_world director
           (u "Buy milk tomorrow") ∅ note_taker []).
  - reflexivity.
  - vm_compute. reflexivity.
  - right. split; [reflexivity|]. split; [|vm_compute; lia].
    intros q Hq. simpl in Hq.
    repeat (destruct Hq as [<-|Hq]; [reflexivity|]). destruct Hq.
Defined.

(** X5.  After any sequence of registrations the director lists the
    agents in the order of their registration, and [get_agent] returns
    for a name the agent registered last under it: an earlier agent of
    the same name stays in the list but is no longer found by name. *)
Theorem registry_last_wins (agents : list BaseAgent) (n : string) :
  _agents (registered agents) = agents
  /\ list_agents (registered agents) = map name agents
  /\ get_agent (registered agents) n
     = find (fun a => bool_decide (name a = n)) (rev agents).
Proof.
  unfold registered, list_agents.
  induction agents as [|a agents IH] using rev_ind.
  - split; [reflexivity|]. split; [reflexivity|]. apply lookup_empty.
  - rewrite foldl_app. simpl.
    destruct IH as (Hlist & _ & Hget).
    rewrite Hlist. split; [reflexivity|]. split; [reflexivity|].
    rewrite rev_app_distr. simpl.
    unfold get_agent in *. simpl.
    destruct (bool_decide (name a = n)) eqn:E.
    + apply bool_decide_eq_true in E. subst n. apply lookup_insert_eq.
    + apply bool_decide_eq_false in E.
      rewrite lookup_insert_ne by exact E. exact Hget.
Qed.

End DirectorExtras.

(** ** The selection by confidence, further *)

Module SelectionExtras.

Import Director DirectorSpec Fixtures.

Section Stability.

Context {A : Type} (key : A -> Q).

(** The first element of the sorted list is the first element of
    greatest key in the list: all before it have a smaller key. *)
Lemma sort_desc_first_maximum (l : list A) (a : A) (rest : list A) :
  sort_desc key l = a :: rest ->
  exists before after,
    l = before ++ a :: after
    /\ Forall (fun b => (key b < key a)%Q) before
    /\ Forall (fun b => (key b <= key a)%Q) after.
Proof.
  revert a rest. induction l as [|x l IH]; intros a rest Hsort.
  - discriminate.
  - simpl in Hsort.
    destruct (sort_desc key l) as [|h tl] eqn:Hl.
    + apply sort_desc_nil in Hl. subst l. simpl in Hsort.
      injection Hsort as <- <-. exists [], []. repeat split; constructor.
    + simpl in Hsort.
      destruct (IH h tl eq_refl) as (before & after & -> & Hb & Ha).
      destruct (Qlt_bool (key x) (key h)) eqn:E.
      * injection Hsort as <- _. apply Qlt_bool_true in E.
        exists (x :: before), after. repeat split; [|exact Ha].
        constructor; assumption.
      * injection Hsort as <- _. apply Qlt_bool_false in E.
        exists [], (before ++ h :: after). split; [reflexivity|].
        split; [constructor|].
        apply Forall_app. split.
        -- eapply Forall_impl; [exact Hb|]. intros b Hlt. simpl in Hlt.
           eapply Qle_trans; [apply Qlt_le_weak, Hlt|exact E].
        -- constructor; [exact E|].
           eapply Forall_impl; [exact Ha|]. intros b Hle. simpl in Hle.
           eapply Qle_trans; eassumption.
Qed.

End Stability.

(** X6.  Among the agents of greatest confidence the one registered
    first is selected: every agent polled before the selected one has a
    smaller effective score, and no agent polled after it a greater. *)
Theorem select_best_agent_first_among_equals (self : MessageDirector)
    (message : str) (context : gmap string pyval) (t : trace)
    (best : BaseAgent) (t' : trace) :
  select_best_agent self message context t = (Ok (Some best), t') ->
  exists before after,
    _agents self = before ++ best :: after
    /\ Forall (fun a => (effective_score message context a
                         < effective_score message context best)%Q) before
    /\ Forall (fun a => (effective_score message context a
                         <= effective_score message context best)%Q) after.
Proof.
  unfold select_best_agent.
  destruct (_agents self) as [|a0 agents] eqn:Hagents; [discriminate|].
  cbv beta iota. rewrite <- Hagents. unfold bind at 1. rewrite poll_scores.
  cbv beta iota. rewrite app_nil_l.
  set (score := effective_score message context).
  destruct (sort_desc snd (map (fun a => (a, score a)) (_agents self)))
    as [|[b s] rest] eqn:Hsort; [discriminate|].
  destruct (Qlt_bool float_0_3 s); [|discriminate].
  intros H. injection H as -> _.
  apply sort_desc_first_maximum in Hsort
    as (before & after & Hsplit & Hb & Ha).
  assert (s = score best) as ->.
  { assert (In (best, s) (map (fun a => (a, score a)) (_agents self))) as Hin
      by (rewrite Hsplit; apply in_elt).
    apply in_map_iff in Hin as (x & Hx & _). injection Hx as -> <-.
    reflexivity. }
  exists (map fst before), (map fst after).
  assert (forall l : list (BaseAgent * Q),
            (exists l0, l = map (fun a => (a, score a)) l0) ->
            Forall (fun p => snd p = score (fst p)) l) as Hshape.
  { intros l (l0 & ->). apply List.Forall_forall. intros p Hp.
    apply in_map_iff in Hp as (x & <- & _). reflexivity. }
  assert (Forall (fun p => snd p = score (fst p)) (before ++ (best, score best) :: after))
    as Hall by (apply Hshape; eexists; symmetry; exact Hsplit).
  apply Forall_app in Hall as [Hsb Hsa]. apply Forall_cons in Hsa as [_ Hsa].
  split.
  - apply (f_equal (map fst)) in Hsplit.
    rewrite map_map, map_app in Hsplit. simpl in Hsplit.
    rewrite map_id in Hsplit. exact Hsplit.
  - split.
    + apply Forall_fmap.
      eapply Forall_impl; [apply Forall_and; split; [exact Hb|exact Hsb]|].
      intros [a q] [Hlt Heq]. simpl in *. subst q. exact Hlt.
    + apply Forall_fmap.
      eapply Forall_impl; [apply Forall_and; split; [exact Ha|exact Hsa]|].
      intros [a q] [Hle Heq]. simpl in *. subst q. exact Hle.
Qed.

(** Two agents of equal confidence: the first registered is selected. *)
Definition first_of_two : BaseAgent := mock_agent "first" (4 # 5) (u "one").
Definition second_of_two : BaseAgent := mock_agent "second" (4 # 5) (u "two").

Lemma select_best_agent_first_among_equals_witness :
  exists before after,
    [first_of_two; second_of_two] = before ++ first_of_two :: after
    /\ Forall (fun a => (effective_score (u "hello") ∅ a
                         < effective_score (u "hello") ∅ first_of_two)%Q) before
    /\ Forall (fun a => (effective_score (u "hello") ∅ a
                         <= effective_score (u "hello") ∅ first_of_two)%Q) after.
Proof.
  apply (select_best_agent_first_among_equals
           (DirectorExtras.registered [first_of_two; second_of_two])
           (u "hello") ∅ [] first_of_two []).
  reflexivity.
Defined.

Section ThreeAgents.

Variable w : World.
Variable note_taker_process qa_process research_process
  : str -> gmap string pyval -> Prog trace AgentResponse.

(** The three agents of [start_bot], with the [can_handle] of their
    classes. *)
Definition the_note_taker : BaseAgent :=
  Build_BaseAgent "note_taker" NoteTaker.can_handle note_taker_process.
Definition the_qa : BaseAgent :=
  Build_BaseAgent "qa" (QAAgent.can_handle w) qa_process.
Definition the_research : BaseAgent :=
  Build_BaseAgent "research" ResearchAgent.can_handle research_process.

Definition bot_director : MessageDirector :=
  DirectorExtras.registered [the_note_taker; the_qa; the_research].

(** X7.  With the three agents of the bot the selection by confidence
    is: the research agent when research mode is awaited; otherwise the
    Q&A agent when the message holds a question mark or begins with a
    question word and a space; otherwise the note taker, unless the
    message is a command, for which no agent is selected. *)
Theorem select_best_agent_of_bot (message : str)
    (context : gmap string pyval) (t : trace) :
  select_best_agent bot_director message context t
  = (Ok (if awaiting_research context then Some the_research
         else if Base._is_question w message then Some the_qa
         else if startswith (strip message) (u "/") then None
         else Some the_note_taker), t).
Proof.
  unfold select_best_agent, bot_director, DirectorExtras.registered.
  cbn [foldl register_agent _agents init app].
  unfold bind at 1. rewrite poll_scores.
  unfold effective_score. cbn [map app can_handle the_note_taker the_qa
                               the_research].
  unfold NoteTaker.can_handle, QAAgent.can_handle, ResearchAgent.can_handle.
  unfold awaiting_research.
  destruct (truthy (default (VBool false)
                      (context !! "awaiting_research"%string)));
    destruct (Base._is_question w message);
    destruct (startswith (strip message) (u "/")); reflexivity.
Qed.

End ThreeAgents.

End SelectionExtras.

(** ** Keywords and folders *)

Module TextExtras.

Import QAAgent.

(** A word: not empty, and without white space. *)
Definition is_word (s : list N) : Prop :=
  s <> [] /\ Forall (fun c => isspace c = false) s.

Lemma split_from_words (cur s : list N) :
  Forall (fun c => isspace c = false) cur ->
  Forall is_word (split_from cur s).
Proof.
  revert cur. induction s as [|c s IH]; intros cur Hcur; simpl.
  - destruct cur as [|c0 cur]; [constructor|].
    constructor; [|constructor]. split.
    + intros H. apply (f_equal (@length N)) in H.
      rewrite length_rev in H. discriminate.
    + apply Forall_rev. exact Hcur.
  - destruct (isspace c) eqn:Hc.
    + destruct cur as [|c0 cur]; [apply IH; constructor|].
      constructor; [|apply IH; constructor]. split.
      * intros H. apply (f_equal (@length N)) in H.
        rewrite length_rev in H. discriminate.
      * apply Forall_rev. exact Hcur.
    + apply IH. constructor; assumption.
Qed.

Lemma split_words (s : list N) : Forall is_word (split s).
Proof. apply split_from_words. constructor. Qed.

Lemma List_filter_sublist {A} (f : A -> bool) (l : list A) :
  List.filter f l `sublist_of` l.
Proof.
  induction l as [|x l IH]; simpl; [constructor|].
  destruct (f x); [apply sublist_skip|apply sublist_cons]; exact IH.
Qed.

(** X8.  [_extract_keywords] returns at most 10 keywords, in the order
    in which they occur among the words of the lowered text; each keyword
    is a word without white space, longer than 3 characters, and no stop
    word. *)
Theorem extract_keywords_bounds (w : World) (text : list N) :
  let keywords := Base._extract_keywords w text in
  (length keywords <= 10)%nat
  /\ keywords `sublist_of` split (lower w text)
  /\ Forall (fun k => is_word k
                      /\ (3 < length k)%nat
                      /\ str_in k Base.stop_words = false) keywords.
Proof.
  unfold Base._extract_keywords, slice_to. cbn zeta.
  change (0 <=? 10) with true. cbv iota.
  split; [rewrite length_take; lia|].
  assert (take (Z.to_nat 10)
            (List.filter
               (fun wd => (3 <? length wd)%nat
                          && negb (str_in wd Base.stop_words))
               (split (lower w text)))
          `sublist_of` split (lower w text)) as Hsub.
  { etransitivity; [apply sublist_take|apply List_filter_sublist]. }
  split; [exact Hsub|].
  apply Forall_forall. intros k Hk.
  split.
  - pose proof (split_words (lower w text)) as Hw.
    rewrite Forall_forall in Hw. apply Hw.
    eapply elem_of_sublist; [exact Hk|exact Hsub].
  - apply elem_of_take in Hk as (i & Hi & _).
    apply list_elem_of_lookup_2, list_elem_of_In, filter_In in Hi
      as [_ Hf].
    apply andb_true_iff in Hf as [Hlen Hstop].
    apply Nat.ltb_lt in Hlen. apply negb_true_iff in Hstop.
    split; assumption.
Qed.

(** The part of [s] after the first [sep], and what stands before it. *)
Lemma after_first_split (sep : N) (s : list N) :
  contains_char sep s = true ->
  exists before,
    s = before ++ sep :: after_first sep s
    /\ contains_char sep before = false.
Proof.
  unfold contains_char. induction s as [|c s IH]; simpl; [discriminate|].
  destruct (N.eqb_spec c sep) as [->|Hne].
  - intros _. exists []. split; reflexivity.
  - simpl. intros Hs. destruct (IH Hs) as (before & Heq & Hfree).
    exists (c :: before). split.
    + simpl. rewrite <- Heq. reflexivity.
    + simpl. destruct (N.eqb_spec c sep); [contradiction|exact Hfree].
Qed.

Lemma contains_char_rev (sep : N) (s : list N) :
  contains_char sep (rev s) = contains_char sep s.
Proof.
  unfold contains_char. induction s as [|c s IH]; simpl; [reflexivity|].
  rewrite existsb_app, IH. simpl. rewrite orb_false_r. apply orb_comm.
Qed.

(** X9.  The category of a full-text candidate is the folder of the
    document's path: when the path holds a slash, the path is the
    category, a slash, and a file name without slash; when it holds none
    (or there is no path) the category is "Inbox". *)
Theorem fulltext_category_is_folder (doc : Doc) :
  let p := default [] (doc_path doc) in
  if contains_char 47 p
  then exists folder name,
         category (of_doc doc) = Some folder
         /\ p = folder ++ [47%N] ++ name
         /\ contains_char 47 name = false
  else category (of_doc doc) = Some (u "Inbox").
Proof.
  cbn zeta. unfold of_doc. cbn [category].
  destruct (contains_char 47 (default [] (doc_path doc))) eqn:Hc;
    [|reflexivity].
  unfold rsplit1_head. rewrite Hc.
  rewrite <- contains_char_rev in Hc.
  destruct (after_first_split 47 _ Hc) as (before & Heq & Hfree).
  exists (rev (after_first 47 (rev (default [] (doc_path doc))))),
         (rev before).
  split; [reflexivity|]. split.
  - apply (f_equal (@rev N)) in Heq. rewrite rev_involutive in Heq.
    rewrite Heq at 1. rewrite rev_app_distr. simpl.
    rewrite <- app_assoc. reflexivity.
  - rewrite contains_char_rev. exact Hfree.
Qed.

End TextExtras.

(** ** The pipeline, further *)

Module PipelineExtras.

Import QAAgent Stage2Spec Stage3Spec Fixtures PipelineFixtures.

Definition is_vector_search (ev : event) : Prop :=
  match ev with
  | EvSearchSimilar _ _ _ _ => True
  | _ => False
  end.

Lemma filter_not_in_empty (ids : gset (list N)) (docs : list Doc) :
  (forall x, x ∉ ids) ->
  filter (fun doc => doc_note_id doc ∉ ids) docs = docs.
Proof.
  intros Hempty. induction docs as [|d docs IH]; [reflexivity|].
  rewrite filter_cons_True; [rewrite IH; reflexivity|].
  apply Hempty.
Qed.

(** X10.  Stage 2 never raises and makes at most three calls.  The
    full-text search is made whatever becomes of the vector search; when
    the embedding fails the vector index is not queried, and the
    candidates are the full-text hits in their order, cut at the limit;
    and every full-text candidate carries the flat score 0.7. *)
Theorem stage2_degrades_to_fulltext (w : World) (query : list N)
    (filters : gmap string pyval) (limit : Z) (t : trace) :
  exists cands added,
    _stage2_hybrid_search w query filters limit t = (Ok cands, t ++ added)
    /\ (length added <= 3)%nat
    /\ In (EvSearchDocuments query 30) added
    /\ (forall msg, llm_embed_text w query = Fails msg ->
          Forall (fun ev => ~ is_vector_search ev) added
          /\ cands = slice_to limit (map of_doc (text_hits w query)))
    /\ Forall (fun c => search_source c = fulltext ->
                        search_score c = 7 # 10) cands.
Proof.
  assert (Forall (fun c => search_source c = fulltext ->
                           search_score c = 7 # 10)
                 (slice_to limit (merged w query filters))) as Hscore.
  { apply Forall_forall. intros c Hc.
    eapply elem_of_sublist in Hc; [|apply slice_to_sublist].
    unfold merged in Hc. apply elem_of_app in Hc as [Hc|Hc];
      apply list_elem_of_In, in_map_iff in Hc as (x & <- & _);
      simpl; [discriminate|reflexivity]. }
  revert Hscore.
  unfold _stage2_hybrid_search, merged, vector_hits, text_hits.
  unfold bind, try_except, call, ret.
  destruct (llm_embed_text w query) as [e|m1]; simpl.
  - destruct (vs_search_similar w e 30 filters float_0_3) as [vr|m2]; simpl;
      destruct (db_search_documents w query 30) as [tr|m3]; simpl;
      intros Hscore; eexists; exists
        [EvEmbed query; EvSearchSimilar e 30 filters float_0_3;
         EvSearchDocuments query 30];
      rewrite <- ?app_assoc; simpl;
      (split; [rewrite ?app_nil_r; reflexivity|]);
      (split; [lia|]); (split; [tauto|]);
      (split; [intros; discriminate|]);
      rewrite ?app_nil_r in Hscore; exact Hscore.
  - destruct (db_search_documents w query 30) as [tr|m3]; simpl;
      intros Hscore; eexists; exists
        [EvEmbed query; EvSearchDocuments query 30];
      rewrite <- ?app_assoc; simpl;
      (split; [reflexivity|]);
      (split; [lia|]); (split; [tauto|]);
      (split; [|exact Hscore]);
      intros msg _;
      (split; [repeat (apply List.Forall_cons; [simpl; tauto|]);
               apply List.Forall_nil|]);
      try (rewrite filter_not_in_empty by apply not_elem_of_empty);
      reflexivity.
Qed.

Definition index_error : exn := Exception (u "list index out of range").

Section Shapes.

Variable self : AgentSelf.
Variable w : World.
Variable query : list N.
Variable candidates : list Candidate.

(** Picking by indices: all of them, or IndexError at the first that is
    out of range. *)
Lemma pick_loop (indices : list Z) (acc : list Candidate) (t : trace) :
  fold_each indices acc
    (fun picked i =>
       match index candidates i with
       | Some cand => ret (picked ++ [cand])
       | None => raise (Exception (u "list index out of range"))
       end) t
  = match mapM (index candidates) indices with
    | Some picks => (Ok (acc ++ picks), t)
    | None => (Raised index_error, t)
    end.
Proof.
  revert acc. induction indices as [|i indices IH]; intros acc; simpl.
  - rewrite app_nil_r. reflexivity.
  - unfold bind at 1.
    destruct (index candidates i) as [cand|]; simpl; [|reflexivity].
    rewrite IH.
    destruct (mapM (index candidates) indices) as [picks|]; simpl;
      [rewrite <- app_assoc|]; reflexivity.
Qed.

Lemma pick_run (indices : list Z) (t : trace) :
  pick candidates indices t
  = match mapM (index candidates) indices with
    | Some picks => (Ok picks, t)
    | None => (Raised index_error, t)
    end.
Proof. unfold pick. rewrite pick_loop. reflexivity. Qed.

Lemma rerank_indices_returns (docs : list (list N)) (top_k : Z) (t : trace) :
  exists indices t',
    rerank_indices self w query candidates docs top_k t = (Ok indices, t').
Proof.
  unfold rerank_indices.
  destruct (cohere_client self && match docs with [] => false | _ => true end).
  - unfold try_except, call.
    destruct (cohere_rerank w query docs (Z.min top_k (len docs)));
      simpl; eexists; eexists; reflexivity.
  - eexists. eexists. reflexivity.
Qed.

Lemma slice_to_length_le {A} (k : Z) (l : list A) :
  0 <= k -> (length (slice_to k l) <= Z.to_nat k)%nat.
Proof.
  intros Hk. unfold slice_to. destruct (Z.leb_spec 0 k); [|lia].
  rewrite length_take. lia.
Qed.

(** The loading loop of the question path keeps the order and loads no
    more than it is given. *)
Lemma load_context_docs_length (cands : list Candidate)
    (acc : list LoadedDoc) (t : trace) :
  exists docs t',
    fold_each cands acc
      (fun context_docs cand =>
         try_except
           (let* doc := call (EvGetDocument (note_id cand))
                             (db_get_document w (note_id cand)) in
            ret (context_docs ++
                 [ {| path := note_id cand;
                      content := slice_to 2000 (default [] (doc_data doc));
                      ld_category := category cand;
                      ld_tags := None |} ]))
           (fun _ => ret context_docs)) t
    = (Ok docs, t')
    /\ (length docs <= length acc + length cands)%nat.
Proof.
  revert acc t. induction cands as [|cand cands IH]; intros acc t; simpl.
  - exists acc, t. split; [reflexivity|lia].
  - unfold bind at 1. unfold try_except, bind, call, ret.
    destruct (db_get_document w (note_id cand)) as [doc|msg]; simpl.
    + match goal with
      | |- exists docs t', fold_each cands ?a _ ?t0 = _ /\ _ =>
          destruct (IH a t0) as (docs & t' & Hrun & Hlen)
      end.
      exists docs, t'. split; [exact Hrun|].
      rewrite length_app in Hlen. simpl in Hlen. lia.
    + destruct (IH acc (t ++ [EvGetDocument (note_id cand)]))
        as (docs & t' & Hrun & Hlen).
      exists docs, t'. split; [exact Hrun|]. lia.
Qed.

(** The responses of the question path once there are candidates. *)
Definition answered (n k : Z) (r : AgentResponse) : Prop :=
  success r = true
  /\ suggested_actions r = None
  /\ ((text r = qa_not_loaded_text
       /\ metadata r = Some (found_count_metadata n))
      \/ exists sources,
           (length sources <= Z.to_nat k)%nat
           /\ metadata r
              = Some (<["found_count"%string := VInt n]>
                      (<["reranked_count"%string := VInt k]>
                       {[ "sources"%string := VStrList sources ]}))).

Lemma analyze_shape (top_candidates : list Candidate) (t : trace) :
  exists r t',
    analyze w query candidates top_candidates t = (Ok r, t')
    /\ answered (len candidates) (len top_candidates) r.
Proof.
  unfold analyze, load_context_docs. unfold bind at 1.
  destruct (load_context_docs_length top_candidates [] t)
    as (docs & t1 & -> & Hlen).
  destruct docs as [|d docs].
  - eexists. eexists. split; [reflexivity|].
    split; [reflexivity|]. split; [reflexivity|]. left. split; reflexivity.
  - unfold bind.
    destruct (generate_answer_returns w query (d :: docs) t1)
      as (answer & t2 & ->).
    eexists. eexists. split; [reflexivity|].
    split; [reflexivity|]. split; [reflexivity|]. right.
    exists (map path (d :: docs)). split; [|reflexivity].
    rewrite length_map. unfold len. simpl in *. lia.
Qed.

End Shapes.

Definition qa_not_found : AgentResponse :=
  {| text := qa_not_found_text; success := true;
     metadata := Some (found_count_metadata 0); suggested_actions := None |}.

Definition qa_index_error : AgentResponse :=
  {| text := qa_error_text ++ u "list index out of range"; success := false;
     metadata := None; suggested_actions := None |}.

(** X11.  The question agent always answers: [process] never raises.
    Its response is the "nothing found" response, or a successful
    response that reports between 1 and 50 found candidates, at most 10
    reranked ones and no more sources than reranked candidates, or -
    only with a reranking client, when the reranker names an index out of
    range - the failure response "Ошибка при поиске ответа: list index out
    of range". *)
Theorem qa_process_always_responds (self : AgentSelf) (w : World)
    (message : list N) (context : gmap string pyval) (t : trace) :
  exists r t',
    QAAgent.process self w message context t = (Ok r, t')
    /\ (r = qa_not_found
        \/ (exists n k, 1 <= n <= 50 /\ 0 <= k <= 10 /\ answered n k r)
        \/ (r = qa_index_error /\ cohere_client self = true)).
Proof.
  unfold QAAgent.process, _stage1_metadata_filter.
  unfold try_except. unfold bind at 1. unfold ret at 1. unfold bind at 1.
  destruct (stage2_returns w message ∅ 50 t) as (added & -> & _).
  pose proof (slice_to_length 50 (merged w message ∅) ltac:(lia)) as Hn.
  destruct (slice_to 50 (merged w message ∅)) as [|c cands] eqn:Hc.
  - eexists. eexists. split; [reflexivity|]. left. reflexivity.
  - set (candidates := c :: cands) in *.
    assert (1 <= len candidates) as Hpos by (unfold len; simpl; lia).
    unfold _stage3_rerank_and_analyze. unfold bind at 1.
    destruct (docs_for_rerank_returns w candidates (t ++ added))
      as (t0 & ->).
    unfold bind at 1.
    assert (exists indices t1,
              rerank_indices self w message candidates
                (rerank_texts w candidates) 10 t0 = (Ok indices, t1)
              /\ (cohere_client self = false ->
                  indices = range (Z.min 10 (len candidates))))
      as (indices & t1 & Hidx & Hdown).
    { generalize (rerank_texts w candidates). intros docs.
      unfold rerank_indices.
      destruct (cohere_client self
                && match docs with [] => false | _ => true end) eqn:E.
      - apply andb_prop in E. destruct E as [Hclient _].
        unfold try_except, call.
        destruct (cohere_rerank w message docs (Z.min 10 (len docs)));
          simpl; eexists; eexists;
          (split; [reflexivity|rewrite Hclient; discriminate]).
      - eexists. eexists. split; reflexivity. }
    rewrite Hidx. unfold bind at 1. rewrite pick_run.
    destruct (mapM (index candidates) (slice_to 10 indices)) as [picks|]
      eqn:Hpick.
    + destruct (analyze_shape w message candidates picks t1)
        as (r & t2 & -> & Hshape).
      exists r, t2. split; [reflexivity|]. right. left.
      exists (len candidates), (len picks).
      split; [lia|]. split; [|exact Hshape].
      apply length_mapM in Hpick.
      pose proof (slice_to_length_le 10 indices ltac:(lia)).
      unfold len. lia.
    + exists qa_index_error. eexists. split; [reflexivity|].
      right. right. split; [reflexivity|].
      destruct (cohere_client self) eqn:Hclient; [reflexivity|].
      exfalso. rewrite (Hdown eq_refl), slice_to_range_min in Hpick.
      pose proof (pick_run candidates (range (Z.min 10 (len candidates))) t1)
        as Hrun.
      rewrite pick_range in Hrun by lia. rewrite Hpick in Hrun.
      discriminate.
Qed.

Section Research.

Import ResearchAgent.

Variable self : AgentSelf.
Variable w : World.

(** The loading loop of the research path swallows every failure, also an
    index out of range, and loads no more than there are indices. *)
Lemma research_load_length (candidates : list Candidate)
    (indices : list Z) (acc : list LoadedDoc) (t : trace) :
  exists docs t',
    fold_each indices acc
      (fun docs idx =>
         try_except
           (let* cand :=
              match index candidates idx with
              | Some cand => ret cand
              | None => raise (Exception (u "list index out of range"))
              end in
            let* doc := call (EvGetDocument (note_id cand))
                             (db_get_document w (note_id cand)) in
            ret (docs ++
                 [ {| path := note_id cand;
                      content := default [] (doc_data doc);
                      ld_category := category cand;
                      ld_tags := Some (default [] (tags cand)) |} ]))
           (fun _ => ret docs)) t
    = (Ok docs, t')
    /\ (length docs <= length acc + length indices)%nat.
Proof.
  revert acc t. induction indices as [|i indices IH]; intros acc t; simpl.
  - exists acc, t. split; [reflexivity|lia].
  - unfold bind at 1. unfold try_except, bind, call, ret, raise.
    destruct (index candidates i) as [cand|]; simpl.
    + destruct (db_get_document w (note_id cand)) as [doc|msg]; simpl.
      * match goal with
        | |- exists docs t', fold_each indices ?a _ ?t0 = _ /\ _ =>
            destruct (IH a t0) as (docs & t' & Hrun & Hlen)
        end.
        exists docs, t'. split; [exact Hrun|].
        rewrite length_app in Hlen. simpl in Hlen. lia.
      * destruct (IH acc (t ++ [EvGetDocument (note_id cand)]))
          as (docs & t' & Hrun & Hlen).
        exists docs, t'. split; [exact Hrun|]. lia.
    + destruct (IH acc t) as (docs & t' & Hrun & Hlen).
      exists docs, t'. split; [exact Hrun|]. lia.
Qed.

Lemma rerank_and_load_returns (query : list N)
    (candidates : list Candidate) (top_k : Z) (t : trace) :
  0 <= top_k ->
  exists docs t',
    _rerank_and_load self w query candidates top_k t = (Ok docs, t')
    /\ len docs <= top_k.
Proof.
  intros Hk. unfold _rerank_and_load. cbv zeta. unfold bind at 1.
  assert (exists indices t1,
            (if cohere_client self
                && match map summary candidates with
                   | [] => false
                   | _ => true
                   end
             then
               try_except
                 (call (EvRerank query (map summary candidates)
                          (Z.min top_k (len (map summary candidates))))
                       (cohere_rerank w query (map summary candidates)
                          (Z.min top_k (len (map summary candidates)))))
                 (fun _ => ret (range (Z.min top_k (len candidates))))
             else ret (range (len candidates))) t = (Ok indices, t1))
    as (indices & t1 & ->).
  { destruct (cohere_client self && _).
    - unfold try_except, call.
      destruct (cohere_rerank w query _ _); simpl;
        eexists; eexists; reflexivity.
    - eexists. eexists. reflexivity. }
  destruct (research_load_length candidates (slice_to top_k indices) [] t1)
    as (docs & t2 & -> & Hlen).
  exists docs, t2. split; [reflexivity|].
  pose proof (slice_to_length_le top_k indices Hk).
  unfold len. simpl in Hlen. lia.
Qed.

(** What a pass keeps of its completion call. *)
Definition kept (messages : list (str * str)) (temperature : Q)
    (placeholder : list N) : list N :=
  match llm_complete w messages temperature (Some 1500) with
  | Returns response => strip response
  | Fails _ => placeholder
  end.

Lemma pass_run (messages : list (str * str)) (temperature : Q)
    (placeholder : list N) (t : trace) :
  try_except
    (let* response :=
       call (EvComplete messages temperature (Some 1500))
            (llm_complete w messages temperature (Some 1500)) in
     ret (strip response))
    (fun _ => ret placeholder) t
  = (Ok (kept messages temperature placeholder),
     t ++ [EvComplete messages temperature (Some 1500)]).
Proof.
  unfold try_except, bind, call, ret, kept.
  destruct (llm_complete w messages temperature (Some 1500)); reflexivity.
Qed.

End Research.


Lemma multi_pass_run (w : World) (topic : list N)
    (documents : list LoadedDoc) (t : trace) :
  exists r t',
    ResearchAgent._multi_pass_analysis w topic documents t = (Ok r, t')
    /\ success r = true
    /\ metadata r
       = Some (<["documents_analyzed"%string := VInt (len documents)]>
               {[ "sources"%string :=
                    VStrList (map path (slice_to 10 documents)) ]}).
Proof.
  unfold ResearchAgent._multi_pass_analysis.
  unfold ResearchAgent._pass1_overview, ResearchAgent._pass2_connections,
    ResearchAgent._pass3_synthesis.
  cbv zeta.
  unfold bind at 1. rewrite pass_run.
  unfold bind at 1. rewrite pass_run.
  unfold bind at 1. rewrite pass_run.
  eexists. eexists. split; [reflexivity|]. split; reflexivity.
Qed.

(** X12.  The three passes of a research are always made, in their
    order, each by one completion call of at most 1500 tokens, at
    temperatures 0.4, 0.4 and 0.5, and nothing else is called.  Each
    call carries the system sentence of its pass and a prompt on the
    topic; the prompts of the first two passes hold at most 8000
    characters of the documents.  A pass whose call fails does not stop
    the research: its text is replaced by the pass's fixed apology, which
    the synthesis then receives in its prompt, and the report is returned
    with [success] true. *)
Theorem multi_pass_three_calls (w : World) (topic : list N)
    (documents : list LoadedDoc) (t : trace) :
  exists m1 m2 m3 r,
    let overview := kept w m1 (2 # 5) ResearchAgent.pass1_failed_text in
    let connections := kept w m2 (2 # 5) ResearchAgent.pass2_failed_text in
    let synthesis := kept w m3 (1 # 2) ResearchAgent.pass3_failed_text in
    ResearchAgent._multi_pass_analysis w topic documents t
    = (Ok r, t ++ [EvComplete m1 (2 # 5) (Some 1500);
                   EvComplete m2 (2 # 5) (Some 1500);
                   EvComplete m3 (1 # 2) (Some 1500)])
    /\ success r = true
    /\ text r = ResearchAgent._format_research_report
                  topic overview connections synthesis
                  (slice_to 10 documents)
    /\ (exists context1,
          len context1 <= 8000
          /\ m1 = chat ResearchAgent.pass1_system_prompt
                    (ResearchAgent.pass1_prompt_head ++ topic
                     ++ ResearchAgent.pass1_prompt_body ++ context1
                     ++ ResearchAgent.pass1_prompt_tail))
    /\ (exists context2,
          len context2 <= 8000
          /\ m2 = chat ResearchAgent.pass2_system_prompt
                    (ResearchAgent.pass2_prompt_head ++ topic
                     ++ ResearchAgent.pass2_prompt_body ++ context2
                     ++ ResearchAgent.pass2_prompt_tail))
    /\ m3 = chat ResearchAgent.pass3_system_prompt
              (ResearchAgent.pass3_prompt_head ++ topic
               ++ ResearchAgent.pass3_prompt_overview ++ overview
               ++ ResearchAgent.pass3_prompt_connections ++ connections
               ++ ResearchAgent.pass3_prompt_tail).
Proof.
  unfold ResearchAgent._multi_pass_analysis.
  unfold ResearchAgent._pass1_overview, ResearchAgent._pass2_connections,
    ResearchAgent._pass3_synthesis.
  cbv zeta.
  eexists. eexists. eexists. eexists.
  unfold bind at 1. rewrite pass_run.
  unfold bind at 1. rewrite pass_run.
  unfold bind at 1. rewrite pass_run.
  unfold ret. rewrite <- !app_assoc. cbn [app].
  split; [reflexivity|].
  split; [reflexivity|]. split; [reflexivity|].
  split.
  { eexists. split; [|reflexivity]. apply slice_to_length. lia. }
  split.
  { eexists. split; [|reflexivity]. apply slice_to_length. lia. }
  reflexivity.
Qed.

(** The system sentences of the three passes, as the source has them. *)
Example pass_system_prompts :
  ResearchAgent.pass1_system_prompt
  = u "You are a research analyst. Provide clear, structured analysis."
  /\ ResearchAgent.pass2_system_prompt
     = u "You are a research analyst focusing on connections and patterns."
  /\ ResearchAgent.pass3_system_prompt
     = u "You are a research analyst synthesizing findings.".
Proof. repeat split. Qed.

(** X13.  The research agent always answers, and never with a failure.
    [process] runs Stage 2 with the limit 100 and empty filters.  With no
    candidate it returns the "not enough material" response.  Otherwise
    it hands the candidates of Stage 2 to [_rerank_and_load], which
    returns at most 30 documents: with none the response is "could not
    process", with the number of candidates as count; else the response
    is that of the multi-pass analysis of the very documents that were
    loaded, its 'documents_analyzed' is their number and its 'sources'
    are the paths of the first 10 of them.  An index out of range from
    the reranker, which fails the question agent, only drops that
    document here. *)
Theorem research_process_always_succeeds (self : AgentSelf) (w : World)
    (message : list N) (context : gmap string pyval) (t : trace) :
  exists candidates t1 r t',
    _stage2_hybrid_search w message ∅ 100 t = (Ok candidates, t1)
    /\ ResearchAgent.process self w message context t = (Ok r, t')
    /\ success r = true
    /\ len candidates <= 100
    /\ match candidates with
       | [] =>
           text r = ResearchAgent.research_not_found_text
           /\ metadata r = Some (found_count_metadata 0)
           /\ t' = t1
       | _ :: _ =>
           exists docs t2,
             ResearchAgent._rerank_and_load self w message candidates 30 t1
             = (Ok docs, t2)
             /\ len docs <= 30
             /\ match docs with
                | [] =>
                    text r = ResearchAgent.research_not_loaded_text
                    /\ metadata r
                       = Some (found_count_metadata (len candidates))
                    /\ 1 <= len candidates
                    /\ t' = t2
                | _ :: _ =>
                    ResearchAgent._multi_pass_analysis w message docs t2
                    = (Ok r, t')
                    /\ 1 <= len docs
                    /\ metadata r
                       = Some (<["documents_analyzed"%string :=
                                   VInt (len docs)]>
                               {[ "sources"%string :=
                                    VStrList
                                      (map path (slice_to 10 docs)) ]})
                end
       end.
Proof.
  unfold ResearchAgent.process, _stage1_metadata_filter.
  unfold try_except. unfold bind at 1. unfold ret at 1. unfold bind at 1.
  destruct (stage2_returns w message ∅ 100 t) as (added & Hstage2 & _).
  rewrite Hstage2.
  pose proof (slice_to_length 100 (merged w message ∅) ltac:(lia)) as Hn.
  exists (slice_to 100 (merged w message ∅)), (t ++ added).
  destruct (slice_to 100 (merged w message ∅)) as [|c cands] eqn:Hc.
  - eexists. eexists. split; [reflexivity|]. split; [reflexivity|].
    split; [reflexivity|]. split; [exact Hn|].
    split; [reflexivity|]. split; reflexivity.
  - set (candidates := c :: cands) in *.
    assert (1 <= len candidates) as Hpos by (unfold len; simpl; lia).
    unfold bind at 1.
    destruct (rerank_and_load_returns self w message candidates 30
                (t ++ added) ltac:(lia)) as (docs & t1 & Hload & Hlen).
    rewrite Hload.
    destruct docs as [|d docs].
    + eexists. eexists. split; [reflexivity|]. split; [reflexivity|].
      split; [reflexivity|]. split; [exact Hn|].
      exists [], t1. split; [reflexivity|]. split; [exact Hlen|].
      split; [reflexivity|]. split; [reflexivity|].
      split; [exact Hpos|reflexivity].
    + destruct (multi_pass_run w message (d :: docs) t1)
        as (r & t2 & Hpass & Hs & Hm).
      rewrite Hpass.
      exists r, t2. split; [reflexivity|]. split; [reflexivity|].
      split; [exact Hs|]. split; [exact Hn|].
      exists (d :: docs), t1. split; [reflexivity|]. split; [exact Hlen|].
      split; [exact Hpass|]. split; [|exact Hm].
      unfold len. simpl. lia.
Qed.

Section Reranked.

Variable self : AgentSelf.
Variable w : World.
Variable query : list N.
Variable candidates : list Candidate.

(** The loading loop of the research path over any indices: the
    candidates at the indices that are in range, in the order of the
    indices. *)
Lemma research_load_indices (indices : list Z) (acc : list LoadedDoc)
    (t : trace) :
  exists t',
    fold_each indices acc
      (fun docs idx =>
         try_except
           (let* cand :=
              match index candidates idx with
              | Some cand => ret cand
              | None => raise (Exception (u "list index out of range"))
              end in
            let* doc := call (EvGetDocument (note_id cand))
                             (db_get_document w (note_id cand)) in
            ret (docs ++
                 [ {| path := note_id cand;
                      content := default [] (doc_data doc);
                      ld_category := category cand;
                      ld_tags := Some (default [] (tags cand)) |} ]))
           (fun _ => ret docs)) t
    = (Ok (acc ++ research_docs_of w (omap (index candidates) indices)), t').
Proof.
  revert acc t. induction indices as [|i indices IH]; intros acc t; simpl.
  - exists t. rewrite app_nil_r. reflexivity.
  - unfold bind at 1. unfold try_except, bind, call, ret, raise.
    destruct (index candidates i) as [cand|]; simpl.
    + unfold research_docs_of. simpl. fold (research_docs_of w).
      destruct (db_get_document w (note_id cand)) as [doc|msg]; simpl.
      * match goal with
        | |- exists t', fold_each indices ?a _ ?t0 = _ =>
            destruct (IH a t0) as (t' & Ht')
        end.
        exists t'. rewrite <- app_assoc in Ht'. exact Ht'.
      * apply IH.
    + apply IH.
Qed.

End Reranked.

(** X14.  With a reranking client whose call succeeds, Stage 3 of the
    question path asks for the smaller of [top_k] and the number of
    candidates, keeps the first [top_k] indices of the answer and goes on
    with the candidates at these indices, in the reranker's order; an
    index that is out of range (by Python's indexing, so -1 is the last
    candidate) raises IndexError before any document is loaded. *)
Theorem stage3_follows_reranker (self : AgentSelf) (w : World)
    (query : list N) (candidates : list Candidate) (top_k : Z)
    (indices : list Z) (t : trace) :
  cohere_client self = true ->
  candidates <> [] ->
  cohere_rerank w query (rerank_texts w candidates)
    (Z.min top_k (len candidates)) = Returns indices ->
  exists t0,
    let t1 := t0 ++ [EvRerank query (rerank_texts w candidates)
                              (Z.min top_k (len candidates))] in
    _stage3_rerank_and_analyze self w query candidates top_k t
    = match mapM (index candidates) (slice_to top_k indices) with
      | Some picks => analyze w query candidates picks t1
      | None => (Raised index_error, t1)
      end.
Proof.
  intros Hclient Hne Hrerank.
  unfold _stage3_rerank_and_analyze. unfold bind at 1.
  destruct (docs_for_rerank_returns w candidates t) as (t0 & ->).
  exists t0. cbv zeta. unfold bind at 1.
  assert (len (rerank_texts w candidates) = len candidates) as Hlen.
  { unfold rerank_texts, len. rewrite length_map. reflexivity. }
  unfold rerank_indices. rewrite Hclient.
  destruct (rerank_texts w candidates) as [|d docs] eqn:Hdocs.
  { destruct candidates; [congruence|discriminate]. }
  cbn [andb]. unfold try_except, call. rewrite Hlen, Hrerank.
  unfold lift, ret. cbv beta iota. unfold bind at 1. rewrite pick_run.
  destruct (mapM (index candidates) (slice_to top_k indices));
    reflexivity.
Qed.

(** X15.  On the research path an index of the reranker that is out of
    range is skipped, not raised: [_rerank_and_load] returns the
    documents the store yields for the candidates at those of the first
    [top_k] indices that are in range, in the reranker's order. *)
Theorem rerank_and_load_skips_bad_indices (self : AgentSelf) (w : World)
    (query : list N) (candidates : list Candidate) (top_k : Z)
    (indices : list Z) (t : trace) :
  cohere_client self = true ->
  candidates <> [] ->
  cohere_rerank w query (map summary candidates)
    (Z.min top_k (len candidates)) = Returns indices ->
  exists t',
    ResearchAgent._rerank_and_load self w query candidates top_k t
    = (Ok (research_docs_of w
             (omap (index candidates) (slice_to top_k indices))), t').
Proof.
  intros Hclient Hne Hrerank.
  unfold ResearchAgent._rerank_and_load. cbv zeta. unfold bind at 1.
  assert (len (map summary candidates) = len candidates) as Hlen.
  { unfold len. rewrite length_map. reflexivity. }
  rewrite Hclient.
  destruct (map summary candidates) as [|d docs] eqn:Hdocs.
  { destruct candidates; [congruence|discriminate]. }
  cbn [andb]. unfold try_except, call. rewrite Hlen, Hrerank.
  unfold lift, ret at 1. cbv beta iota.
  apply (research_load_indices w candidates (slice_to top_k indices) [] _).
Qed.

(** A reranker that answers with the given indices over a store that
    holds every note. *)
Definition reranking_world (indices : list Z) : World :=
  {| lower := lower offline_world;
     llm_complete := llm_complete offline_world;
     llm_embed_text := llm_embed_text offline_world;
     vs_search_similar := vs_search_similar offline_world;
     vs_get_stats := vs_get_stats offline_world;
     vs_upsert_note := vs_upsert_note offline_world;
     db_search_documents := db_search_documents offline_world;
     db_get_document := fun id => Returns (stored id (u "text of " ++ id));
     db_get_all_documents := db_get_all_documents offline_world;
     cohere_rerank := fun _ _ _ => Returns indices;
     mg_extract_metadata := mg_extract_metadata offline_world;
     mg_enrich_frontmatter := mg_enrich_frontmatter offline_world;
     clock_now := clock_now offline_world |}.

Definition three_candidates : list Candidate :=
  [ of_vector (hit (u "notes/a") (9 # 10));
    of_vector (hit (u "notes/b") (4 # 5));
    of_doc (stored (u "notes/c") (u "deployment")) ].

Lemma stage3_follows_reranker_witness :
  exists t0,
    _stage3_rerank_and_analyze (QAAgent.init true)
      (reranking_world [2; 0]) (u "deployment") three_candidates 10 []
    = match mapM (index three_candidates) (slice_to 10 [2; 0]) with
      | Some picks =>
          analyze (reranking_world [2; 0]) (u "deployment")
            three_candidates picks
            (t0 ++ [EvRerank (u "deployment")
                      (rerank_texts (reranking_world [2; 0])
                                    three_candidates)
                      (Z.min 10 (len three_candidates))])
      | None =>
          (Raised index_error,
           t0 ++ [EvRerank (u "deployment")
                    (rerank_texts (reranking_world [2; 0]) three_candidates)
                    (Z.min 10 (len three_candidates))])
      end.
Proof.
  apply (stage3_follows_reranker (QAAgent.init true)
           (reranking_world [2; 0]) (u "deployment") three_candidates 10
           [2; 0] []).
  - reflexivity.
  - discriminate.
  - reflexivity.
Defined.

Lemma rerank_and_load_skips_bad_indices_witness :
  exists t',
    ResearchAgent._rerank_and_load (ResearchAgent.init true)
      (reranking_world [2; 7; 0]) (u "deployment") three_candidates 30 []
    = (Ok (research_docs_of (reranking_world [2; 7; 0])
             (omap (index three_candidates) (slice_to 30 [2; 7; 0]))), t').
Proof.
  apply (rerank_and_load_skips_bad_indices (ResearchAgent.init true)
           (reranking_world [2; 7; 0]) (u "deployment") three_candidates 30
           [2; 7; 0] []).
  - reflexivity.
  - discriminate.
  - reflexivity.
Defined.

(** The runs of the two paths on a reranker answer with a bad index. *)
Example bad_index_fails_question_path :
  exists t',
    _stage3_rerank_and_analyze (QAAgent.init true)
      (reranking_world [2; 7; 0]) (u "deployment") three_candidates 10 []
    = (Raised index_error, t').
Proof. eexists. vm_compute. reflexivity. Qed.

Example bad_index_skipped_on_research_path :
  match ResearchAgent._rerank_and_load (ResearchAgent.init true)
          (reranking_world [2; 7; 0]) (u "deployment") three_candidates 30 []
  with
  | (Ok docs, _) => map path docs = [u "notes/c"; u "notes/a"]
  | _ => False
  end.
Proof. vm_compute. reflexivity. Qed.

End PipelineExtras.

(** ** The indexer beyond the claims *)

Module IndexerExtras.

Import Indexer IndexerSpec.

Section Sorted.

Context {A : Type} (R : A -> A -> Prop).

Lemma In_take (n : nat) (l : list A) (x : A) : In x (take n l) -> In x l.
Proof.
  intros Hx. rewrite <- (take_drop n l). apply in_or_app. left. exact Hx.
Qed.

Lemma sorted_app_l (l1 l2 : list A) :
  StronglySorted R (l1 ++ l2) -> StronglySorted R l1.
Proof.
  induction l1 as [|x l1 IH]; simpl; intros Hs; [constructor|].
  inversion Hs as [|? ? Hl Hx]; subst.
  constructor; [apply IH, Hl|].
  apply Forall_app in Hx. apply Hx.
Qed.

Lemma sorted_app_between (l1 l2 : list A) (a b : A) :
  StronglySorted R (l1 ++ l2) -> In a l1 -> In b l2 -> R a b.
Proof.
  induction l1 as [|x l1 IH]; simpl; intros Hs Ha Hb; [contradiction|].
  inversion Hs as [|? ? Hl Hx]; subst.
  destruct Ha as [<-|Ha]; [|apply IH; assumption].
  apply Forall_app in Hx. destruct Hx as [_ Hx].
  rewrite List.Forall_forall in Hx. apply Hx, Hb.
Qed.

End Sorted.

Section SortAsc.

Context {A : Type} (key : A -> Z).

Definition ascending (l : list A) : Prop :=
  StronglySorted (fun a b => key a <= key b) l.

Lemma insert_asc_Permutation (x : A) (l : list A) :
  insert_asc key x l ≡ₚ x :: l.
Proof.
  induction l as [|y l IH]; simpl; [reflexivity|].
  destruct (key y <? key x); [|reflexivity].
  rewrite IH. apply Permutation_swap.
Qed.

Lemma sort_asc_Permutation (l : list A) : sort_asc key l ≡ₚ l.
Proof.
  unfold sort_asc. induction l as [|x l IH]; simpl; [reflexivity|].
  rewrite insert_asc_Permutation, IH. reflexivity.
Qed.

Lemma insert_asc_ascending (x : A) (l : list A) :
  ascending l -> ascending (insert_asc key x l).
Proof.
  unfold ascending. induction l as [|y l IH]; intros Hs; simpl.
  - constructor; constructor.
  - inversion Hs as [|? ? Hl Hy]; subst.
    destruct (Z.ltb_spec (key y) (key x)).
    + constructor; [apply IH, Hl|].
      rewrite insert_asc_Permutation. constructor; [lia|exact Hy].
    + constructor; [exact Hs|].
      constructor; [exact H|].
      eapply Forall_impl; [exact Hy|]. simpl. intros; lia.
Qed.

Lemma sort_asc_ascending (l : list A) : ascending (sort_asc key l).
Proof.
  unfold sort_asc. induction l as [|x l IH]; simpl.
  - constructor.
  - apply insert_asc_ascending, IH.
Qed.

(** Python's sort is stable: with one key for all, nothing moves. *)
Lemma sort_asc_constant (c : Z) (l : list A) :
  Forall (fun x => key x = c) l -> sort_asc key l = l.
Proof.
  unfold sort_asc. induction 1 as [|x l Hx Hl IH]; simpl; [reflexivity|].
  rewrite IH. destruct Hl as [|y l Hy Hl]; simpl; [reflexivity|].
  rewrite Hx, Hy, Z.ltb_irrefl. reflexivity.
Qed.

End SortAsc.

(** The note does not carry the marker of an indexed note. *)
Definition unmarked (doc : Doc) : bool :=
  negb (contains (u "ai_indexed:") (default [] (doc_data doc))).

(** The sort key of the discovery: [x.get('ctime', 0)]. *)
Definition ctime_of (doc : Doc) : Z := default 0 (doc_ctime doc).

Definition discovery_calls : trace := [EvGetAllDocuments 500; EvVectorStats].

(** X16.  The discovery never raises and returns at most 50 documents,
    none of which carries the marker "ai_indexed:", in ascending order of
    creation time (a missing time counts as 0).  When both stores
    answer, the documents returned are documents of the store, the
    counter [pending_notes] holds the number of all unmarked documents
    (not only of the 50 returned), and an unmarked document that is left
    out is no older than any document returned.  When a store fails,
    nothing is returned. *)
Theorem find_pending_oldest_first (w : World) (s : BackgroundIndexer) :
  exists pending s1,
    _find_pending_notes w s = (Ok pending, s1)
    /\ len pending <= 50
    /\ Forall (fun d => unmarked d = true) pending
    /\ ascending ctime_of pending
    /\ (forall all_docs stats,
          db_get_all_documents w 500 = Returns all_docs ->
          vs_get_stats w = Returns stats ->
          (forall d, In d pending -> In d all_docs)
          /\ total_notes (_stats s1) = len all_docs
          /\ indexed_notes (_stats s1) = default 0 stats
          /\ pending_notes (_stats s1) = len (List.filter unmarked all_docs)
          /\ len pending = Z.min 50 (pending_notes (_stats s1))
          /\ (forall d p,
                In d all_docs -> unmarked d = true -> ~ In d pending ->
                In p pending -> ctime_of p <= ctime_of d))
    /\ ((exists msg, db_get_all_documents w 500 = Fails msg)
        \/ (exists msg, vs_get_stats w = Fails msg) ->
        pending = []
        /\ pending_notes (_stats s1) = pending_notes (_stats s)).
Proof.
  unfold _find_pending_notes, try_except, bind, await, update_stats, ret.
  destruct (db_get_all_documents w 500) as [all_docs|m1] eqn:Hdb; simpl.
  2:{ eexists. eexists. split; [reflexivity|]. simpl.
      split; [unfold len; simpl; lia|]. split; [constructor|].
      split; [constructor|]. split; [intros; discriminate|].
      intros _. split; reflexivity. }
  destruct (vs_get_stats w) as [stats|m2] eqn:Hvs; simpl.
  2:{ eexists. eexists. split; [reflexivity|]. simpl.
      split; [unfold len; simpl; lia|]. split; [constructor|].
      split; [constructor|]. split; [intros; discriminate|].
      intros _. split; reflexivity. }
  fold unmarked. fold ctime_of.
  change (fun doc : Doc =>
            negb (contains (u "ai_indexed:") (default [] (doc_data doc))))
    with unmarked.
  change (fun x : Doc => default 0 (doc_ctime x)) with ctime_of.
  set (sorted := sort_asc ctime_of (List.filter unmarked all_docs)).
  assert (slice_to 50 sorted = take 50 sorted) as Hslice by reflexivity.
  assert (sorted ≡ₚ List.filter unmarked all_docs) as Hperm
    by apply sort_asc_Permutation.
  assert (ascending ctime_of sorted) as Hsorted by apply sort_asc_ascending.
  assert (forall d, In d sorted <-> In d all_docs /\ unmarked d = true)
    as Hin.
  { intros d. rewrite <- filter_In. split; intros Hd.
    - eapply Permutation_in; [exact Hperm|exact Hd].
    - eapply Permutation_in; [symmetry; exact Hperm|exact Hd]. }
  eexists. eexists. split; [reflexivity|]. simpl. rewrite Hslice.
  split; [unfold len; rewrite length_take; lia|].
  split.
  { apply List.Forall_forall. intros d Hd.
    apply In_take, Hin in Hd. apply Hd. }
  split.
  { unfold ascending in *. rewrite <- (take_drop 50 sorted) in Hsorted.
    eapply sorted_app_l, Hsorted. }
  split.
  - intros ? ? [= <-] [= <-].
    split; [intros d Hd; apply In_take, Hin in Hd; apply Hd|].
    split; [reflexivity|]. split; [reflexivity|]. split; [reflexivity|].
    split.
    { unfold len. rewrite length_take, (Permutation_length Hperm). lia. }
    intros d p Hd Hu Hout Hp.
    assert (In d sorted) as Hds by (apply Hin; split; assumption).
    rewrite <- (take_drop 50 sorted) in Hds. apply in_app_or in Hds.
    destruct Hds as [Hds|Hds]; [contradiction|].
    unfold ascending in Hsorted.
    rewrite <- (take_drop 50 sorted) in Hsorted.
    apply (sorted_app_between _ _ _ p d Hsorted Hp Hds).
  - intros [(m & Hm)|(m & Hm)]; discriminate.
Qed.

Section Turns.

Variable w : World.

(** The discovery with the calls it makes: two when it finds something. *)
Lemma find_pending_calls (s : BackgroundIndexer) :
  exists s1 added,
    _find_pending_notes w s = (Ok (pending_of w), s1)
    /\ batch_size s1 = batch_size s
    /\ delay_seconds s1 = delay_seconds s
    /\ _running s1 = _running s
    /\ failed_notes (_stats s1) = failed_notes (_stats s)
    /\ last_run (_stats s1) = last_run (_stats s)
    /\ calls s1 = calls s ++ added
    /\ (pending_of w <> [] -> added = discovery_calls).
Proof.
  unfold _find_pending_notes, pending_of, try_except, bind, await,
    update_stats, ret.
  destruct (db_get_all_documents w 500) as [all_docs|m1]; simpl.
  2:{ eexists. eexists. repeat (split; [reflexivity|]). congruence. }
  destruct (vs_get_stats w) as [stats|m2]; simpl.
  2:{ eexists. eexists. repeat (split; [reflexivity|]).
      split; [simpl; rewrite <- app_assoc; reflexivity|congruence]. }
  eexists. eexists. repeat (split; [reflexivity|]).
  split; [simpl; rewrite <- app_assoc; reflexivity|reflexivity].
Qed.

(** The loop over the batches never raises, whatever the batch size and
    the running flag. *)
Lemma batch_loop_returns (pending : list Doc) (indices : list Z)
    (s : BackgroundIndexer) :
  exists s' di df,
    batch_loop w pending indices s = (Ok tt, s') /\ advanced s s' di df.
Proof.
  revert s. induction indices as [|i indices IH]; intros s; simpl.
  - exists s, 0, 0. split; [reflexivity|apply advanced_refl].
  - unfold bind at 1. unfold self at 1. cbv beta iota.
    destruct (_running s) eqn:Hrun; simpl.
    + unfold bind at 1.
      destruct (process_batch_run w
                  (slice (Z.to_nat i) (Z.to_nat (i + batch_size s)) pending)
                  s) as (s1 & -> & Hadv1).
      unfold bind at 1. unfold sleep, await at 1, lift, ret at 1.
      cbv beta iota.
      match goal with
      | |- exists s' di df, batch_loop w pending indices ?s2 = _ /\ _ =>
          destruct (IH s2) as (s3 & di & df & -> & Hadv3);
          assert (advanced s1 s2 0 0) as Hadv2 by solve_advanced
      end.
      eexists. eexists. eexists. split; [reflexivity|].
      exact (advanced_trans _ _ _ _ _ _ _ Hadv1
               (advanced_trans _ _ _ _ _ _ _ Hadv2 Hadv3)).
    + exists s, 0, 0. split; [reflexivity|apply advanced_refl].
Qed.

End Turns.

(** The pause at the end of a turn of the loop. *)
Definition pause_of (w : World) (s : BackgroundIndexer) : Z :=
  match pending_of w with
  | [] => 600
  | _ => if batch_size s =? 0 then 60 else 600
  end.

(** X17.  A turn of the indexing loop never raises and always ends in a
    pause, after which the loop goes on with the same configuration.
    The pause is the 10 minutes between scans, but for one case: with a
    batch size of 0 and notes pending, the scan fails on its [range], no
    note is processed, [last_run] is not set, and the pause is the one
    minute of the error path.  No failure of a collaborator reaches the
    loop. *)
Theorem turn_ends_in_pause (w : World) (s : BackgroundIndexer) :
  exists s' added,
    cycle w s = (Ok true, s')
    /\ calls s' = calls s ++ added ++ [EvSleep (pause_of w s)]
    /\ batch_size s' = batch_size s
    /\ delay_seconds s' = delay_seconds s
    /\ _running s' = _running s
    /\ (pause_of w s = 60 ->
        added = discovery_calls
        /\ failed_notes (_stats s') = failed_notes (_stats s)
        /\ last_run (_stats s') = last_run (_stats s)).
Proof.
  unfold cycle, scan, pause_of. unfold bind at 1.
  destruct (find_pending_calls w s)
    as (s1 & added & -> & Hb & Hd & Hr & Hf & Hl & Hc & Hfound).
  destruct (pending_of w) as [|doc docs] eqn:Hp.
  - unfold bind, ret, sleep, await, lift. simpl.
    eexists. exists added. split; [reflexivity|]. simpl.
    split; [rewrite Hc, <- app_assoc; reflexivity|].
    repeat (split; [assumption|]). intros; lia.
  - unfold bind at 1. unfold bind at 1. unfold self at 1. cbv beta iota.
    unfold range_step. rewrite Hb.
    destruct (Z.eqb_spec (batch_size s) 0) as [Hz|Hz].
    + unfold bind, raise, ret, sleep, await, lift. simpl.
      eexists. exists added. split; [reflexivity|]. simpl.
      split; [rewrite Hc, <- app_assoc; reflexivity|].
      repeat (split; [assumption|]). intros _.
      split; [apply Hfound; discriminate|]. split; assumption.
    + destruct (batch_size s <? 0); cbv beta iota;
        unfold bind at 1; unfold ret at 1; cbv beta iota;
        match goal with
        | |- context [batch_loop w ?p ?idx] =>
            destruct (batch_loop_returns w p idx s1)
              as (s2 & di & df & Hloop & Hadv)
        end;
        unfold bind at 1; rewrite Hloop;
        unfold bind, update_stats, ret, sleep, await, lift; simpl;
        destruct Hadv as (Hb2 & Hd2 & Hr2 & _ & _ & _ & _ & _ & more & Hc2);
        (eexists; exists (added ++ more); split; [reflexivity|]; simpl;
         split; [rewrite Hc2, Hc, <- !app_assoc; reflexivity|];
         split; [congruence|]; split; [congruence|];
         split; [congruence|]; intros; lia).
Qed.

(** X18.  Documents without content are pending and stay so.  When the
    documents of the store carry no 'data' (the field list of
    [get_all_documents] is '_id', 'path', 'mtime'), each of them counts
    as pending, [reindex_all] reports success with up to 50 notes
    processed, and yet it calls nothing but the two calls of the
    discovery: no metadata is extracted, nothing is embedded or stored.
    Processed as a batch, these documents leave the indexer as it is. *)
Theorem documents_without_data_never_indexed (w : World)
    (s : BackgroundIndexer) (all_docs : list Doc) (stats : option Z) :
  db_get_all_documents w 500 = Returns all_docs ->
  vs_get_stats w = Returns stats ->
  Forall (fun d => doc_data d = None) all_docs ->
  exists s',
    reindex_all w s
    = (Ok (reindex_success (Z.min 50 (len all_docs))), s')
    /\ calls s' = calls s ++ discovery_calls
    /\ pending_notes (_stats s') = len all_docs
    /\ indexed_notes (_stats s') = default 0 stats
    /\ failed_notes (_stats s') = failed_notes (_stats s)
    /\ _process_batch w all_docs s = (Ok tt, s).
Proof.
  intros Hdb Hvs Hnone.
  assert (forall docs, Forall (fun d => doc_data d = None) docs ->
          forall s0, for_each docs (fun note => _index_note w note) s0
                     = (Ok tt, s0)) as Hskip.
  { induction 1 as [|d docs Hd _ IH]; intros s0; simpl; [reflexivity|].
    unfold bind. rewrite index_note_skips; [apply IH|].
    unfold too_short. rewrite Hd. reflexivity. }
  assert (List.filter unmarked all_docs = all_docs) as Hall.
  { clear Hdb. induction Hnone as [|d docs Hd _ IH]; simpl; [reflexivity|].
    unfold unmarked at 1. rewrite Hd. simpl. rewrite IH. reflexivity. }
  set (pending := slice_to 50 (sort_asc ctime_of all_docs)).
  assert (Forall (fun d => doc_data d = None) pending) as Hpending.
  { apply List.Forall_forall. intros d Hd. apply In_take in Hd.
    rewrite List.Forall_forall in Hnone. apply Hnone.
    eapply Permutation_in; [apply sort_asc_Permutation|exact Hd]. }
  assert (len pending = Z.min 50 (len all_docs)) as Hlen.
  { unfold pending, len, slice_to. simpl. rewrite length_take.
    rewrite (Permutation_length (sort_asc_Permutation ctime_of all_docs)).
    lia. }
  unfold reindex_all, try_except. unfold bind at 1.
  unfold _find_pending_notes, try_except, bind at 1, await, update_stats,
    ret.
  rewrite Hdb. unfold bind, lift at 1. rewrite Hvs. simpl.
  change (fun doc : Doc =>
            negb (contains (u "ai_indexed:") (default [] (doc_data doc))))
    with unmarked.
  change (fun x : Doc => default 0 (doc_ctime x)) with ctime_of.
  rewrite Hall. fold pending. rewrite (Hskip pending Hpending), Hlen.
  eexists. split; [reflexivity|]. simpl.
  split; [rewrite <- app_assoc; reflexivity|].
  repeat (split; [reflexivity|]).
  unfold _process_batch. clear Hdb Hall pending Hpending Hlen.
  generalize s.
  induction Hnone as [|d docs Hd _ IH]; intros s0; simpl; [reflexivity|].
  unfold bind, try_except. rewrite index_note_skips; [apply IH|].
  unfold too_short. rewrite Hd. reflexivity.
Qed.

(** Three documents as [get_all_documents] asks for them: an identifier,
    a path and a modification time. *)
Definition listed (id : list N) (mtime : Z) : Doc :=
  {| doc_id := Some id; doc_path := Some id; doc_data := None;
     doc_mtime := Some mtime; doc_ctime := None |}.

Definition listing : list Doc :=
  [listed (u "notes/a") 3; listed (u "notes/b") 1; listed (u "notes/c") 2].

Definition listing_world : World :=
  IndexerFixtures.indexing_world listing (fun _ => Returns [1 # 2]).

Lemma documents_without_data_never_indexed_witness :
  exists s',
    reindex_all listing_world default_indexer
    = (Ok (reindex_success (Z.min 50 (len listing))), s')
    /\ calls s' = calls default_indexer ++ discovery_calls
    /\ pending_notes (_stats s') = len listing
    /\ indexed_notes (_stats s') = default 0 (Some 0)
    /\ failed_notes (_stats s') = failed_notes (_stats default_indexer)
    /\ _process_batch listing_world listing default_indexer
       = (Ok tt, default_indexer).
Proof.
  apply (documents_without_data_never_indexed listing_world default_indexer
           listing (Some 0)).
  - reflexivity.
  - reflexivity.
  - repeat (apply List.Forall_cons; [reflexivity|]). apply List.Forall_nil.
Defined.

End IndexerExtras.

(** * The vector store client (vector_store.py)

    The Qdrant server is a collaborator: it answers each request of the
    client, and its answer may depend on the requests made before.  The
    client object holds the flag [_initialized]; the requests it has sent
    are kept with it. *)

Module VectorStore.

(** [PointStruct]: the identifier, the vector and the payload. *)
Record Point := {
  pt_id : Z;
  pt_vector : Embedding;
  pt_note_id : str;
  pt_payload : NotePayload;
  pt_indexed_at : str
}.

(** [FieldCondition(key, range=Range(gte=v))], the one condition that
    [search_similar] gets to build: [MatchValue] has a required field
    'value' and no field 'any', so that [MatchValue(any=v)] raises a
    ValidationError where it stands. *)
Inductive Condition :=
| RangeGte (key : str) (gte : pyval).

(** The payload of a hit; [None] is an absent key. *)
Record HitPayload := {
  hp_note_id : option str;
  hp_category : option str;
  hp_tags : option (list str);
  hp_keywords : option (list str);
  hp_summary : option str;
  hp_mtime : option Z
}.

Record Hit := { hit_score : Q; hit_payload : HitPayload }.

(** What [get_stats] reads of [get_collection]; [indexed_vectors_count]
    is [None] when the attribute is absent. *)
Record CollectionInfo := {
  points_count : Z;
  vectors_size : Z;
  indexed_vectors_count : option Z
}.

Inductive request :=
| GetCollections
| CreateCollection (collection : str) (size : Z)
| Upsert (collection : str) (points : list Point)
| Search (collection : str) (query_vector : Embedding) (limit : Z)
         (score_threshold : Q) (query_filter : option (list Condition))
| Delete (collection : str) (points_selector : list Z)
| GetCollection (collection : str)
| DeleteCollection (collection : str).

(** The server: each answer is a function of the requests so far, the one
    being answered included; [hash] is Python's [hash] on strings in this
    process, [now] the clock.  The models of the client library validate
    their arguments: [match_value_error v] is the text of the
    ValidationError that [MatchValue(any=v)] raises, and [range_error v]
    the text of the one that [Range(gte=v)] raises for a [v] that is not
    an integer, [None] when the library takes that [v]. *)
Record Qdrant := {
  q_get_collections : list request -> outcome (list str);
  q_create_collection : list request -> outcome unit;
  q_upsert : list request -> outcome unit;
  q_search : list request -> outcome (list Hit);
  q_delete : list request -> outcome unit;
  q_get_collection : list request -> outcome CollectionInfo;
  q_delete_collection : list request -> outcome unit;
  hash : str -> Z;
  now : str;
  match_value_error : pyval -> str;
  range_error : pyval -> option str
}.

Record VectorStoreClient := {
  collection_name : str;
  embedding_dimensions : Z;
  _initialized : bool;
  requests : list request
}.

(** [VectorStoreClient.__init__] *)
Definition init (collection : str) (dimensions : Z) : VectorStoreClient :=
  {| collection_name := collection; embedding_dimensions := dimensions;
     _initialized := false; requests := [] |}.

Definition V := Prog VectorStoreClient.

Definition self : V VectorStoreClient := fun s => (Ok s, s).

(** [await self.client.<request>] *)
Definition send {A} (r : request) (answer : list request -> outcome A) : V A :=
  fun s =>
    lift (answer (requests s ++ [r]))
         {| collection_name := collection_name s;
            embedding_dimensions := embedding_dimensions s;
            _initialized := _initialized s;
            requests := requests s ++ [r] |}.

(** [self._initialized = True] *)
Definition set_initialized : V unit :=
  fun s => (Ok tt,
            {| collection_name := collection_name s;
               embedding_dimensions := embedding_dimensions s;
               _initialized := true;
               requests := requests s |}).

Definition initialize (q : Qdrant) : V unit :=
  let* s := self in
  if _initialized s then ret tt
  else
    try_except
      (let* collection_names := send GetCollections (q_get_collections q) in
       let* _ :=
         if negb (str_in (collection_name s) collection_names)
         then send (CreateCollection (collection_name s)
                                     (embedding_dimensions s))
                   (q_create_collection q)
         else ret tt in
       set_initialized)
      (fun e => raise (Exception e)).

(** [abs(hash(note_id)) % (10 ** 8)] *)
Definition point_id (q : Qdrant) (note_id : str) : Z :=
  Z.abs (hash q note_id) mod 10 ^ 8.

(** [upsert_note]; both callers pass a metadata dict with all six keys,
    so the defaults of its [get] calls are not reached. *)
Definition upsert_note (q : Qdrant) (note_id : str) (embedding : Embedding)
    (metadata : NotePayload) : V bool :=
  let* _ := initialize q in
  try_except
    (let point :=
       {| pt_id := point_id q note_id;
          pt_vector := embedding;
          pt_note_id := note_id;
          pt_payload := metadata;
          pt_indexed_at := now q |} in
     let* s := self in
     let* _ := send (Upsert (collection_name s) [point]) (q_upsert q) in
     ret true)
    (fun e => raise (Exception e)).

(** [MatchValue(any=v)] *)
Definition MatchValue_any (q : Qdrant) (v : pyval) : outcome Condition :=
  Fails (match_value_error q v).

(** [Range(gte=v)] *)
Definition Range_gte (q : Qdrant) (key : str) (v : pyval)
  : outcome Condition :=
  match v with
  | VInt _ => Returns (RangeGte key v)
  | _ => match range_error q v with
         | None => Returns (RangeGte key v)
         | Some e => Fails e
         end
  end.

(** One [if] of "Build filter conditions": the condition is built, and
    appended when that succeeds. *)
Definition append_condition (conditions : list Condition)
    (built : outcome Condition) : outcome (list Condition) :=
  match built with
  | Returns c => Returns (conditions ++ [c])
  | Fails e => Fails e
  end.

(** "Build filter conditions" of [search_similar] *)
Definition filter_conditions (q : Qdrant)
    (filters : option (gmap string pyval)) : outcome (list Condition) :=
  let filter_conditions : list Condition := [] in
  match filters with
  | Some filters =>
      if bool_decide (filters = ∅) then Returns filter_conditions
      else
        (* Category filter *)
        match
          match filters !! "categories"%string with
          | Some v =>
              if truthy v
              then append_condition filter_conditions (MatchValue_any q v)
              else Returns filter_conditions
          | None => Returns filter_conditions
          end
        with
        | Fails e => Fails e
        | Returns filter_conditions =>
            (* Tags filter *)
            match
              match filters !! "tags"%string with
              | Some v =>
                  if truthy v
                  then append_condition filter_conditions
                                        (MatchValue_any q v)
                  else Returns filter_conditions
              | None => Returns filter_conditions
              end
            with
            | Fails e => Fails e
            | Returns filter_conditions =>
                (* Date range filter *)
                match filters !! "after_date"%string with
                | Some v =>
                    append_condition filter_conditions
                                     (Range_gte q (u "mtime") v)
                | None => Returns filter_conditions
                end
            end
        end
  | None => Returns filter_conditions
  end.

(** [Filter(must=filter_conditions) if filter_conditions else None] *)
Definition search_filter (filter_conditions : list Condition)
  : option (list Condition) :=
  match filter_conditions with
  | [] => None
  | conditions => Some conditions
  end.

(** A formatted result of [search_similar]. *)
Record SearchResult := {
  sr_note_id : option str;
  sr_score : Q;
  sr_category : option str;
  sr_tags : list str;
  sr_keywords : list str;
  sr_summary : str;
  sr_mtime : Z
}.

Definition format_hit (hit : Hit) : SearchResult :=
  {| sr_note_id := hp_note_id (hit_payload hit);
     sr_score := hit_score hit;
     sr_category := hp_category (hit_payload hit);
     sr_tags := default [] (hp_tags (hit_payload hit));
     sr_keywords := default [] (hp_keywords (hit_payload hit));
     sr_summary := default [] (hp_summary (hit_payload hit));
     sr_mtime := default 0 (hp_mtime (hit_payload hit)) |}.

Definition search_similar (q : Qdrant) (query_embedding : Embedding)
    (limit : Z) (filters : option (gmap string pyval)) (score_threshold : Q)
  : V (list SearchResult) :=
  let* _ := initialize q in
  try_except
    ((* Build filter conditions *)
     let* filter_conditions := lift (filter_conditions q filters) in
     (* Perform search *)
     let search_filter := search_filter filter_conditions in
     let* s := self in
     let* results :=
       send (Search (collection_name s) query_embedding limit
                    score_threshold search_filter)
            (q_search q) in
     (* Format results *)
     ret (map format_hit results))
    (fun e => raise (Exception e)).

Definition delete_note (q : Qdrant) (note_id : str) : V bool :=
  let* _ := initialize q in
  try_except
    (let point_id := point_id q note_id in
     let* s := self in
     let* _ := send (Delete (collection_name s) [point_id]) (q_delete q) in
     ret true)
    (fun e => raise (Exception e)).

(** The dict [get_stats] returns. *)
Record StoreStats := {
  total_vectors : Z;
  vector_dimensions : Z;
  indexed_count : Z
}.

Definition get_stats (q : Qdrant) : V StoreStats :=
  let* _ := initialize q in
  try_except
    (let* s := self in
     let* info := send (GetCollection (collection_name s))
                       (q_get_collection q) in
     ret {| total_vectors := points_count info;
            vector_dimensions := vectors_size info;
            indexed_count :=
              default (points_count info) (indexed_vectors_count info) |})
    (fun _ =>
       let* s := self in
       ret {| total_vectors := 0;
              vector_dimensions := embedding_dimensions s;
              indexed_count := 0 |}).

Definition clear_collection (q : Qdrant) : V unit :=
  let* _ := initialize q in
  try_except
    (let* s := self in
     let* _ := send (DeleteCollection (collection_name s))
                    (q_delete_collection q) in
     (* Recreate empty collection *)
     initialize q)
    (fun e => raise (Exception e)).

End VectorStore.

(** ** Properties of the vector store client *)

Module VectorStoreSpec.

Import VectorStore.

Section Client.

Variable q : Qdrant.

Lemma initialize_done (s : VectorStoreClient) :
  _initialized s = true -> initialize q s = (Ok tt, s).
Proof.
  intros Hs. unfold initialize, bind, self. rewrite Hs. reflexivity.
Qed.

(** The requests of a first initialisation that gets its listing. *)
Definition creation (s : VectorStoreClient) (names : list (list N))
  : list request :=
  GetCollections ::
  (if str_in (collection_name s) names then []
   else [CreateCollection (collection_name s) (embedding_dimensions s)]).

Lemma initialize_run (s : VectorStoreClient) :
  exists r s',
    initialize q s = (r, s')
    /\ collection_name s' = collection_name s
    /\ embedding_dimensions s' = embedding_dimensions s
    /\ match r with
       | Ok _ =>
           _initialized s' = true
           /\ (if _initialized s then requests s' = requests s
               else exists names,
                      q_get_collections q (requests s ++ [GetCollections])
                      = Returns names
                      /\ requests s' = requests s ++ creation s names)
       | Raised _ =>
           _initialized s = false
           /\ _initialized s' = false
           /\ exists r0 rest, requests s' = requests s ++ r0 :: rest
       end.
Proof.
  unfold initialize, bind at 1, self.
  destruct (_initialized s) eqn:Hs.
  { exists (Ok tt), s. repeat (split; [reflexivity|]).
    split; [exact Hs|]. reflexivity. }
  unfold try_except, bind, send, set_initialized, ret, raise, creation.
  destruct (q_get_collections q (requests s ++ [GetCollections]))
    as [names|m1] eqn:Hnames; simpl.
  2:{ eexists. eexists. split; [reflexivity|]. simpl. rewrite ?Hs.
      repeat (split; [reflexivity|]). eexists. eexists. reflexivity. }
  destruct (str_in (collection_name s) names) eqn:Hin; simpl.
  { eexists. eexists. split; [reflexivity|]. simpl. rewrite ?Hs.
    repeat (split; [reflexivity|]).
    exists names. split; [reflexivity|]. rewrite Hin. reflexivity. }
  destruct (q_create_collection q _) as [[]|m2]; simpl.
  - eexists. eexists. split; [reflexivity|]. simpl. rewrite ?Hs.
    repeat (split; [reflexivity|]).
    exists names. split; [reflexivity|].
    rewrite Hin, <- app_assoc. reflexivity.
  - eexists. eexists. split; [reflexivity|]. simpl. rewrite ?Hs.
    repeat (split; [reflexivity|]).
    eexists. eexists. rewrite <- app_assoc. reflexivity.
Qed.

End Client.

(** X19.  [initialize] asks for the collections once: when it returns,
    the flag is set, and every later call returns at once without a
    request.  The collection is created only when its name is not in the
    listing.  When it raises, the flag stays unset, so that the next
    operation tries again. *)
Theorem initialize_once (q : Qdrant) (s : VectorStoreClient) :
  exists r s',
    initialize q s = (r, s')
    /\ match r with
       | Ok _ =>
           _initialized s' = true
           /\ initialize q s' = (Ok tt, s')
           /\ (if _initialized s then requests s' = requests s
               else exists names,
                      q_get_collections q (requests s ++ [GetCollections])
                      = Returns names
                      /\ requests s' = requests s ++ creation s names)
       | Raised _ =>
           _initialized s' = false
           /\ exists r0 rest, requests s' = requests s ++ r0 :: rest
       end.
Proof.
  destruct (initialize_run q s) as (r & s' & Hrun & _ & _ & Hr).
  exists r, s'. split; [exact Hrun|].
  destruct r as [[]|e].
  - destruct Hr as (Hflag & Hreq).
    split; [exact Hflag|]. split; [apply initialize_done, Hflag|exact Hreq].
  - destruct Hr as (_ & Hflag & Hreq). split; assumption.
Qed.

(** X20.  [clear_collection] does not recreate the collection.  Its
    second [initialize] finds the flag set by the first and returns at
    once: when [clear_collection] returns, the deletion is the last
    request that was sent, what precedes it are the requests of the first
    initialisation (none on a client already initialised), and the flag
    is set, so that no later operation creates the collection either. *)
Theorem clear_collection_does_not_recreate (q : Qdrant)
    (s s' : VectorStoreClient) :
  clear_collection q s = (Ok tt, s') ->
  exists before,
    requests s' = requests s ++ before
                  ++ [DeleteCollection (collection_name s)]
    /\ Forall (fun r => r = GetCollections
                        \/ r = CreateCollection (collection_name s)
                                 (embedding_dimensions s)) before
    /\ (_initialized s = true -> before = [])
    /\ _initialized s' = true
    /\ initialize q s' = (Ok tt, s').
Proof.
  unfold clear_collection. unfold bind at 1.
  destruct (initialize_run q s) as (r & s1 & -> & Hname & Hdims & Hr).
  destruct r as [[]|e]; [|discriminate].
  destruct Hr as (Hflag & Hreq).
  unfold try_except, bind at 1, self. cbv beta iota.
  unfold bind at 1, send.
  destruct (q_delete_collection q _) as [[]|m]; simpl; [|discriminate].
  rewrite initialize_done by exact Hflag.
  intros [= <-]. simpl. rewrite Hname.
  destruct (_initialized s) eqn:Hs.
  - exists []. rewrite Hreq. split; [reflexivity|].
    split; [constructor|]. split; [reflexivity|].
    split; [exact Hflag|]. apply initialize_done. exact Hflag.
  - destruct Hreq as (names & _ & ->).
    exists (creation s names). rewrite <- app_assoc.
    split; [reflexivity|]. split.
    { unfold creation. constructor; [left; reflexivity|].
      destruct (str_in (collection_name s) names); constructor;
        [right; reflexivity|constructor]. }
    split; [discriminate|].
    split; [exact Hflag|]. apply initialize_done. exact Hflag.
Qed.

(** X21.  [get_stats] raises only when the initialisation raises.  A
    failure to read the collection is reported as an empty collection:
    zero vectors, and the dimensions of the settings. *)
Theorem get_stats_hides_failures (q : Qdrant) (s : VectorStoreClient) :
  exists r s',
    get_stats q s = (r, s')
    /\ match r with
       | Ok stats =>
           exists s1,
             initialize q s = (Ok tt, s1)
             /\ requests s' = requests s1
                              ++ [GetCollection (collection_name s)]
             /\ forall msg,
                  q_get_collection q (requests s') = Fails msg ->
                  stats = {| total_vectors := 0;
                             vector_dimensions := embedding_dimensions s;
                             indexed_count := 0 |}
       | Raised e => initialize q s = (Raised e, s')
       end.
Proof.
  unfold get_stats. unfold bind at 1.
  destruct (initialize_run q s) as (r & s1 & Hrun & Hname & Hdims & Hr).
  rewrite Hrun. destruct r as [[]|e].
  - unfold try_except, bind, self, send, ret. cbv beta iota.
    destruct (q_get_collection q
                (requests s1 ++ [GetCollection (collection_name s1)]))
      as [info|m] eqn:Hinfo; simpl.
    + eexists. eexists. split; [reflexivity|].
      exists s1. split; [reflexivity|]. simpl. rewrite Hname.
      split; [reflexivity|]. intros msg Hmsg.
      rewrite Hname in Hinfo. congruence.
    + eexists. eexists. split; [reflexivity|].
      exists s1. split; [reflexivity|]. simpl. rewrite Hname, Hdims.
      split; [reflexivity|]. reflexivity.
  - eexists. eexists. split; reflexivity.
Qed.

(** The value of a key is absent or false. *)
Definition falsy (filters : gmap string pyval) (key : string) : Prop :=
  match filters !! key with
  | Some v => truthy v = false
  | None => True
  end.

(** X22.  What [search_similar] sends for its filters, on a client that
    is initialised.  Non-empty 'categories', and with none of these
    non-empty 'tags', make the search fail before anything is sent: the
    condition is built with [MatchValue(any=...)], which raises, and the
    exception leaves the method.  Without them the one request sent is
    the search: with no filter when there is no 'after_date', and with
    the one condition "mtime >= after_date" when 'after_date' is an
    integer, 0 included.  The filters of Stage 1 are the empty dict: the
    pipelines search without a filter. *)
Theorem search_similar_filters (q : Qdrant) (s : VectorStoreClient)
    (query_embedding : Embedding) (limit : Z) (score_threshold : Q)
    (filters : gmap string pyval) (keywords : list (list N)) (t : trace) :
  _initialized s = true ->
  let sent (f : gmap string pyval) (query_filter : option (list Condition)) :=
    requests (snd (search_similar q query_embedding limit (Some f)
                                  score_threshold s))
    = requests s ++ [Search (collection_name s) query_embedding limit
                            score_threshold query_filter] in
  let raises (v : pyval) :=
    search_similar q query_embedding limit (Some filters) score_threshold s
    = (Raised (Exception (match_value_error q v)), s) in
  (forall v, filters !! "categories"%string = Some v ->
             truthy v = true -> raises v)
  /\ (falsy filters "categories" ->
      forall v, filters !! "tags"%string = Some v ->
                truthy v = true -> raises v)
  /\ (falsy filters "categories" -> falsy filters "tags" ->
      filters !! "after_date"%string = None -> sent filters None)
  /\ (falsy filters "categories" -> falsy filters "tags" ->
      forall n, filters !! "after_date"%string = Some (VInt n) ->
                sent filters (Some [RangeGte (u "mtime") (VInt n)]))
  /\ exists stage1,
       QAAgent._stage1_metadata_filter keywords t = (Ok stage1, t)
       /\ sent stage1 None.
Proof.
  intros Hs. cbv zeta.
  assert (forall f,
            search_similar q query_embedding limit (Some f)
                           score_threshold s
            = match filter_conditions q (Some f) with
              | Fails e => (Raised (Exception e), s)
              | Returns cs =>
                  try_except
                    (let* results :=
                       send (Search (collection_name s) query_embedding
                                    limit score_threshold (search_filter cs))
                            (q_search q) in
                     ret (map format_hit results))
                    (fun e => raise (Exception e)) s
              end) as Hrun.
  { intros f. unfold search_similar, bind at 1.
    rewrite (initialize_done q s Hs).
    unfold try_except at 1. unfold bind at 1.
    destruct (filter_conditions q (Some f)) as [cs|e]; reflexivity. }
  assert (forall cs,
            requests (snd (try_except
                             (let* results :=
                                send (Search (collection_name s)
                                             query_embedding limit
                                             score_threshold cs)
                                     (q_search q) in
                              ret (map format_hit results))
                             (fun e => raise (Exception e)) s))
            = requests s ++ [Search (collection_name s) query_embedding limit
                                    score_threshold cs]) as Hsent.
  { intros cs. unfold try_except, bind, send, ret, raise.
    destruct (q_search q _) as [hits|e]; reflexivity. }
  assert (forall f : gmap string pyval,
            (exists v, f !! "categories"%string = Some v) ->
            bool_decide (f = ∅) = false) as Hne_c.
  { intros f (v & Hv). apply bool_decide_eq_false. intros ->.
    rewrite lookup_empty in Hv. discriminate. }
  assert (forall f : gmap string pyval,
            (exists v, f !! "tags"%string = Some v) ->
            bool_decide (f = ∅) = false) as Hne_t.
  { intros f (v & Hv). apply bool_decide_eq_false. intros ->.
    rewrite lookup_empty in Hv. discriminate. }
  assert (forall f : gmap string pyval,
            (exists v, f !! "after_date"%string = Some v) ->
            bool_decide (f = ∅) = false) as Hne_d.
  { intros f (v & Hv). apply bool_decide_eq_false. intros ->.
    rewrite lookup_empty in Hv. discriminate. }
  split.
  { intros v Hv Htrue. rewrite Hrun. unfold filter_conditions.
    rewrite (Hne_c filters) by (exists v; exact Hv).
    rewrite Hv, Htrue. reflexivity. }
  split.
  { intros Hc v Hv Htrue. rewrite Hrun. unfold filter_conditions.
    rewrite (Hne_t filters) by (exists v; exact Hv).
    unfold falsy in Hc.
    destruct (filters !! "categories"%string) as [c|];
      [rewrite Hc|]; rewrite Hv, Htrue; reflexivity. }
  split.
  { intros Hc Ht Hd. rewrite Hrun. unfold filter_conditions.
    unfold falsy in Hc, Ht.
    destruct (bool_decide (filters = ∅)); [apply Hsent|].
    destruct (filters !! "categories"%string) as [c|];
      [rewrite Hc|];
      (destruct (filters !! "tags"%string) as [g|]; [rewrite Ht|]);
      rewrite Hd; apply Hsent. }
  split.
  { intros Hc Ht n Hd. rewrite Hrun. unfold filter_conditions.
    rewrite (Hne_d filters) by (exists (VInt n); exact Hd).
    unfold falsy in Hc, Ht.
    destruct (filters !! "categories"%string) as [c|];
      [rewrite Hc|];
      (destruct (filters !! "tags"%string) as [g|]; [rewrite Ht|]);
      rewrite Hd; apply Hsent. }
  exists ∅. split; [reflexivity|]. rewrite Hrun. apply Hsent.
Qed.

(** X23.  On a client that is initialised a note is stored by one
    upsert of one point: its identifier is [abs(hash(note_id)) % 10**8],
    a number from 0 to 99999999, and it carries the note's identifier,
    vector and payload; the note is deleted under the same point
    identifier.  The identifier of the note is not part of the address:
    a second note whose hash has the same remainder is stored under the
    point of the first. *)
Theorem notes_share_points (q : Qdrant) (s : VectorStoreClient)
    (a b : list N) (va vb : Embedding) (ma mb : NotePayload) :
  _initialized s = true ->
  Z.abs (hash q a) mod 10 ^ 8 = Z.abs (hash q b) mod 10 ^ 8 ->
  exists pa pb,
    requests (snd (upsert_note q a va ma s))
    = requests s ++ [Upsert (collection_name s) [pa]]
    /\ requests (snd (upsert_note q b vb mb s))
       = requests s ++ [Upsert (collection_name s) [pb]]
    /\ requests (snd (delete_note q a s))
       = requests s ++ [Delete (collection_name s) [pt_id pa]]
    /\ pt_id pa = Z.abs (hash q a) mod 10 ^ 8
    /\ pt_id pb = Z.abs (hash q b) mod 10 ^ 8
    /\ 0 <= pt_id pa < 10 ^ 8
    /\ pt_note_id pa = a /\ pt_vector pa = va /\ pt_payload pa = ma
    /\ pt_note_id pb = b /\ pt_vector pb = vb /\ pt_payload pb = mb
    /\ pt_id pb = pt_id pa.
Proof.
  intros Hs Hhash.
  exists {| pt_id := point_id q a; pt_vector := va; pt_note_id := a;
            pt_payload := ma; pt_indexed_at := now q |},
         {| pt_id := point_id q b; pt_vector := vb; pt_note_id := b;
            pt_payload := mb; pt_indexed_at := now q |}.
  split.
  { unfold upsert_note, bind at 1. rewrite (initialize_done q s Hs).
    unfold try_except, bind, self, send, ret. cbv beta iota.
    match goal with
    | |- context [lift ?o] => destruct o as [[]|m]; reflexivity
    end. }
  split.
  { unfold upsert_note, bind at 1. rewrite (initialize_done q s Hs).
    unfold try_except, bind, self, send, ret. cbv beta iota.
    match goal with
    | |- context [lift ?o] => destruct o as [[]|m]; reflexivity
    end. }
  split.
  { unfold delete_note, bind at 1. rewrite (initialize_done q s Hs).
    unfold try_except, bind, self, send, ret. cbv beta iota.
    match goal with
    | |- context [lift ?o] => destruct o as [[]|m]; reflexivity
    end. }
  simpl. unfold point_id.
  split; [reflexivity|]. split; [reflexivity|].
  split; [apply Z.mod_pos_bound; lia|].
  repeat (split; [reflexivity|]). symmetry. exact Hhash.
Qed.

(** A server that grants every request and holds no collection yet; the
    hash of a string is taken to be its length. *)
Definition healthy : Qdrant :=
  {| q_get_collections := fun _ => Returns [];
     q_create_collection := fun _ => Returns tt;
     q_upsert := fun _ => Returns tt;
     q_search := fun _ => Returns [];
     q_delete := fun _ => Returns tt;
     q_get_collection :=
       fun _ => Returns {| points_count := 0; vectors_size := 1536;
                           indexed_vectors_count := None |};
     q_delete_collection := fun _ => Returns tt;
     hash := fun s => len s;
     now := u "2025-01-01T00:00:00";
     match_value_error := fun _ => u "1 validation error for MatchValue";
     range_error := fun _ => None |}.

Definition fresh_client : VectorStoreClient :=
  init (u "second_brain_notes") 1536.

Definition ready_client : VectorStoreClient :=
  snd (initialize healthy fresh_client).

Definition cleared_client : VectorStoreClient :=
  snd (clear_collection healthy fresh_client).

Lemma clear_collection_does_not_recreate_witness :
  exists before,
    requests cleared_client
    = requests fresh_client ++ before
      ++ [DeleteCollection (collection_name fresh_client)]
    /\ Forall (fun r => r = GetCollections
                        \/ r = CreateCollection
                                 (collection_name fresh_client)
                                 (embedding_dimensions fresh_client)) before
    /\ (_initialized fresh_client = true -> before = [])
    /\ _initialized cleared_client = true
    /\ initialize healthy cleared_client = (Ok tt, cleared_client).
Proof.
  apply (clear_collection_does_not_recreate healthy fresh_client
           cleared_client).
  reflexivity.
Defined.

Definition payload_of (category : list N) : NotePayload :=
  {| np_category := category; np_tags := []; np_keywords := [];
     np_mtime := 0; np_ctime := 0; np_summary := [] |}.

Lemma notes_share_points_witness :
  exists pa pb,
    requests (snd (upsert_note healthy (u "Inbox/a.md") [1 # 2]
                     (payload_of (u "Inbox")) ready_client))
    = requests ready_client ++ [Upsert (collection_name ready_client) [pa]]
    /\ requests (snd (upsert_note healthy (u "Inbox/b.md") [1 # 3]
                        (payload_of (u "Inbox")) ready_client))
       = requests ready_client
         ++ [Upsert (collection_name ready_client) [pb]]
    /\ requests (snd (delete_note healthy (u "Inbox/a.md") ready_client))
       = requests ready_client
         ++ [Delete (collection_name ready_client) [pt_id pa]]
    /\ pt_id pa = Z.abs (hash healthy (u "Inbox/a.md")) mod 10 ^ 8
    /\ pt_id pb = Z.abs (hash healthy (u "Inbox/b.md")) mod 10 ^ 8
    /\ 0 <= pt_id pa < 10 ^ 8
    /\ pt_note_id pa = u "Inbox/a.md" /\ pt_vector pa = [1 # 2]
    /\ pt_payload pa = payload_of (u "Inbox")
    /\ pt_note_id pb = u "Inbox/b.md" /\ pt_vector pb = [1 # 3]
    /\ pt_payload pb = payload_of (u "Inbox")
    /\ pt_id pb = pt_id pa.
Proof.
  apply (notes_share_points healthy ready_client (u "Inbox/a.md")
           (u "Inbox/b.md") [1 # 2] [1 # 3] (payload_of (u "Inbox"))
           (payload_of (u "Inbox"))).
  - reflexivity.
  - reflexivity.
Defined.

(** The filters of tests/test_vector_store.py. *)
Definition project_filters : gmap string pyval :=
  <["categories"%string := VStrList [u "Projects"]]>
    (<["tags"%string := VStrList [u "python"]]>
       {[ "after_date"%string := VInt 1234567890 ]}).

Lemma search_similar_filters_witness :
  (forall v, project_filters !! "categories"%string = Some v ->
             truthy v = true ->
             search_similar healthy [1 # 2] 30 (Some project_filters)
                            (1 # 2) ready_client
             = (Raised (Exception (match_value_error healthy v)),
                ready_client))
  /\ (falsy project_filters "categories" ->
      forall v, project_filters !! "tags"%string = Some v ->
                truthy v = true ->
                search_similar healthy [1 # 2] 30 (Some project_filters)
                               (1 # 2) ready_client
                = (Raised (Exception (match_value_error healthy v)),
                   ready_client))
  /\ (falsy project_filters "categories" -> falsy project_filters "tags" ->
      project_filters !! "after_date"%string = None ->
      requests (snd (search_similar healthy [1 # 2] 30
                       (Some project_filters) (1 # 2) ready_client))
      = requests ready_client
        ++ [Search (collection_name ready_client) [1 # 2] 30 (1 # 2) None])
  /\ (falsy project_filters "categories" -> falsy project_filters "tags" ->
      forall n, project_filters !! "after_date"%string = Some (VInt n) ->
                requests (snd (search_similar healthy [1 # 2] 30
                                 (Some project_filters) (1 # 2)
                                 ready_client))
                = requests ready_client
                  ++ [Search (collection_name ready_client) [1 # 2] 30
                             (1 # 2) (Some [RangeGte (u "mtime") (VInt n)])])
  /\ exists stage1,
       QAAgent._stage1_metadata_filter [u "deployment"] [] = (Ok stage1, [])
       /\ requests (snd (search_similar healthy [1 # 2] 30 (Some stage1)
                           (1 # 2) ready_client))
          = requests ready_client
            ++ [Search (collection_name ready_client) [1 # 2] 30 (1 # 2)
                       None].
Proof.
  apply (search_similar_filters healthy ready_client [1 # 2] 30 (1 # 2)
           project_filters [u "deployment"] []).
  reflexivity.
Defined.

(** Three runs on the initialised client: the filters of the test raise
    and send nothing; the empty filters send a search without a filter;
    an 'after_date' of 0 alone sends its condition. *)
Example search_similar_runs :
  search_similar healthy [1 # 2] 30 (Some project_filters) (1 # 2)
                 ready_client
  = (Raised (Exception (u "1 validation error for MatchValue")),
     ready_client)
  /\ requests (snd (search_similar healthy [1 # 2] 30 (Some ∅) (1 # 2)
                      ready_client))
     = [GetCollections; CreateCollection (u "second_brain_notes") 1536;
        Search (u "second_brain_notes") [1 # 2] 30 (1 # 2) None]
  /\ requests (snd (search_similar healthy [1 # 2] 30
                      (Some {[ "after_date"%string := VInt 0 ]}) (1 # 2)
                      ready_client))
     = [GetCollections; CreateCollection (u "second_brain_notes") 1536;
        Search (u "second_brain_notes") [1 # 2] 30 (1 # 2)
               (Some [RangeGte (u "mtime") (VInt 0)])].
Proof. repeat split; vm_compute; reflexivity. Qed.

(** The run of [clear_collection] on a fresh client: the collection is
    created, then deleted, and that is all. *)
Example clear_collection_run :
  requests cleared_client
  = [GetCollections; CreateCollection (u "second_brain_notes") 1536;
     DeleteCollection (u "second_brain_notes")].
Proof. reflexivity. Qed.

End VectorStoreSpec.

(** * The folders of the store (metadata_generator.py)

    [extract_existing_folders] is the one function of the metadata
    generator that neither calls the model nor reads or writes YAML. *)

Module MetadataGenerator.

(** The order of [str]: by code points, a prefix first. *)
Fixpoint str_compare (a b : str) : comparison :=
  match a, b with
  | [], [] => Eq
  | [], _ :: _ => Lt
  | _ :: _, [] => Gt
  | x :: a', y :: b' =>
      match (x ?= y)%N with
      | Eq => str_compare a' b'
      | c => c
      end
  end.

(** [sorted(set(l))]: the elements of [l], each once, in ascending
    order. *)
Fixpoint insert_sorted (x : str) (l : list str) : list str :=
  match l with
  | [] => [x]
  | y :: l' =>
      match str_compare x y with
      | Lt => x :: y :: l'
      | Eq => y :: l'
      | Gt => y :: insert_sorted x l'
      end
  end.

Definition sorted_set (l : list str) : list str := foldr insert_sorted [] l.

(** The folder a document adds to the set, if any. *)
Definition folder_of (doc : Doc) : option str :=
  let path := default [] (doc_path doc) in
  if contains_char 47 path then
    (* Extract folder path (everything before last /) *)
    match QAAgent.rsplit1_head 47 path with
    | [] => None
    | folder => Some folder
    end
  else None.

Definition extract_existing_folders (documents : list Doc) : list str :=
  let folders := omap folder_of documents in
  let sorted_folders := sorted_set folders in
  slice_to 30 sorted_folders.

End MetadataGenerator.

Module FoldersSpec.

Import MetadataGenerator.

Lemma str_compare_eq (a b : list N) : str_compare a b = Eq -> a = b.
Proof.
  revert b. induction a as [|x a IH]; intros [|y b]; simpl;
    try discriminate; [reflexivity|].
  destruct (N.compare_spec x y) as [->| |]; try discriminate.
  intros Hrest. f_equal. apply IH, Hrest.
Qed.

Lemma str_compare_flip (a b : list N) :
  str_compare b a = CompOpp (str_compare a b).
Proof.
  revert b. induction a as [|x a IH]; intros [|y b]; simpl;
    try reflexivity.
  rewrite (N.compare_antisym x y).
  destruct (x ?= y)%N; simpl; [apply IH|reflexivity|reflexivity].
Qed.

Lemma str_compare_trans (a b c : list N) :
  str_compare a b = Lt -> str_compare b c = Lt -> str_compare a c = Lt.
Proof.
  revert b c. induction a as [|x a IH]; intros [|y b] [|z c]; simpl;
    try discriminate; try reflexivity.
  destruct (N.compare_spec x y) as [->|Hxy|Hxy]; try discriminate.
  - destruct (y ?= z)%N; try discriminate; [apply IH|reflexivity].
  - intros _. destruct (N.compare_spec y z) as [->|Hyz|Hyz];
      try discriminate.
    + intros _. apply N.compare_lt_iff in Hxy. rewrite Hxy. reflexivity.
    + intros _. assert (x < z)%N as Hxz by lia.
      apply N.compare_lt_iff in Hxz. rewrite Hxz. reflexivity.
Qed.

Definition strictly_ascending (l : list (list N)) : Prop :=
  StronglySorted (fun a b => str_compare a b = Lt) l.

Lemma insert_sorted_In (x y : list N) (l : list (list N)) :
  In y (insert_sorted x l) <-> y = x \/ In y l.
Proof.
  induction l as [|z l IH]; simpl; [intuition|].
  destruct (str_compare x z) eqn:E; simpl.
  - apply str_compare_eq in E. subst. intuition.
  - intuition.
  - rewrite IH. intuition.
Qed.

Lemma sorted_set_In (y : list N) (l : list (list N)) :
  In y (sorted_set l) <-> In y l.
Proof.
  unfold sorted_set. induction l as [|x l IH]; simpl; [reflexivity|].
  rewrite insert_sorted_In, IH. intuition.
Qed.

Lemma insert_sorted_ascending (x : list N) (l : list (list N)) :
  strictly_ascending l -> strictly_ascending (insert_sorted x l).
Proof.
  unfold strictly_ascending. induction l as [|y l IH]; intros Hs; simpl.
  - constructor; constructor.
  - inversion Hs as [|? ? Hl Hy]; subst.
    destruct (str_compare x y) eqn:E.
    + exact Hs.
    + constructor; [exact Hs|]. constructor; [exact E|].
      eapply Forall_impl; [exact Hy|]. simpl. intros z Hz.
      eapply str_compare_trans; eassumption.
    + constructor; [apply IH, Hl|].
      apply List.Forall_forall. intros z Hz.
      apply insert_sorted_In in Hz. destruct Hz as [->|Hz].
      * rewrite str_compare_flip, E. reflexivity.
      * rewrite List.Forall_forall in Hy. apply Hy, Hz.
Qed.

Lemma sorted_set_ascending (l : list (list N)) :
  strictly_ascending (sorted_set l).
Proof.
  unfold sorted_set. induction l as [|x l IH]; simpl.
  - constructor.
  - apply insert_sorted_ascending, IH.
Qed.

(** The part before the last separator. *)
Lemma rsplit1_head_split (sep : N) (s : list N) :
  contains_char sep s = true ->
  exists name,
    s = QAAgent.rsplit1_head sep s ++ sep :: name
    /\ contains_char sep name = false.
Proof.
  intros Hc. unfold QAAgent.rsplit1_head. rewrite Hc.
  destruct (TextExtras.after_first_split sep (rev s)) as (before & Heq & Hfree).
  { rewrite TextExtras.contains_char_rev. exact Hc. }
  exists (rev before). split.
  - rewrite <- (rev_involutive s) at 1. rewrite Heq at 1.
    rewrite rev_app_distr. simpl. rewrite <- app_assoc. reflexivity.
  - rewrite TextExtras.contains_char_rev. exact Hfree.
Qed.

(** X24.  [extract_existing_folders] returns at most 30 folders, in
    strictly ascending order of their names (by code points), so none
    twice; the frequency of a folder plays no part.  Each folder returned
    is not empty and is what stands before the last slash of the path of
    some document.  A folder of a document that is left out comes after
    all 30 that are returned. *)
Theorem existing_folders_sorted (documents : list Doc) :
  let folders := extract_existing_folders documents in
  (length folders <= 30)%nat
  /\ strictly_ascending folders
  /\ Forall (fun folder =>
               folder <> []
               /\ exists doc name,
                    In doc documents
                    /\ doc_path doc = Some (folder ++ 47%N :: name)
                    /\ contains_char 47 name = false) folders
  /\ Forall (fun doc =>
               match folder_of doc with
               | Some folder =>
                   In folder folders
                   \/ (length folders = 30%nat
                       /\ Forall (fun g => str_compare g folder = Lt)
                                 folders)
               | None => True
               end) documents.
Proof.
  cbv zeta. unfold extract_existing_folders.
  set (all := sorted_set (omap folder_of documents)).
  assert (slice_to 30 all = take 30 all) as -> by reflexivity.
  assert (strictly_ascending all) as Hsorted by apply sorted_set_ascending.
  assert (forall f, In f all
                    <-> exists doc, In doc documents /\ folder_of doc = Some f)
    as Hin.
  { intros f. unfold all. rewrite sorted_set_In.
    rewrite <- list_elem_of_In, list_elem_of_omap.
    split; intros (doc & Hd & Hf); exists doc;
      (split; [apply list_elem_of_In, Hd|exact Hf]). }
  split; [rewrite length_take; lia|].
  split.
  { unfold strictly_ascending in *.
    rewrite <- (take_drop 30 all) in Hsorted.
    eapply IndexerExtras.sorted_app_l, Hsorted. }
  split.
  - apply List.Forall_forall. intros f Hf.
    apply IndexerExtras.In_take, Hin in Hf. destruct Hf as (doc & Hd & Hf).
    unfold folder_of in Hf. cbv zeta in Hf.
    destruct (contains_char 47 (default [] (doc_path doc))) eqn:Hc;
      [|discriminate].
    destruct (rsplit1_head_split 47 _ Hc) as (name & Hsplit & Hname).
    destruct (QAAgent.rsplit1_head 47 (default [] (doc_path doc)))
      as [|c folder] eqn:Hhead; [discriminate|].
    injection Hf as <-. split; [discriminate|].
    exists doc, name. split; [exact Hd|]. split; [|exact Hname].
    destruct (doc_path doc) as [path|]; simpl in *; [|discriminate].
    rewrite Hsplit at 1. reflexivity.
  - apply List.Forall_forall. intros doc Hd.
    destruct (folder_of doc) as [f|] eqn:Hf; [|exact I].
    assert (In f all) as Hall by (apply Hin; exists doc; split; assumption).
    rewrite <- (take_drop 30 all) in Hall. apply in_app_or in Hall.
    destruct Hall as [Hall|Hall]; [left; exact Hall|]. right.
    split.
    + rewrite length_take.
      assert (drop 30 all <> []) as Hne by (destruct (drop 30 all);
                                            [contradiction|discriminate]).
      destruct (Nat.le_gt_cases (length all) 30) as [Hle|Hgt]; [|lia].
      exfalso. apply Hne. apply drop_ge. exact Hle.
    + apply List.Forall_forall. intros g Hg.
      unfold strictly_ascending in Hsorted.
      rewrite <- (take_drop 30 all) in Hsorted.
      apply (IndexerExtras.sorted_app_between _ _ _ g f Hsorted Hg Hall).
Qed.

End FoldersSpec.

(** * The note taker (agents/note_taker.py)

    [SmartNoteTaker.process] with its collaborators: the document store,
    the metadata generator, the model and the vector store, and the
    clock, which is read three times. *)

Module SmartNoteTaker.

(** The dict of [extract_metadata], as far as [process] reads it. *)
Record Extracted := {
  ex_tags : option (list str);
  ex_category : option str;
  ex_summary : option str;
  ex_keywords : option (list str);
  ex_priority : option str;
  ex_has_tasks : option bool
}.

(** The document [process] creates. *)
Record NewDocument := {
  nd_id : str;
  nd_path : str;
  nd_data : str;
  nd_type : str;
  nd_mtime : Z;
  nd_ctime : Z;
  nd_size : Z
}.

Inductive act :=
| GetAllDocuments (limit : Z)
| ExtractMetadata (content : str) (existing_folders : list str)
| CreateDocument (doc : NewDocument)
| EmbedText (text : str)
| UpsertNote (note_id : str) (embedding : Embedding) (metadata : NotePayload).

Record Services := {
  get_all_documents : Z -> outcome (list Doc);
  extract_metadata : str -> list str -> outcome Extracted;
  enrich_frontmatter : str -> Extracted -> str -> pyval -> outcome str;
  create_document : NewDocument -> outcome unit;
  embedding_of : str -> outcome Embedding;   (* llm.embed_text *)
  upsert_note : str -> Embedding -> NotePayload -> outcome bool;
  strftime_now : str;      (* datetime.now().strftime('%Y-%m-%d_%H-%M-%S') *)
  mtime_now : Z;           (* int(datetime.now().timestamp() * 1000) *)
  ctime_now : Z
}.

Definition await {A} (a : act) (o : outcome A) : Prog (list act) A :=
  fun t => lift o (t ++ [a]).

Definition default_folders : list str :=
  [u "Inbox"; u "Projects"; u "Knowledge"; u "Tasks"; u "Ideas"].

Definition _get_existing_folders (sv : Services) : Prog (list act) (list str) :=
  try_except
    ((* Get recent documents to analyze folder structure *)
     let* docs := await (GetAllDocuments 200) (get_all_documents sv 200) in
     let folders := MetadataGenerator.extract_existing_folders docs in
     ret folders)
    (fun _ => ret default_folders).

(* ✅ Note saved!\n\n📁 Category: ` *)
Definition saved_head : str :=
  [9989]%N ++ u " Note saved!" ++ [10; 10; 128193]%N ++ u " Category: `".

(* `\n🏷 Tags:  *)
Definition saved_tags : str :=
  [96; 10; 127991; 32; 84; 97; 103; 115; 58; 32]%N.

(*  Priority:  *)
Definition saved_priority : str :=
  u " Priority: ".

(* \n\n💡 Summary:  *)
Definition saved_summary : str :=
  [10; 10; 128161]%N ++ u " Summary: ".

(* \n\n📄 File: ` *)
Definition saved_file : str :=
  [10; 10; 128196]%N ++ u " File: `".

(* `\n *)
Definition saved_tail : str :=
  [96; 10]%N.

(* ❌ Failed to save note:  *)
Definition failed_text : str :=
  [10060]%N ++ u " Failed to save note: ".

(** [{'high': '🔴', 'medium': '🟡', 'low': '🟢'}.get(priority, '🟡')] *)
Definition priority_emoji (priority : str) : str :=
  if str_eqb priority (u "high") then [128308]%N
  else if str_eqb priority (u "medium") then [128993]%N
  else if str_eqb priority (u "low") then [128994]%N
  else [128993]%N.

Definition process (sv : Services) (message : str)
    (context : gmap string pyval) : Prog (list act) AgentResponse :=
  try_except
    ((* Get existing folder structure *)
     let* existing_folders := _get_existing_folders sv in
     (* Extract metadata *)
     let* metadata :=
       await (ExtractMetadata message existing_folders)
             (extract_metadata sv message existing_folders) in
     (* Determine filename and path *)
     let timestamp := strftime_now sv in
     let category := default (u "Inbox") (ex_category metadata) in
     let filename := category ++ u "/Telegram_" ++ timestamp ++ u ".md" in
     (* Enrich content with frontmatter *)
     let username :=
       default (VStr (u "unknown")) (context !! "username"%string) in
     let* enriched_content :=
       lift (enrich_frontmatter sv message metadata (u "telegram")
                                username) in
     (* Create document for CouchDB (Obsidian LiveSync format) *)
     let doc :=
       {| nd_id := filename;
          nd_path := filename;
          nd_data := enriched_content;
          nd_type := u "leaf";
          nd_mtime := mtime_now sv;
          nd_ctime := ctime_now sv;
          nd_size := len enriched_content |} in
     (* Save to CouchDB *)
     let* result := await (CreateDocument doc) (create_document sv doc) in
     (* Generate embedding and save to vector store *)
     let* _ :=
       try_except
         (let embed_text :=
            default [] (ex_summary metadata) ++ u " " ++ message in
          let* embedding :=
            await (EmbedText (slice_to 8000 embed_text))
                  (embedding_of sv (slice_to 8000 embed_text)) in
          let payload :=
            {| np_category := category;
               np_tags := default [] (ex_tags metadata);
               np_keywords := default [] (ex_keywords metadata);
               np_mtime := nd_mtime doc;
               np_ctime := nd_ctime doc;
               np_summary := default [] (ex_summary metadata) |} in
          let* _ := await (UpsertNote filename embedding payload)
                          (upsert_note sv filename embedding payload) in
          ret tt)
         (fun _ => ret tt) (* Continue even if embedding fails *) in
     (* Build response *)
     let tags_str :=
       ResearchAgent.join (u ", ")
         (slice_to 5 (default [] (ex_tags metadata))) in
     let priority := default (u "medium") (ex_priority metadata) in
     let response_text :=
       saved_head ++ category ++ saved_tags ++ tags_str ++ [10%N]
       ++ priority_emoji priority ++ saved_priority ++ priority
       ++ saved_summary
       ++ slice_to 200 (default (u "N/A") (ex_summary metadata))
       ++ saved_file ++ filename ++ saved_tail in
     ret {| text := response_text;
            success := true;
            metadata :=
              Some (<["note_id"%string := VStr filename]>
                    (<["category"%string := VStr category]>
                     (<["tags"%string :=
                          VStrList (default [] (ex_tags metadata))]>
                      {[ "has_tasks"%string :=
                           VBool (default false (ex_has_tasks metadata)) ]})));
            suggested_actions := None |})
    (fun e =>
       ret {| text := failed_text ++ e;
              success := false;
              metadata := None;
              suggested_actions := None |}).

End SmartNoteTaker.

Module NoteTakerSpec.

Import SmartNoteTaker.

(** The folders the metadata extraction is given: those of the store, or
    the five default ones when the store cannot be read. *)
Definition folders_of (sv : Services) : list (list N) :=
  match get_all_documents sv 200 with
  | Returns docs => MetadataGenerator.extract_existing_folders docs
  | Fails _ => default_folders
  end.

Lemma get_existing_folders_run (sv : Services) (t : list act) :
  _get_existing_folders sv t
  = (Ok (folders_of sv), t ++ [GetAllDocuments 200]).
Proof.
  unfold _get_existing_folders, folders_of, try_except, bind, await, ret.
  destruct (get_all_documents sv 200); reflexivity.
Qed.

(** The act is part of storing the note in the vector index. *)
Definition is_embedding (a : act) : Prop :=
  match a with
  | EmbedText _ | UpsertNote _ _ _ => True
  | _ => False
  end.

(** The act is not the creation of a document that the store took. *)
Definition not_created (sv : Services) (a : act) : Prop :=
  match a with
  | CreateDocument doc => create_document sv doc <> Returns tt
  | _ => True
  end.

(** X25.  The note taker always answers: [process] never raises.  It
    asks the store for 200 documents and hands their folders (the five
    default folders when the store fails) to the metadata extraction.
    It reports success exactly when the document was created; the
    document's identifier is its path and the 'note_id' of the response,
    and its size is the length of its data.  The embedding comes after
    the document is created, under the document's identifier, and a
    note that could not be saved is never embedded. *)
Theorem note_saved_before_embedding (sv : Services) (message : list N)
    (context : gmap string pyval) (t : list act) :
  exists r added,
    process sv message context t
    = (Ok r, t ++ [GetAllDocuments 200;
                   ExtractMetadata message (folders_of sv)] ++ added)
    /\ if success r
       then exists doc rest,
              added = CreateDocument doc :: rest
              /\ create_document sv doc = Returns tt
              /\ nd_path doc = nd_id doc
              /\ nd_size doc = len (nd_data doc)
              /\ match metadata r with
                 | Some m => m !! "note_id"%string = Some (VStr (nd_id doc))
                 | None => False
                 end
              /\ (exists text,
                    rest = [EmbedText text]
                    \/ exists embedding payload,
                         rest = [EmbedText text;
                                 UpsertNote (nd_id doc) embedding payload])
       else Forall (fun a => ~ is_embedding a) added
            /\ Forall (not_created sv) added
            /\ exists e, text r = failed_text ++ e.
Proof.
  unfold process. unfold try_except at 1. unfold bind at 1.
  rewrite get_existing_folders_run.
  unfold bind at 1, await at 1.
  destruct (extract_metadata sv message (folders_of sv)) as [md|e1];
    unfold lift, ret, raise; cbv beta iota.
  2:{ eexists. exists []. rewrite <- app_assoc. split; [reflexivity|].
      cbn [success text]. split; [constructor|]. split; [constructor|].
      eexists. reflexivity. }
  unfold bind at 1.
  destruct (enrich_frontmatter sv message md (u "telegram") _)
    as [content|e2];
    unfold lift, ret, raise; cbv beta iota.
  2:{ eexists. exists []. rewrite <- app_assoc. split; [reflexivity|].
      cbn [success text]. split; [constructor|]. split; [constructor|].
      eexists. reflexivity. }
  unfold bind at 1, await at 1.
  match goal with
  | |- context [create_document sv ?d] =>
      set (doc := d); destruct (create_document sv doc) as [[]|e3] eqn:Hdoc
  end;
    unfold lift, ret, raise; cbv beta iota.
  2:{ eexists. exists [CreateDocument doc]. rewrite <- !app_assoc.
      split; [reflexivity|]. cbn [success text].
      split; [constructor; [simpl; tauto|constructor]|].
      split; [constructor; [simpl; congruence|constructor]|].
      eexists. reflexivity. }
  unfold bind at 1, try_except, bind at 1, await at 1.
  match goal with
  | |- context [embedding_of sv ?x] =>
      set (input := x); destruct (embedding_of sv input) as [embedding|e4]
  end;
    unfold lift, ret, raise; cbv beta iota.
  2:{ eexists. exists [CreateDocument doc; EmbedText input].
      rewrite <- !app_assoc. split; [reflexivity|]. cbn [success].
      exists doc, [EmbedText input].
      split; [reflexivity|]. split; [exact Hdoc|].
      split; [reflexivity|]. split; [reflexivity|].
      split; [reflexivity|]. exists input. left. reflexivity. }
  unfold bind at 1, await at 1.
  match goal with
  | |- context [upsert_note sv ?i ?v ?m] =>
      set (payload := m); destruct (upsert_note sv i v payload) as [stored|e5]
  end;
    unfold lift, ret, raise; cbv beta iota;
    (eexists;
     exists [CreateDocument doc; EmbedText input;
             UpsertNote (nd_id doc) embedding payload];
     rewrite <- !app_assoc; split; [reflexivity|]; cbn [success];
     exists doc, [EmbedText input;
                  UpsertNote (nd_id doc) embedding payload];
     split; [reflexivity|]; split; [exact Hdoc|];
     split; [reflexivity|]; split; [reflexivity|];
     split; [reflexivity|]; exists input; right;
     exists embedding, payload; reflexivity).
Qed.

(** The two services differ only in the model's embeddings and in the
    vector store. *)
Definition same_but_embedding (sv sv' : Services) : Prop :=
  get_all_documents sv' = get_all_documents sv
  /\ extract_metadata sv' = extract_metadata sv
  /\ enrich_frontmatter sv' = enrich_frontmatter sv
  /\ create_document sv' = create_document sv
  /\ strftime_now sv' = strftime_now sv
  /\ mtime_now sv' = mtime_now sv
  /\ ctime_now sv' = ctime_now sv.

(** X26.  The response of the note taker does not depend on the
    embedding: whether the model embeds the note or fails, and whether
    the vector store takes it or fails, the user is told the same, and a
    note that is saved but not indexed is reported like one that is. *)
Theorem response_ignores_embedding (sv sv' : Services) (message : list N)
    (context : gmap string pyval) (t : list act) :
  same_but_embedding sv sv' ->
  fst (process sv' message context t) = fst (process sv message context t).
Proof.
  intros (Hget & Hext & Henr & Hcre & Hstr & Hm & Hc).
  unfold process, _get_existing_folders.
  rewrite Hget, Hext, Henr, Hcre, Hstr, Hm, Hc.
  generalize (embedding_of sv') (upsert_note sv')
             (embedding_of sv) (upsert_note sv).
  intros embed' upsert' embed upsert.
  unfold try_except, bind, await, lift, ret, raise.
  repeat (match goal with
          | |- context [match ?o with Returns _ => _ | Fails _ => _ end] =>
              destruct o
          end; cbv beta iota);
    reflexivity.
Qed.

(** Services that store every note; the embedding and the vector store
    are as given. *)
Definition saving (embed : list N -> outcome Embedding)
    (store : list N -> Embedding -> NotePayload -> outcome bool) : Services :=
  {| get_all_documents := fun _ => Fails (u "offline");
     extract_metadata :=
       fun _ _ => Returns {| ex_tags := Some [u "idea"];
                             ex_category := Some (u "Ideas");
                             ex_summary := Some (u "An idea.");
                             ex_keywords := None;
                             ex_priority := Some (u "low");
                             ex_has_tasks := Some false |};
     enrich_frontmatter := fun content _ _ _ => Returns content;
     create_document := fun _ => Returns tt;
     embedding_of := embed;
     upsert_note := store;
     strftime_now := u "2025-01-01_00-00-00";
     mtime_now := 1735689600000;
     ctime_now := 1735689600000 |}.

Definition indexing : Services :=
  saving (fun _ => Returns [1 # 2]) (fun _ _ _ => Returns true).

Definition not_indexing : Services :=
  saving (fun _ => Fails (u "no OpenAI provider"))
         (fun _ _ _ => Fails (u "offline")).

Lemma response_ignores_embedding_witness :
  fst (process not_indexing (u "an idea worth keeping") ∅ [])
  = fst (process indexing (u "an idea worth keeping") ∅ []).
Proof.
  apply (response_ignores_embedding indexing not_indexing
           (u "an idea worth keeping") ∅ []).
  repeat split.
Defined.

(** A run with a store that cannot list its documents and a model that
    cannot embed: the note is saved under the category of the metadata,
    and the failure of the embedding is not reported. *)
Example note_saved_without_embedding :
  exists r,
    process not_indexing (u "an idea worth keeping") ∅ []
    = (Ok r,
       [GetAllDocuments 200;
        ExtractMetadata (u "an idea worth keeping") default_folders;
        CreateDocument
          {| nd_id := u "Ideas/Telegram_2025-01-01_00-00-00.md";
             nd_path := u "Ideas/Telegram_2025-01-01_00-00-00.md";
             nd_data := u "an idea worth keeping";
             nd_type := u "leaf";
             nd_mtime := 1735689600000;
             nd_ctime := 1735689600000;
             nd_size := 21 |};
        EmbedText (u "An idea. an idea worth keeping")])
    /\ success r = true.
Proof. eexists. split; [vm_compute; reflexivity|reflexivity]. Qed.

End NoteTakerSpec.

(** * The Telegram handlers (bot.py)

    The handlers that read or write the research flag of
    [context.user_data], and [start_command], which the bot names as the
    way to cancel research mode.  Telegram, the director and the other
    commands are collaborators: each answers a call, and its answer may
    depend on the calls made before. *)

Module Bot.

Record User := {
  user_id : Z;
  username : option str;
  first_name : str
}.

Inductive call :=
| ReplyText (text : str) (parse_mode : option str)
            (reply_markup : list (str * str))
| SendAction (action : str)
| RouteMessage (content : str) (user_context : gmap string pyval)
| SaveQuickNote (content : str)
| Answer
| EditMessageText (text : str) (parse_mode : option str)
| RecentCommand
| SummaryCommand.

Record Env := {
  telegram_admin_id : Z;
  (* the global [director]; [None] when the agents failed to start *)
  director : option (list call -> outcome AgentResponse);
  telegram : list call -> outcome unit;
  save_quick_note : list call -> outcome unit;
  recent_command : list call -> outcome unit;
  summary_command : list call -> outcome unit
}.

(** [context.user_data] and the calls made so far. *)
Record Chat := {
  user_data : gmap string pyval;
  calls : list call
}.

Definition B := Prog Chat.

Definition self : B Chat := fun s => (Ok s, s).

Definition await {A} (c : call) (answer : list call -> outcome A) : B A :=
  fun s => lift (answer (calls s ++ [c]))
                {| user_data := user_data s; calls := calls s ++ [c] |}.

(** [context.user_data[key] = value] *)
Definition set_user_data (key : string) (value : pyval) : B unit :=
  fun s => (Ok tt, {| user_data := <[key := value]> (user_data s);
                      calls := calls s |}).

(* This bot works only for the Second Brain owner. *)
Definition not_owner_text : str :=
  u "This bot works only for the Second Brain owner.".

(* 🔍 Research Topic *)
Definition research_button : str :=
  [128269]%N ++ u " Research Topic".

(* 📝 Recent Notes *)
Definition recent_button : str :=
  [128221]%N ++ u " Recent Notes".

(* 📊 Daily Summary *)
Definition summary_button : str :=
  [128202]%N ++ u " Daily Summary".

(* ❓ Help *)
Definition help_button : str :=
  [10067; 32; 72; 101; 108; 112]%N.

(* Hi,  *)
Definition greeting_head : str :=
  u "Hi, ".

(* ! I'm your intelligent Second Brain bot 🧠\n\nI can:\n• 📝 Save notes with
   smart categorization\n• ❓ Answer questions from your knowledge base\n• 🔍
   Research topics deeply\n\nJust send me:\n• Any text → I'll save it as a
   smart note\n• A question → I'll search and answer\n• Use Research button
   → Deep topic analysis *)
Definition greeting_body : str :=
  u "! I'm your intelligent Second Brain bot " ++ [129504; 10; 10; 73; 32;
  99; 97; 110; 58; 10; 8226; 32; 128221]%N ++
  u " Save notes with smart categorization" ++ [10; 8226; 32; 10067]%N ++
  u " Answer questions from your knowledge base" ++ [10; 8226; 32;
  128269]%N ++ u " Research topics deeply" ++ [10; 10]%N ++
  u "Just send me:" ++ [10; 8226]%N ++ u " Any text " ++ [8594]%N ++
  u " I'll save it as a smart note" ++ [10; 8226]%N ++ u " A question " ++
  [8594]%N ++ u " I'll search and answer" ++ [10; 8226]%N ++
  u " Use Research button " ++ [8594]%N ++ u " Deep topic analysis".

(* ❌ Error processing your message:  *)
Definition error_text : str :=
  [10060]%N ++ u " Error processing your message: ".

(* 🔍 **Research Mode Activated**\n\nSend me a topic to research, and
   I'll:\n• Analyze all related notes\n• Find connections and patterns\n•
   Provide deep insights\n\nExample: ''machine learning deployment''\n\nSend
   /start to cancel. *)
Definition research_mode_text : str :=
  [128269]%N ++ u " **Research Mode Activated**" ++ [10; 10]%N ++
  u "Send me a topic to research, and I'll:" ++ [10; 8226]%N ++
  u " Analyze all related notes" ++ [10; 8226]%N ++
  u " Find connections and patterns" ++ [10; 8226]%N ++
  u " Provide deep insights" ++ [10; 10]%N ++ u "Example: " ++ [34]%N ++
  u "machine learning deployment" ++ [34; 10; 10]%N ++
  u "Send /start to cancel.".

(* 🧠 **Second Brain Bot Help**\n\n**Intelligent Features:**\n• Send any text
   → Smart note with auto-categorization\n• Ask a question → AI-powered
   answer from your notes\n• Research button → Deep topic
   analysis\n\n**Commands:**\n/start - main menu\n/recent - last 10
   notes\n/summary - daily summary\n/search <query> - search notes\n/help -
   this help\n\nThe bot automatically detects:\n❓ Questions → Q&A mode\n📝
   Statements → Note taking\n🔍 Research → Deep analysis *)
Definition help_text : str :=
  [129504]%N ++ u " **Second Brain Bot Help**" ++ [10; 10]%N ++
  u "**Intelligent Features:**" ++ [10; 8226]%N ++ u " Send any text " ++
  [8594]%N ++ u " Smart note with auto-categorization" ++ [10; 8226]%N ++
  u " Ask a question " ++ [8594]%N ++
  u " AI-powered answer from your notes" ++ [10; 8226]%N ++
  u " Research button " ++ [8594]%N ++ u " Deep topic analysis" ++ [10;
  10]%N ++ u "**Commands:**" ++ [10]%N ++ u "/start - main menu" ++
  [10]%N ++ u "/recent - last 10 notes" ++ [10]%N ++
  u "/summary - daily summary" ++ [10]%N ++
  u "/search <query> - search notes" ++ [10]%N ++ u "/help - this help" ++
  [10; 10]%N ++ u "The bot automatically detects:" ++ [10; 10067]%N ++
  u " Questions " ++ [8594]%N ++ u " Q&A mode" ++ [10; 128221]%N ++
  u " Statements " ++ [8594]%N ++ u " Note taking" ++ [10; 128269]%N ++
  u " Research " ++ [8594]%N ++ u " Deep analysis".

Definition keyboard : list (str * str) :=
  [ (research_button, u "research");
    (recent_button, u "recent");
    (summary_button, u "summary");
    (help_button, u "help") ].

Definition start_command (env : Env) (user : User) : B unit :=
  if negb (user_id user =? telegram_admin_id env)
  then await (ReplyText not_owner_text None []) (telegram env)
  else
    await (ReplyText (greeting_head ++ first_name user ++ greeting_body)
                     None keyboard)
          (telegram env).

(** [user.username or user.first_name] *)
Definition display_name (user : User) : str :=
  match username user with
  | Some (c :: name) => c :: name
  | _ => first_name user
  end.

Definition handle_text_message (env : Env) (user : User) (content : str)
  : B unit :=
  if negb (user_id user =? telegram_admin_id env) then ret tt
  else if startswith content (u "/") then ret tt   (* Ignore commands *)
  else
    match director env with
    | None =>
        (* fall back to simple note saving *)
        await (SaveQuickNote content) (save_quick_note env)
    | Some route_message =>
        try_except
          (let* s := self in
           (* Build context for agents *)
           let user_context : gmap string pyval :=
             <["user_id"%string := VInt (user_id user)]>
               (<["username"%string := VStr (display_name user)]>
                  {[ "awaiting_research"%string :=
                       default (VBool false)
                         (user_data s !! "awaiting_research"%string) ]}) in
           (* Show typing indicator *)
           let* _ := await (SendAction (u "typing")) (telegram env) in
           (* Route message through director *)
           let* response :=
             await (RouteMessage content user_context) route_message in
           (* Clear research mode if it was active *)
           let* s := self in
           let* _ :=
             if truthy (default VNone
                          (user_data s !! "awaiting_research"%string))
             then set_user_data "awaiting_research" (VBool false)
             else ret tt in
           (* Send response *)
           await (ReplyText (text response) (Some (u "Markdown")) [])
                 (telegram env))
          (fun e => await (ReplyText (error_text ++ e) None [])
                          (telegram env))
    end.

Definition button_callback (env : Env) (user : User) (data : str) : B unit :=
  let* _ := await Answer (telegram env) in
  if negb (user_id user =? telegram_admin_id env) then ret tt
  else if str_eqb data (u "research") then
    (* Activate Research mode *)
    let* _ := set_user_data "awaiting_research" (VBool true) in
    await (EditMessageText research_mode_text (Some (u "Markdown")))
          (telegram env)
  else if str_eqb data (u "recent") then
    await RecentCommand (recent_command env)
  else if str_eqb data (u "summary") then
    await SummaryCommand (summary_command env)
  else if str_eqb data (u "help") then
    await (EditMessageText help_text (Some (u "Markdown"))) (telegram env)
  else ret tt.

End Bot.

Module BotSpec.

Import Bot.

(** The research flag as the agents and the handlers read it. *)
Definition research_mode (s : Chat) : bool :=
  truthy (default VNone (user_data s !! "awaiting_research"%string)).

(** The context the director is given for a message of [user]. *)
Definition user_context_of (user : User) (s : Chat) : gmap string pyval :=
  <["user_id"%string := VInt (user_id user)]>
    (<["username"%string := VStr (display_name user)]>
       {[ "awaiting_research"%string :=
            default (VBool false)
              (user_data s !! "awaiting_research"%string) ]}).

(** X27.  Research mode lasts for one message.  When a text of the
    owner is routed and the director returns, the director has been
    given the research flag as it stood, the flag is off afterwards
    whatever it was, nothing else of the user data has changed, and the
    text of the response has been sent as Markdown; if that last call
    fails, the error text is sent as well, and the flag stays off. *)
Theorem research_mode_lasts_one_message (env : Env) (user : User)
    (content : list N) (s : Chat)
    (route_message : list call -> outcome AgentResponse)
    (response : AgentResponse) :
  user_id user = telegram_admin_id env ->
  startswith content (u "/") = false ->
  director env = Some route_message ->
  telegram env (calls s ++ [SendAction (u "typing")]) = Returns tt ->
  route_message (calls s ++ [SendAction (u "typing");
                             RouteMessage content (user_context_of user s)])
  = Returns response ->
  exists r s' rest,
    handle_text_message env user content s = (r, s')
    /\ calls s'
       = calls s ++ [SendAction (u "typing");
                     RouteMessage content (user_context_of user s);
                     ReplyText (text response) (Some (u "Markdown")) []]
         ++ rest
    /\ (rest = [] \/ exists e, rest = [ReplyText (error_text ++ e) None []])
    /\ research_mode s' = false
    /\ (forall key, key <> "awaiting_research"%string ->
          user_data s' !! key = user_data s !! key).
Proof.
  intros Hadmin Hslash Hdirector Htyping Hroute.
  unfold handle_text_message.
  replace (user_id user =? telegram_admin_id env) with true
    by (symmetry; apply Z.eqb_eq, Hadmin).
  rewrite Hslash, Hdirector. cbn [negb].
  unfold try_except, bind at 1, self at 1. cbv beta iota zeta.
  fold (user_context_of user s).
  unfold bind at 1, await at 1. cbn [calls user_data].
  rewrite Htyping. unfold lift at 1, ret at 1. cbv beta iota.
  unfold bind at 1, await at 1. cbn [calls user_data].
  rewrite <- app_assoc. cbn [app]. rewrite Hroute.
  unfold lift at 1, ret at 1. cbv beta iota.
  unfold bind at 1, self at 1. cbv beta iota. cbn [calls user_data].
  unfold bind at 1.
  destruct (truthy (default VNone
                      (user_data s !! "awaiting_research"%string)))
    eqn:Hflag;
    unfold set_user_data, await, ret; cbv beta iota;
    cbn [calls user_data]; rewrite <- !app_assoc; cbn [app];
    (destruct (telegram env
                 (calls s ++ [SendAction (u "typing");
                              RouteMessage content (user_context_of user s);
                              ReplyText (text response)
                                        (Some (u "Markdown")) []]))
       as [[]|e];
     unfold lift at 1, raise; cbv beta iota;
     [ eexists; eexists; exists []; split; [reflexivity|]; cbn [calls];
       split; [reflexivity|]; split; [left; reflexivity|]
     | cbn [calls user_data]; rewrite <- !app_assoc; cbn [app];
       match goal with
       | |- context [telegram env ?h] =>
           destruct (telegram env h) as [[]|e']
       end;
       unfold lift; cbv beta iota;
       (eexists; eexists; exists [ReplyText (error_text ++ e) None []];
        split; [reflexivity|]; cbn [calls];
        split; [reflexivity|]; split; [right; exists e; reflexivity|]) ]);
    unfold research_mode; cbn [user_data];
    (split;
     [ first [rewrite lookup_insert; reflexivity | exact Hflag]
     | intros key Hkey;
       first [rewrite lookup_insert_ne by congruence; reflexivity
             | reflexivity] ]).
Qed.

(** X28.  Nothing but a routed message ends research mode.  The
    [start_command] leaves the user data as they are, a text that begins
    with a slash and a text of another user are dropped without a call,
    and so the flag that the research button sets survives them: the
    button's own message, "Send /start to cancel", names a command that
    does not cancel. *)
Theorem start_does_not_cancel_research (env : Env) (user : User)
    (s : Chat) :
  user_data (snd (start_command env user s)) = user_data s
  /\ (forall content,
        startswith content (u "/") = true ->
        handle_text_message env user content s = (Ok tt, s))
  /\ (user_id user <> telegram_admin_id env ->
      forall content, handle_text_message env user content s = (Ok tt, s))
  /\ (user_id user = telegram_admin_id env ->
      telegram env (calls s ++ [Answer]) = Returns tt ->
      let s1 := snd (button_callback env user (u "research") s) in
      calls s1 = calls s ++ [Answer;
                             EditMessageText research_mode_text
                                             (Some (u "Markdown"))]
      /\ contains (u "Send /start to cancel") research_mode_text = true
      /\ research_mode s1 = true
      /\ research_mode (snd (start_command env user s1)) = true).
Proof.
  assert (forall s0, user_data (snd (start_command env user s0))
                     = user_data s0) as Hstart.
  { intros s0. unfold start_command, await.
    destruct (negb (user_id user =? telegram_admin_id env));
      match goal with
      | |- context [telegram env ?h] => destruct (telegram env h) as [[]|e]
      end; reflexivity. }
  split; [apply Hstart|]. split.
  { intros content Hslash. unfold handle_text_message. rewrite Hslash.
    destruct (negb (user_id user =? telegram_admin_id env)); reflexivity. }
  split.
  { intros Hother content. unfold handle_text_message.
    destruct (Z.eqb_spec (user_id user) (telegram_admin_id env));
      [contradiction|reflexivity]. }
  intros Hadmin Hanswer. cbv zeta.
  assert (exists s1, button_callback env user (u "research") s = s1
                     /\ calls (snd s1)
                        = calls s ++ [Answer;
                                      EditMessageText research_mode_text
                                        (Some (u "Markdown"))]
                     /\ user_data (snd s1)
                        = <["awaiting_research"%string := VBool true]>
                            (user_data s))
    as (s1 & -> & Hcalls & Hdata).
  { unfold button_callback, bind at 1, await at 1. rewrite Hanswer.
    unfold lift at 1, ret at 1. cbv beta iota.
    replace (user_id user =? telegram_admin_id env) with true
      by (symmetry; apply Z.eqb_eq, Hadmin).
    cbn [negb].
    change (str_eqb (u "research") (u "research")) with true. cbv iota.
    unfold bind, set_user_data, await. cbn [calls user_data].
    match goal with
    | |- context [telegram env ?h] => destruct (telegram env h) as [[]|e]
    end;
      (eexists; split; [reflexivity|]; cbn [snd calls user_data];
       split; [rewrite <- app_assoc; reflexivity|reflexivity]). }
  split; [exact Hcalls|]. split; [vm_compute; reflexivity|].
  unfold research_mode. rewrite Hstart, Hdata, lookup_insert.
  split; reflexivity.
Qed.

(** The owner, a director that answers every message, and a chat in
    which the research button has been pressed. *)
Definition owner : User :=
  {| user_id := 42; username := Some (u "owner"); first_name := u "Owner" |}.

Definition research_results : AgentResponse :=
  {| text := u "Research results"; success := true;
     metadata := None; suggested_actions := None |}.

Definition answering : Env :=
  {| telegram_admin_id := 42;
     director := Some (fun _ => Returns research_results);
     telegram := fun _ => Returns tt;
     save_quick_note := fun _ => Returns tt;
     recent_command := fun _ => Returns tt;
     summary_command := fun _ => Returns tt |}.

Definition awaiting : Chat :=
  {| user_data := {[ "awaiting_research"%string := VBool true ]};
     calls := [] |}.

Lemma research_mode_lasts_one_message_witness :
  exists r s' rest,
    handle_text_message answering owner (u "graph databases") awaiting
    = (r, s')
    /\ calls s'
       = calls awaiting
         ++ [SendAction (u "typing");
             RouteMessage (u "graph databases")
                          (user_context_of owner awaiting);
             ReplyText (text research_results) (Some (u "Markdown")) []]
         ++ rest
    /\ (rest = [] \/ exists e, rest = [ReplyText (error_text ++ e) None []])
    /\ research_mode s' = false
    /\ (forall key, key <> "awaiting_research"%string ->
          user_data s' !! key = user_data awaiting !! key).
Proof.
  apply (research_mode_lasts_one_message answering owner
           (u "graph databases") awaiting
           (fun _ => Returns research_results) research_results);
    reflexivity.
Defined.

End BotSpec.

(** * The provider registry (llm/manager.py)

    [LLMManager] as the agents use it: [complete] and [embed_text].  The
    constructors of the two providers and the providers' own calls are
    collaborators; [complete_json], which only the metadata generator
    calls, goes the way of [complete] and is left out. *)

Module LLM.

Record LLMSettings := {
  anthropic_api_key : option str;
  openai_api_key : option str;
  default_llm_provider : str;
  openai_embedding_model : str;
  embedding_dimensions : Z
}.

(** A provider: its [complete] with the keyword arguments the agents
    pass, and its [embed]. *)
Record Provider := {
  complete_of : list ChatMessage -> option Q -> option Z -> outcome str;
  embed_of : str -> Z -> outcome Embedding
}.

(** [ClaudeProvider(api_key=...)] and
    [OpenAIProvider(api_key=..., embedding_model=...)] *)
Record Vendors := {
  ClaudeProvider : str -> outcome Provider;
  OpenAIProvider : str -> str -> outcome Provider
}.

(** [self._providers]: a dict, in the order of insertion. *)
Definition Providers := list (str * Provider).

Fixpoint provider_named (name : str) (providers : Providers)
  : option Provider :=
  match providers with
  | [] => None
  | (key, p) :: rest =>
      if str_eqb name key then Some p else provider_named name rest
  end.

Definition no_providers_text : str :=
  u "No LLM providers initialized. Please provide API keys in .env file.".

Definition _initialize_providers (v : Vendors) (settings : LLMSettings)
  : outcome Providers :=
  let providers : Providers := [] in
  (* Claude provider *)
  let providers :=
    match anthropic_api_key settings with
    | Some (c :: key) =>
        match ClaudeProvider v (c :: key) with
        | Returns p => providers ++ [(u "claude", p)]
        | Fails _ => providers
        end
    | _ => providers
    end in
  (* OpenAI provider *)
  let providers :=
    match openai_api_key settings with
    | Some (c :: key) =>
        match OpenAIProvider v (c :: key) (openai_embedding_model settings)
        with
        | Returns p => providers ++ [(u "openai", p)]
        | Fails _ => providers
        end
    | _ => providers
    end in
  match providers with
  | [] => Fails no_providers_text
  | _ => Returns providers
  end.

Record LLMManager := {
  settings : LLMSettings;
  _providers : Providers
}.

(** [LLMManager.__init__] *)
Definition init (v : Vendors) (settings : LLMSettings) : outcome LLMManager :=
  match _initialize_providers v settings with
  | Returns providers =>
      Returns {| settings := settings; _providers := providers |}
  | Fails e => Fails e
  end.

(** [list_providers] *)
Definition list_providers (self : LLMManager) : list str :=
  map fst (_providers self).

(** [is_available] *)
Definition is_available (self : LLMManager) (provider : str) : bool :=
  str_in provider (list_providers self).

(** [name or self.settings.default_llm_provider] *)
Definition provider_name (self : LLMManager) (name : option str) : str :=
  match name with
  | Some (c :: n) => c :: n
  | _ => default_llm_provider (settings self)
  end.

Definition not_available_text (self : LLMManager) (name : str) : str :=
  u "Provider '" ++ name ++ u "' not available. Available providers: "
  ++ ResearchAgent.join (u ", ") (list_providers self).

Definition get_provider (self : LLMManager) (name : option str)
  : outcome Provider :=
  let provider_name := provider_name self name in
  match provider_named provider_name (_providers self) with
  | None => Fails (not_available_text self provider_name)
  | Some p => Returns p
  end.

Definition complete (self : LLMManager) (messages : list ChatMessage)
    (provider : option str) (temperature : option Q) (max_tokens : option Z)
  : outcome str :=
  match get_provider self provider with
  | Returns llm => complete_of llm messages temperature max_tokens
  | Fails e => Fails e
  end.

Definition openai_required_text : str :=
  u "OpenAI provider required for embeddings. Please set OPENAI_API_KEY in .env".

Definition embed_text (self : LLMManager) (text : str)
    (dimensions : option Z) : outcome Embedding :=
  match provider_named (u "openai") (_providers self) with
  | None => Fails openai_required_text
  | Some openai =>
      let dims :=
        match dimensions with
        | Some d => if d =? 0 then embedding_dimensions (settings self) else d
        | None => embedding_dimensions (settings self)
        end in
      embed_of openai text dims
  end.

End LLM.

Module LLMSpec.

Import LLM.

(** The provider that the settings and the vendor yield, if any. *)
Definition claude_of (v : Vendors) (st : LLMSettings) : option Provider :=
  match anthropic_api_key st with
  | Some (c :: key) =>
      match ClaudeProvider v (c :: key) with
      | Returns p => Some p
      | Fails _ => None
      end
  | _ => None
  end.

Definition openai_of (v : Vendors) (st : LLMSettings) : option Provider :=
  match openai_api_key st with
  | Some (c :: key) =>
      match OpenAIProvider v (c :: key) (openai_embedding_model st) with
      | Returns p => Some p
      | Fails _ => None
      end
  | _ => None
  end.

Lemma initialize_providers_run (v : Vendors) (st : LLMSettings) :
  _initialize_providers v st
  = match claude_of v st, openai_of v st with
    | None, None => Fails no_providers_text
    | Some c, None => Returns [(u "claude", c)]
    | None, Some o => Returns [(u "openai", o)]
    | Some c, Some o => Returns [(u "claude", c); (u "openai", o)]
    end.
Proof.
  unfold _initialize_providers, claude_of, openai_of.
  destruct (anthropic_api_key st) as [[|c key]|];
    destruct (openai_api_key st) as [[|c' key']|];
    try destruct (ClaudeProvider v _); try destruct (OpenAIProvider v _ _);
    reflexivity.
Qed.

(** X29.  The manager is constructed exactly when at least one provider
    is: a provider whose key is missing or empty is not tried, and one
    whose constructor raises is dropped without failing the other.  The
    providers are listed as "claude" before "openai", each is available
    under its own name only, and with none the constructor raises. *)
Theorem manager_needs_one_provider (v : Vendors) (st : LLMSettings) :
  match init v st with
  | Fails msg =>
      claude_of v st = None /\ openai_of v st = None
      /\ msg = no_providers_text
  | Returns m =>
      settings m = st
      /\ list_providers m
         = (if claude_of v st is Some _ then [u "claude"] else [])
           ++ (if openai_of v st is Some _ then [u "openai"] else [])
      /\ list_providers m <> []
      /\ provider_named (u "claude") (_providers m) = claude_of v st
      /\ provider_named (u "openai") (_providers m) = openai_of v st
      /\ forall name,
           is_available m name = true
           <-> (name = u "claude" /\ claude_of v st <> None)
               \/ (name = u "openai" /\ openai_of v st <> None)
  end.
Proof.
  assert (forall a b : list N, str_eqb a b = true <-> a = b) as Heqb.
  { intros a b. unfold str_eqb. apply bool_decide_eq_true. }
  unfold init. rewrite initialize_providers_run.
  destruct (claude_of v st) as [c|]; destruct (openai_of v st) as [o|];
    cbn [settings _providers list_providers map fst provider_named app].
  - repeat (split; [first [reflexivity|discriminate]|]).
    intros name. unfold is_available. cbn. rewrite !orb_false_r.
    rewrite orb_true_iff, !Heqb. intuition congruence.
  - repeat (split; [first [reflexivity|discriminate]|]).
    intros name. unfold is_available. cbn. rewrite !orb_false_r.
    rewrite Heqb. intuition congruence.
  - repeat (split; [first [reflexivity|discriminate]|]).
    intros name. unfold is_available. cbn. rewrite !orb_false_r.
    rewrite Heqb. intuition congruence.
  - repeat split.
Qed.

(** The provider that the settings select for a completion without a
    provider name. *)
Definition default_of (v : Vendors) (st : LLMSettings) : option Provider :=
  if str_eqb (default_llm_provider st) (u "claude") then claude_of v st
  else if str_eqb (default_llm_provider st) (u "openai") then openai_of v st
  else None.

(** X30.  There is no fallback between providers.  On a manager that
    was constructed, a completion for which no provider is named goes to
    the default provider of the settings and to no other: when that
    provider has no key, or its constructor raised, or the default names
    neither "claude" nor "openai", the call raises although another
    provider is there.  Embeddings go to the OpenAI provider whatever the
    default is, with the dimensions of the settings, and raise without
    it. *)
Theorem no_fallback_between_providers (v : Vendors) (st : LLMSettings)
    (m : LLMManager) (messages : list ChatMessage) (temperature : option Q)
    (max_tokens : option Z) (text : list N) :
  init v st = Returns m ->
  complete m messages None temperature max_tokens
  = match default_of v st with
    | Some p => complete_of p messages temperature max_tokens
    | None => Fails (not_available_text m (default_llm_provider st))
    end
  /\ embed_text m text None
     = match openai_of v st with
       | Some p => embed_of p text (embedding_dimensions st)
       | None => Fails openai_required_text
       end.
Proof.
  unfold init. rewrite initialize_providers_run.
  unfold complete, get_provider, embed_text, default_of.
  destruct (claude_of v st) as [c|]; destruct (openai_of v st) as [o|];
    intros [= <-];
    cbn [settings _providers provider_name provider_named];
    change (str_eqb (u "openai") (u "claude")) with false;
    change (str_eqb (u "openai") (u "openai")) with true;
    cbv iota;
    (destruct (str_eqb (default_llm_provider st) (u "claude")) eqn:Hc;
     [ apply bool_decide_eq_true in Hc; try rewrite Hc;
       change (str_eqb (u "claude") (u "openai")) with false;
       change (str_eqb (u "claude") (u "claude")) with true; cbv iota
     | try destruct (str_eqb (default_llm_provider st) (u "openai")) ]);
    split; reflexivity.
Qed.

(** Only an OpenAI key is set, and the default provider is left at
    "claude": the manager starts, embeds, and completes nothing. *)
Definition echo : Provider :=
  {| complete_of := fun _ _ _ => Returns (u "note");
     embed_of := fun _ _ => Returns [1 # 2] |}.

Definition vendors : Vendors :=
  {| ClaudeProvider := fun _ => Returns echo;
     OpenAIProvider := fun _ _ => Returns echo |}.

Definition openai_only : LLMSettings :=
  {| anthropic_api_key := None;
     openai_api_key := Some (u "sk-test");
     default_llm_provider := u "claude";
     openai_embedding_model := u "text-embedding-3-small";
     embedding_dimensions := 1536 |}.

Example openai_only_completes_nothing :
  exists m,
    init vendors openai_only = Returns m
    /\ list_providers m = [u "openai"]
    /\ complete m [(u "user", u "hello")] None (Some (1 # 10)) None
       = Fails (u "Provider 'claude' not available. Available providers: openai")
    /\ embed_text m (u "hello") None = Returns [1 # 2].
Proof. eexists. repeat split. Qed.

Lemma no_fallback_between_providers_witness :
  complete {| settings := openai_only; _providers := [(u "openai", echo)] |}
    [(u "user", u "hello")] None (Some (1 # 10)) None
  = match default_of vendors openai_only with
    | Some p => complete_of p [(u "user", u "hello")] (Some (1 # 10)) None
    | None =>
        Fails (not_available_text
                 {| settings := openai_only;
                    _providers := [(u "openai", echo)] |}
                 (default_llm_provider openai_only))
    end
  /\ embed_text {| settings := openai_only;
                   _providers := [(u "openai", echo)] |} (u "hello") None
     = match openai_of vendors openai_only with
       | Some p => embed_of p (u "hello") (embedding_dimensions openai_only)
       | None => Fails openai_required_text
       end.
Proof.
  apply (no_fallback_between_providers vendors openai_only
           {| settings := openai_only; _providers := [(u "openai", echo)] |}
           [(u "user", u "hello")] (Some (1 # 10)) None (u "hello")).
  reflexivity.
Defined.

End LLMSpec.
